(** * Agent0: goal resolution and the agent control loop

    A shallow embedding of the Python sources

      - [agents/google_agent.py]  (GoogleAgentToolkit.execute,
                                   GoogleAgent._extract_parameters)
      - [tools/gmail.py]          (QueryGmail.run, listing path)
      - [tools/base.py]           (Tool, NoopTool)
      - [agent/state.py], [agent/memory.py], [agent/agent.py]
      - [agent/planner.py]        (ClaudePlanner._execute_plan)

    Python strings are modelled by [string]; the embedding covers ASCII
    text: [lower] folds A-Z, the regular-expression classes [\s], [\w]
    and [\b] are the ASCII ones.  Python integers are [Z].  Dictionaries
    whose order is observable are association lists; the tool registries
    are [gmap]s.

    What lies outside the sources is a parameter: the outside world [W]
    that tools, planner and model client read and change, the clock
    ([now]), the Gmail service, [json.loads], and the interpreter's
    [repr].  Calls return an [Outcome]: a value, or an exception of a
    class deriving from [Exception].  The [while] loop of [run_agent]
    may run forever (no bound, no "done"); it is defined with a bound
    on the number of passes, and every statement about a run says which
    bounds give a result. *)

From Stdlib Require Import ZArith String Ascii List Lia Bool DecimalString.
From stdpp Require Import base option gmap strings.
Import ListNotations.

Local Open Scope string_scope.
Local Open Scope Z_scope.

(** [simpl] may unfold the concatenation of strings. *)
#[local] Arguments String.append !s1 s2 : simpl nomatch.

(* ===================================================================== *)
(** ** Python strings *)
(* ===================================================================== *)

Module PyStr.

Definition code (c : ascii) : nat := nat_of_ascii c.

Definition between (lo hi : nat) (c : ascii) : bool :=
  (Nat.leb lo (code c) && Nat.leb (code c) hi)%bool.

Definition is_upper (c : ascii) : bool := between 65 90 c.
Definition is_lower (c : ascii) : bool := between 97 122 c.
Definition is_digit (c : ascii) : bool := between 48 57 c.
Definition is_alpha (c : ascii) : bool := (is_upper c || is_lower c)%bool.
Definition is_alnum (c : ascii) : bool := (is_alpha c || is_digit c)%bool.

(** [\w] of the [re] module, on ASCII. *)
Definition is_word (c : ascii) : bool :=
  (is_alnum c || Ascii.eqb c "_")%bool.

(** [\s] of the [re] module and the characters removed by [str.strip()],
    on ASCII: TAB, LF, VT, FF, CR, FS, GS, RS, US and the space. *)
Definition is_space (c : ascii) : bool :=
  (between 9 13 c || between 28 32 c)%bool.

Definition lower_char (c : ascii) : ascii :=
  if is_upper c then ascii_of_nat (code c + 32) else c.

(** [s.lower()] *)
Fixpoint lower (s : string) : string :=
  match s with
  | EmptyString => EmptyString
  | String c s' => String (lower_char c) (lower s')
  end.

(** [s.startswith(p)] *)
Fixpoint startswith (p s : string) : bool :=
  match p, s with
  | EmptyString, _ => true
  | String a p', String b s' => (Ascii.eqb a b && startswith p' s')%bool
  | String _ _, EmptyString => false
  end.

(** The remainder of [s] after the prefix [p], when [s] starts with [p]. *)
Fixpoint strip_prefix (p s : string) : option string :=
  match p, s with
  | EmptyString, _ => Some s
  | String a p', String b s' =>
      if Ascii.eqb a b then strip_prefix p' s' else None
  | String _ _, EmptyString => None
  end.

(** [needle in hay] *)
Fixpoint contains (needle hay : string) : bool :=
  if startswith needle hay then true
  else match hay with
       | EmptyString => false
       | String _ hay' => contains needle hay'
       end.

(** [any(word in s for word in words)] *)
Definition contains_any (words : list string) (s : string) : bool :=
  existsb (fun w => contains w s) words.

(** [s[n:]] and [s[:n]] for [n >= 0]. *)
Fixpoint drop (n : nat) (s : string) : string :=
  match n, s with
  | O, _ => s
  | S n', String _ s' => drop n' s'
  | S _, EmptyString => EmptyString
  end.

Fixpoint take (n : nat) (s : string) : string :=
  match n, s with
  | O, _ => EmptyString
  | S n', String c s' => String c (take n' s')
  | S _, EmptyString => EmptyString
  end.

(** [s.lstrip()], [s.rstrip()] and [s.strip()] *)
Fixpoint lstrip (s : string) : string :=
  match s with
  | String c s' => if is_space c then lstrip s' else s
  | EmptyString => EmptyString
  end.

Fixpoint rstrip (s : string) : string :=
  match s with
  | EmptyString => EmptyString
  | String c s' =>
      match rstrip s' with
      | EmptyString => if is_space c then EmptyString else String c EmptyString
      | r => String c r
      end
  end.

Definition strip (s : string) : string := rstrip (lstrip s).

(** [s.endswith(p)] *)
Definition endswith (p s : string) : bool :=
  (Nat.leb (String.length p) (String.length s) &&
   String.eqb (drop (String.length s - String.length p) s) p)%bool.

(** [sep.join(items)] *)
Fixpoint join (sep : string) (items : list string) : string :=
  match items with
  | [] => EmptyString
  | [x] => x
  | x :: rest => x ++ sep ++ join sep rest
  end.

(** [str(n)] for an [int]. *)
Definition str_int (n : Z) : string := NilZero.string_of_int (Z.to_int n).

(** A field of fixed width [w] padded with zeros ([%02d], [%04d]),
    for a non-negative number. *)
Fixpoint zeros (n : nat) : string :=
  match n with O => EmptyString | S n' => String "0" (zeros n') end.

Definition zero_pad (w : nat) (n : Z) : string :=
  let s := str_int n in zeros (w - String.length s) ++ s.

(** The line feed, written [\n] in the sources. *)
Definition nl : string := String (ascii_of_nat 10) EmptyString.

End PyStr.

(* ===================================================================== *)
(** ** Python values, exceptions and call outcomes *)
(* ===================================================================== *)

(** The JSON-like values that travel between planner, tools and loop. *)
#[warnings="-register-all"]
Inductive PyVal : Type :=
| PNone
| PBool (b : bool)
| PInt (n : Z)
| PStr (s : string)
| PList (items : list PyVal)
| PDict (entries : list (string * PyVal)).

(** Exceptions deriving from [Exception], by the classes the handlers of
    the sources tell apart, with the text [str(exc)] gives. *)
Inductive ExnClass : Type :=
| FileNotFoundError | JSONDecodeError | NotImplementedError | TypeError
| ValueError | OverflowError | AttributeError | RuntimeError | OtherError.

Record Exn : Type := mkExn { exn_class : ExnClass; exn_str : string }.

Inductive Outcome (A : Type) : Type :=
| Returned (a : A)
| Raised (e : Exn).
Arguments Returned {A} a.
Arguments Raised {A} e.

Module Py.

(** Truth value of an object ([if x:], [x and ...]). *)
Definition truthy (v : PyVal) : bool :=
  match v with
  | PNone => false
  | PBool b => b
  | PInt n => negb (n =? 0)
  | PStr s => negb (String.eqb s "")
  | PList l => match l with [] => false | _ => true end
  | PDict d => match d with [] => false | _ => true end
  end.

Definition dict : Type := list (string * PyVal).

(** [d.get(k)] on the entries of a dictionary. *)
Fixpoint lookup (k : string) (d : dict) : option PyVal :=
  match d with
  | [] => None
  | (k', v) :: d' => if String.eqb k k' then Some v else lookup k d'
  end.

(** [d.get(k, default)] *)
Definition get (k : string) (default : PyVal) (d : dict) : PyVal :=
  match lookup k d with Some v => v | None => default end.

(** [d[k] = v]: replaces the value in place, or appends a new entry. *)
Fixpoint set (k : string) (v : PyVal) (d : dict) : dict :=
  match d with
  | [] => [(k, v)]
  | (k', v') :: d' =>
      if String.eqb k k' then (k', v) :: d' else (k', v') :: set k v d'
  end.

(** [k in d] *)
Definition has_key (k : string) (d : dict) : bool :=
  match lookup k d with Some _ => true | None => false end.

(** [type(v).__name__] *)
Definition type_name (v : PyVal) : string :=
  match v with
  | PNone => "NoneType"
  | PBool _ => "bool"
  | PInt _ => "int"
  | PStr _ => "str"
  | PList _ => "list"
  | PDict _ => "dict"
  end.

End Py.

(* ===================================================================== *)
(** ** Calendar dates

    The proleptic Gregorian arithmetic of Python's [datetime] (as in
    the reference implementation [_pydatetime.py]): a date is its
    ordinal, day 1 being 0001-01-01, a Monday. *)
(* ===================================================================== *)

Module Datetime.

Definition MINYEAR : Z := 1.
Definition MAXYEAR : Z := 9999.

Definition _is_leap (year : Z) : bool :=
  ((year mod 4 =? 0) && (negb (year mod 100 =? 0) || (year mod 400 =? 0)))%bool.

Definition _days_before_year (year : Z) : Z :=
  let y := year - 1 in y * 365 + y / 4 - y / 100 + y / 400.

Definition _DAYS_IN_MONTH (month : Z) : Z :=
  match month with
  | 1 => 31 | 2 => 28 | 3 => 31 | 4 => 30 | 5 => 31 | 6 => 30
  | 7 => 31 | 8 => 31 | 9 => 30 | 10 => 31 | 11 => 30 | 12 => 31
  | _ => -1
  end.

Definition _DAYS_BEFORE_MONTH (month : Z) : Z :=
  match month with
  | 1 => 0 | 2 => 31 | 3 => 59 | 4 => 90 | 5 => 120 | 6 => 151
  | 7 => 181 | 8 => 212 | 9 => 243 | 10 => 273 | 11 => 304 | 12 => 334
  | _ => -1
  end.

Definition _days_in_month (year month : Z) : Z :=
  if ((month =? 2) && _is_leap year)%bool then 29 else _DAYS_IN_MONTH month.

Definition _days_before_month (year month : Z) : Z :=
  _DAYS_BEFORE_MONTH month +
  (if ((2 <? month) && _is_leap year)%bool then 1 else 0).

Definition _ymd2ord (year month day : Z) : Z :=
  _days_before_year year + _days_before_month year month + day.

Definition _DI400Y : Z := 146097.
Definition _DI100Y : Z := 36524.
Definition _DI4Y : Z := 1461.

Definition _MAXORDINAL : Z := 3652059.

Definition _ord2ymd (n0 : Z) : Z * Z * Z :=
  let n := n0 - 1 in
  let n400 := n / _DI400Y in
  let n := n mod _DI400Y in
  let year := n400 * 400 + 1 in
  let n100 := n / _DI100Y in
  let n := n mod _DI100Y in
  let n4 := n / _DI4Y in
  let n := n mod _DI4Y in
  let n1 := n / 365 in
  let n := n mod 365 in
  let year := year + n100 * 100 + n4 * 4 + n1 in
  if ((n1 =? 4) || (n100 =? 4))%bool then (year - 1, 12, 31)
  else
    let leapyear := ((n1 =? 3) && (negb (n4 =? 24) || (n100 =? 3)))%bool in
    let month := Z.shiftr (n + 50) 5 in
    let preceding :=
      _DAYS_BEFORE_MONTH month +
      (if ((2 <? month) && leapyear)%bool then 1 else 0) in
    if n <? preceding then
      let month := month - 1 in
      let preceding :=
        preceding - (_DAYS_IN_MONTH month +
                     (if ((month =? 2) && leapyear)%bool then 1 else 0)) in
      (year, month, n - preceding + 1)
    else (year, month, n - preceding + 1).

(** A [datetime] object is represented by the ordinal of its date
    ([d.toordinal()], which determines year, month and day); the time
    of day plays no role in what the sources compute. *)
Definition date : Type := Z.

Definition valid (d : date) : Prop := 1 <= d <= _MAXORDINAL.

Definition year_of (d : date) : Z := let '(y, _, _) := _ord2ymd d in y.
Definition month_of (d : date) : Z := let '(_, m, _) := _ord2ymd d in m.
Definition day_of (d : date) : Z := let '(_, _, dd) := _ord2ymd d in dd.

(** [datetime(year, month, day)]; [ValueError] for a year outside
    MINYEAR..MAXYEAR, a month outside 1..12 or a day the month has not. *)
Definition datetime (y m d : Z) : Outcome date :=
  if ((MINYEAR <=? y) && (y <=? MAXYEAR) && (1 <=? m) && (m <=? 12)
      && (1 <=? d) && (d <=? _days_in_month y m))%bool
  then Returned (_ymd2ord y m d)
  else Raised (mkExn ValueError "year, month or day is out of range").

(** [d.weekday()]: Monday is 0, Sunday is 6. *)
Definition weekday (d : date) : Z := (d + 6) mod 7.

(** [d + timedelta(days=n)]; [OverflowError] when the result leaves
    0001-01-01 .. 9999-12-31. *)
Definition add_days (d : date) (n : Z) : Outcome date :=
  let o := d + n in
  if ((1 <=? o) && (o <=? _MAXORDINAL))%bool
  then Returned o
  else Raised (mkExn OverflowError "date value out of range").

(** [d.strftime('%Y-%m-%d')]; the year is printed on four digits (for
    the years before 1000 the C library decides whether [%Y] pads). *)
Definition strftime_ymd (d : date) : string :=
  PyStr.zero_pad 4 (year_of d) ++ "-" ++ PyStr.zero_pad 2 (month_of d)
  ++ "-" ++ PyStr.zero_pad 2 (day_of d).

End Datetime.

(* ===================================================================== *)
(** ** The regular expressions of [_extract_parameters]

    Each pattern is embedded as the backtracking matcher [re] runs for
    it: alternatives in the order written, greedy repetitions tried
    longest first, the scan moving left to right over start positions. *)
(* ===================================================================== *)

Module Regex.
Import PyStr.

Definition head (s : string) : option ascii :=
  match s with String c _ => Some c | EmptyString => None end.

Fixpoint last_char (s : string) : option ascii :=
  match s with
  | EmptyString => None
  | String c EmptyString => Some c
  | String _ s' => last_char s'
  end.

Definition word_of (o : option ascii) : bool :=
  match o with Some c => is_word c | None => false end.

(** [\b] between the character [prev] just read and the rest [s]. *)
Definition boundary (prev : option ascii) (s : string) : bool :=
  xorb (word_of prev) (word_of (head s)).

(** *** [(first|second|third|fourth|fifth|1st|2nd|3rd|4th|5th)\s+week] *)

Definition ORDINALS : list string :=
  ["first"; "second"; "third"; "fourth"; "fifth";
   "1st"; "2nd"; "3rd"; "4th"; "5th"].

(** [\s+week] at [r]: since "week" starts with no blank, the greedy
    [\s+] can only stop at the end of the run of blanks. *)
Definition spaces_then_week (r : string) : bool :=
  match r with
  | String c r' => (is_space c && startswith "week" (lstrip r'))%bool
  | EmptyString => false
  end.

Fixpoint week_alt (alts : list string) (s : string) : option string :=
  match alts with
  | [] => None
  | w :: rest =>
      match strip_prefix w s with
      | Some r => if spaces_then_week r then Some w else week_alt rest s
      | None => week_alt rest s
      end
  end.

(** [re.search(...)]: group 1 of the leftmost match. *)
Fixpoint week_search (s : string) : option string :=
  match week_alt ORDINALS s with
  | Some w => Some w
  | None =>
      match s with
      | EmptyString => None
      | String _ s' => week_search s'
      end
  end.

(** *** [(january|...|december|jan|feb|mar(?!ch)|apr|may|...|dec)\b]

      An alternative is a word with, for [mar(?!ch)], the text that must
      not follow it. *)
Definition MONTHS : list (string * option string) :=
  [("january", None); ("february", None); ("march", None); ("april", None);
   ("may", None); ("june", None); ("july", None); ("august", None);
   ("september", None); ("october", None); ("november", None);
   ("december", None);
   ("jan", None); ("feb", None); ("mar", Some "ch"); ("apr", None);
   ("may", None); ("jun", None); ("jul", None); ("aug", None);
   ("sep", None); ("oct", None); ("nov", None); ("dec", None)].

Definition not_followed_by (la : option string) (r : string) : bool :=
  match la with Some t => negb (startswith t r) | None => true end.

Fixpoint month_alt (alts : list (string * option string)) (s : string)
  : option string :=
  match alts with
  | [] => None
  | (w, la) :: rest =>
      match strip_prefix w s with
      | Some r =>
          if (not_followed_by la r && boundary (last_char w) r)%bool
          then Some w else month_alt rest s
      | None => month_alt rest s
      end
  end.

Fixpoint month_search (s : string) : option string :=
  match month_alt MONTHS s with
  | Some w => Some w
  | None =>
      match s with
      | EmptyString => None
      | String _ s' => month_search s'
      end
  end.

(** *** [\b[A-Za-z0-9._%+-]+@[A-Za-z0-9.-]+\.[A-Z|a-z]{2,}\b] *)

Definition one_of (chars : string) (c : ascii) : bool :=
  contains (String c EmptyString) chars.

Definition is_local (c : ascii) : bool := (is_alnum c || one_of "._%+-" c)%bool.
Definition is_domain (c : ascii) : bool := (is_alnum c || one_of ".-" c)%bool.
Definition is_tld (c : ascii) : bool := (is_alpha c || one_of "|" c)%bool.

Definition or_else {A} (x y : option A) : option A :=
  match x with Some _ => x | None => y end.

(** The matchers return the number of characters matched from where
    they start.  [tld_rest n prev s]: [n] characters of [[A-Z|a-z]{2,}]
    are read, the last one being [prev]; read more if possible, else
    stop at a [\b] once [n >= 2]. *)
Fixpoint tld_rest (n : nat) (prev : option ascii) (s : string) : option nat :=
  let stop := if (Nat.leb 2 n && boundary prev s)%bool then Some O else None in
  match s with
  | String c s' =>
      or_else (if is_tld c
               then option_map S (tld_rest (S n) (Some c) s') else None)
              stop
  | EmptyString => stop
  end.

(** After one or more characters of [[A-Za-z0-9.-]+]: read more if
    possible, else go on with [\.] and the top-level domain. *)
Fixpoint domain_rest (s : string) : option nat :=
  match s with
  | String c s' =>
      or_else (if is_domain c then option_map S (domain_rest s') else None)
              (if Ascii.eqb c "."
               then option_map S (tld_rest 0 None s') else None)
  | EmptyString => None
  end.

(** After one or more characters of [[A-Za-z0-9._%+-]+]: read more if
    possible, else go on with [@] and the domain. *)
Fixpoint local_rest (s : string) : option nat :=
  match s with
  | String c s' =>
      or_else (if is_local c then option_map S (local_rest s') else None)
              (if Ascii.eqb c "@" then
                 match s' with
                 | String d s'' =>
                     if is_domain d
                     then option_map (fun k => S (S k)) (domain_rest s'')
                     else None
                 | EmptyString => None
                 end
               else None)
  | EmptyString => None
  end.

Definition email_at (prev : option ascii) (s : string) : option nat :=
  match s with
  | String c s' =>
      if (boundary prev s && is_local c)%bool
      then option_map S (local_rest s') else None
  | EmptyString => None
  end.

(** [re.findall(pattern, s)]: the matches from left to right, none
    overlapping another; [skip] counts the characters still covered by
    the match found last. *)
Fixpoint findall_from (at_ : option ascii -> string -> option nat)
         (skip : nat) (prev : option ascii) (s : string) : list string :=
  match s with
  | EmptyString => []
  | String c s' =>
      match skip with
      | S k => findall_from at_ k (Some c) s'
      | O =>
          match at_ prev s with
          | Some len => take len s :: findall_from at_ (len - 1) (Some c) s'
          | None => findall_from at_ 0 (Some c) s'
          end
      end
  end.

Definition findall_email (s : string) : list string :=
  findall_from email_at 0 None s.

(** *** [\b\d{4}-\d{2}-\d{2}\b] *)

Fixpoint digits (n : nat) (s : string) : option string :=
  match n with
  | O => Some s
  | S n' =>
      match s with
      | String c s' => if is_digit c then digits n' s' else None
      | EmptyString => None
      end
  end.

Definition dash (s : string) : option string := strip_prefix "-" s.

Definition and_then {A B} (x : option A) (f : A -> option B) : option B :=
  match x with Some a => f a | None => None end.

Definition date_shape (s : string) : option string :=
  and_then (and_then (and_then (and_then (digits 4 s) dash) (digits 2)) dash)
           (digits 2).

Definition date_at (prev : option ascii) (s : string) : option nat :=
  if boundary prev s then
    match date_shape s with
    | Some r => if boundary (last_char (take 10 s)) r then Some 10%nat else None
    | None => None
    end
  else None.

Definition findall_date (s : string) : list string :=
  findall_from date_at 0 None s.

End Regex.

(* ===================================================================== *)
(** ** [tools/base.py]: tools

    A tool is what the call [tool.run( **args )] does: it may read and
    change the outside world [W] (mailboxes, files, the network), and
    returns a value or raises.  The argument is the value unpacked by
    [**]; a value that cannot be unpacked, or keywords the tool does not
    take, make the call raise [TypeError].  As in the sources, a tool is
    given no reference to the agent's state or memory. *)
(* ===================================================================== *)

Record Tool (W : Type) : Type := mkTool {
  description : string;
  run : W -> PyVal -> W * Outcome PyVal
}.
Arguments mkTool {W} description run.
Arguments description {W} t.
Arguments run {W} t w args.

Module Tools.
Section WithWorld.
Context {W : Type}.

(** The call [tool.run( **args )] of a method
    [run(self, *args, **kwargs)]: the value after [**] must be a
    mapping, and none of its keys may be "self"; otherwise the call
    raises [TypeError] and the body is not entered.  Any other keyword
    is accepted. *)
Definition varkw (qualname : string) (body : W -> W * Outcome PyVal)
           (w : W) (args : PyVal) : W * Outcome PyVal :=
  match args with
  | PDict kwargs =>
      if Py.has_key "self" kwargs
      then (w, Raised (mkExn TypeError
                         (qualname
                          ++ "() got multiple values for argument 'self'")))
      else body w
  | _ =>
      (w, Raised (mkExn TypeError
                    ("tools.base." ++ qualname
                     ++ "() argument after ** must be a mapping, not "
                     ++ Py.type_name args)))
  end.

(** [Tool.run] of the base class: [raise NotImplementedError()], an
    exception whose [str] is empty. *)
Definition Tool_run : W -> PyVal -> W * Outcome PyVal :=
  varkw "Tool.run" (fun w => (w, Raised (mkExn NotImplementedError ""))).

Definition BaseTool : Tool W := mkTool "" Tool_run.

(** [NoopTool.run]: accepts any keywords. *)
Definition NoopTool_run : W -> PyVal -> W * Outcome PyVal :=
  varkw "NoopTool.run"
        (fun w => (w, Returned (PDict [("done", PBool true);
                                       ("message", PStr "No action taken")]))).

Definition NoopTool : Tool W :=
  mkTool "Do nothing. Use when the goal is satisfied or no action is needed."
         NoopTool_run.

End WithWorld.
End Tools.

(* ===================================================================== *)
(** ** [agents/google_agent.py] *)
(* ===================================================================== *)

Module GoogleAgentToolkit.
Section WithWorld.
Context {W : Type}.

(** [execute(self, tool_name, **kwargs)] over the registry [self.tools] *)
Definition execute (tools : gmap string (Tool W)) (w : W)
           (tool_name : string) (kwargs : Py.dict) : W * PyVal :=
  match tools !! tool_name with
  | None =>
      (w, PDict [("ok", PBool false);
                 ("error", PStr ("Tool '" ++ tool_name ++ "' not found"))])
  | Some tool =>
      match run tool w (PDict kwargs) with
      | (w', Returned result) => (w', result)
      | (w', Raised e) =>
          (w', PDict [("ok", PBool false);
                      ("error", PStr ("Failed to execute " ++ tool_name
                                      ++ ": " ++ exn_str e))])
      end
  end.

End WithWorld.
End GoogleAgentToolkit.

Module GoogleAgent.
Import PyStr Regex Datetime.

(** The LLM-backed parser the agent tries first ([agents/llm_parser.py]);
    its answers come from a remote model. *)
Record LLMQueryParser : Type := {
  parse_gmail_query : string -> Outcome Py.dict;
  parse_calendar_query : string -> Outcome Py.dict
}.

(** [params[k] += suffix], for a key holding a string. *)
Definition append_to (k suffix : string) (params : Py.dict) : Py.dict :=
  match Py.lookup k params with
  | Some (PStr q) => Py.set k (PStr (q ++ suffix)) params
  | _ => params
  end.

(** The branch [tool_name == "query_gmail"] of the regex fallback. *)
Definition gmail_parameters (goal : string) : Py.dict :=
  let params : Py.dict := [] in
  let goal_lower := lower goal in
  (* Look for folder mentions *)
  let params :=
    if contains "inbox" goal_lower
    then Py.set "query" (PStr "in:inbox") params
    else if contains "sent" goal_lower
    then Py.set "query" (PStr "in:sent") params
    else if contains "draft" goal_lower
    then Py.set "query" (PStr "in:draft") params
    else Py.set "query" (PStr "") params in
  (* Look for sender mentions *)
  let params :=
    match findall_email goal with
    | email :: _ =>
        let params := Py.set "query" (PStr ("from:" ++ email)) params in
        if contains "inbox" goal_lower
        then append_to "query" " in:inbox" params else params
    | [] => params
    end in
  (* Look for unread mentions *)
  let params :=
    if contains "unread" goal_lower then
      let params :=
        if Py.truthy (Py.get "query" PNone params)
        then append_to "query" " is:unread" params
        else Py.set "query" (PStr "is:unread") params in
      if contains "inbox" goal_lower
      then append_to "query" " in:inbox" params else params
    else params in
  (* For "how many" questions, use count_all *)
  if contains_any ["how many"; "count"; "total"] goal_lower
  then Py.set "count_all" (PBool true) params else params.

(** What follows the sender clause of a query: the inbox clause, and
    the unread clause with the inbox clause once more. *)
Definition inbox_clause (goal_lower : string) : string :=
  if contains "inbox" goal_lower then " in:inbox" else "".

Definition unread_clause (goal_lower : string) : string :=
  if contains "unread" goal_lower
  then " is:unread" ++ inbox_clause goal_lower else "".

Definition month_map : list (string * Z) :=
  [("january", 1); ("jan", 1); ("february", 2); ("feb", 2);
   ("march", 3); ("mar", 3); ("april", 4); ("apr", 4); ("may", 5);
   ("june", 6); ("jun", 6); ("july", 7); ("jul", 7);
   ("august", 8); ("aug", 8); ("september", 9); ("sep", 9);
   ("october", 10); ("oct", 10); ("november", 11); ("nov", 11);
   ("december", 12); ("dec", 12)].

Definition week_map : list (string * Z) :=
  [("first", 1); ("1st", 1); ("1", 1); ("second", 2); ("2nd", 2); ("2", 2);
   ("third", 3); ("3rd", 3); ("3", 3); ("fourth", 4); ("4th", 4); ("4", 4);
   ("fifth", 5); ("5th", 5); ("5", 5)].

(** [table.get(k, default)] on the two literal tables. *)
Fixpoint table_get (k : string) (default : Z) (table : list (string * Z)) : Z :=
  match table with
  | [] => default
  | (k', v) :: rest => if String.eqb k k' then v else table_get k default rest
  end.

Definition bind {A B} (x : Outcome A) (f : A -> Outcome B) : Outcome B :=
  match x with Returned a => f a | Raised e => Raised e end.

Definition with_range (start_ end_ : date) (params : Py.dict) : Py.dict :=
  Py.set "time_max" (PStr (strftime_ymd end_))
         (Py.set "time_min" (PStr (strftime_ymd start_)) params).

(** The first lines of the branch [tool_name == "query_events"]. *)
Definition calendar_defaults (goal_lower : string) : Py.dict :=
  (* Default to primary calendar *)
  let params : Py.dict := Py.set "calendar_id" (PStr "primary") [] in
  (* Look for search text *)
  if contains "work" goal_lower
  then Py.set "search_text" (PStr "Work") params else params.

(** The branch [tool_name == "query_events"] of the regex fallback;
    [now] is what [datetime.now()] returns during the call (the branch
    for "today" reads the clock twice; both readings are [now]). *)
Definition calendar_parameters (now : date) (goal : string) : Outcome Py.dict :=
  let goal_lower := lower goal in
  let params := calendar_defaults goal_lower in
  (* Look for date ranges *)
  if contains "today" goal_lower then
    bind (add_days now 1) (fun tomorrow =>
    Returned (with_range now tomorrow params))
  else if contains "week" goal_lower then
    let today := now in
    let week_match := week_search goal_lower in
    let month_match := month_search goal_lower in
    match month_match, week_match with
    | Some month_str, Some week_str =>
        let month_num :=
          table_get (lower month_str) (month_of today) month_map in
        let week_num := table_get (lower week_str) 1 week_map in
        (* First, get the first day of the month *)
        let year_ :=
          if month_of today <=? month_num
          then year_of today else year_of today + 1 in
        bind (datetime year_ month_num 1) (fun first_of_month =>
        (* Find the first Monday of the month *)
        let days_until_monday := (7 - weekday first_of_month) mod 7 in
        let days_until_monday :=
          if ((days_until_monday =? 0)
              && negb (weekday first_of_month =? 0))%bool
          then 7 else days_until_monday in
        bind (add_days first_of_month days_until_monday) (fun first_monday =>
        (* Get the start of the requested week *)
        bind (add_days first_monday (7 * (week_num - 1))) (fun start_of_week =>
        bind (add_days start_of_week 6) (fun end_of_week =>
        Returned (with_range start_of_week end_of_week params)))))
    | _, _ =>
        if contains "next" goal_lower then
          bind (add_days today (- weekday today)) (fun monday =>
          bind (add_days monday 7) (fun start_of_week =>
          bind (add_days start_of_week 6) (fun end_of_week =>
          Returned (with_range start_of_week end_of_week params))))
        else
          (* Default to this week *)
          bind (add_days today (- weekday today)) (fun start_of_week =>
          bind (add_days start_of_week 6) (fun end_of_week =>
          Returned (with_range start_of_week end_of_week params)))
    end
  else Returned params.

(** The branch [tool_name == "create_event"]. *)
Definition create_event_parameters (goal : string) : Py.dict :=
  let params : Py.dict := [] in
  match findall_date goal with
  | [] => params
  | d0 :: more =>
      let params := Py.set "start_time" (PStr d0) params in
      match more with
      | d1 :: _ => Py.set "end_time" (PStr d1) params
      | [] => params
      end
  end.

(** The regex-based extraction that follows the LLM attempt. *)
Definition regex_parameters (now : date) (goal tool_name : string)
  : Outcome Py.dict :=
  if String.eqb tool_name "query_gmail" then Returned (gmail_parameters goal)
  else if String.eqb tool_name "query_events" then calendar_parameters now goal
  else if String.eqb tool_name "create_event"
       then Returned (create_event_parameters goal)
  else Returned [].

(** [_extract_parameters(self, goal, tool_name)], with [self.query_parser]
    and the clock made explicit. *)
Definition _extract_parameters (query_parser : option LLMQueryParser)
           (now : date) (goal tool_name : string) : Outcome Py.dict :=
  match query_parser with
  | Some parser =>
      if String.eqb tool_name "query_gmail" then
        match parse_gmail_query parser goal with
        | Returned llm_params => Returned llm_params
        | Raised _ => regex_parameters now goal tool_name
        end
      else if String.eqb tool_name "query_events" then
        match parse_calendar_query parser goal with
        | Returned llm_params => Returned llm_params
        | Raised _ => regex_parameters now goal tool_name
        end
      else regex_parameters now goal tool_name
  | None => regex_parameters now goal tool_name
  end.

End GoogleAgent.

(* ===================================================================== *)
(** ** [tools/gmail.py]: [QueryGmail.run], the listing path

    The path taken when neither [count_all] nor [count_only] is set
    (those two return earlier, with a count and no estimate to compare).
    The Gmail service is what it answers: to the [list] request a page
    of message ids with the service's size estimate, and to each
    metadata request the headers of the message, or an exception. *)
(* ===================================================================== *)

Module Gmail.
Import PyStr.

Definition headers : Type := list (string * string).

Record Listing : Type := mkListing {
  messages : list (string * Outcome headers);
  resultSizeEstimate : Z
}.

(** [service.users().messages().list(userId="me", q=..., maxResults=...)],
    preceded by [get_gmail_service()]. *)
Definition Service : Type := string -> Z -> Outcome Listing.

(** [header_dict.get(name, default)] where [header_dict] is built by a
    dict comprehension: the last header of that name wins. *)
Fixpoint header_get (name default : string) (hs : headers) : string :=
  match hs with
  | [] => default
  | (n, v) :: rest =>
      header_get name (if String.eqb n name then v else default) rest
  end.

Definition summary_of (id : string) (hs : headers) : PyVal :=
  PDict [("id", PStr id);
         ("subject", PStr (header_get "Subject" "[No Subject]" hs));
         ("from", PStr (header_get "From" "[Unknown]" hs));
         ("date", PStr (header_get "Date" "[Unknown]" hs))].

(** The loop over [messages]: a message whose metadata request raises
    is skipped. *)
Fixpoint email_summaries (msgs : list (string * Outcome headers))
  : list PyVal :=
  match msgs with
  | [] => []
  | (id, Returned hs) :: rest => summary_of id hs :: email_summaries rest
  | (_, Raised _) :: rest => email_summaries rest
  end.

Fixpoint senders (msgs : list (string * Outcome headers)) : list string :=
  match msgs with
  | [] => []
  | (_, Returned hs) :: rest => header_get "From" "[Unknown]" hs :: senders rest
  | (_, Raised _) :: rest => senders rest
  end.

(** [list(unique_senders)]; the order Python gives a set is not
    specified, here it is the order of first occurrence. *)
Fixpoint unique (seen l : list string) : list string :=
  match l with
  | [] => []
  | x :: rest =>
      if existsb (String.eqb x) seen then unique seen rest
      else x :: unique (x :: seen) rest
  end.

Definition clamp_max_results (max_results : Z) : Z :=
  let m := if max_results <? 1 then 10 else max_results in
  if 100 <? m then 100 else m.

Definition summary_text (returned total : Z) : string :=
  let summary := "Found " ++ str_int returned ++ " emails" in
  if returned <? total
  then summary ++ " (showing " ++ str_int returned ++ " of " ++ str_int total
               ++ " total matching emails)"
  else summary ++ " total".

(** Lines 141-148: the check of the estimate against what was
    retrieved. *)
Definition discrepancy_warning (returned total : Z) : PyVal :=
  if ((0 <? returned) && (returned * 2 <? total))%bool
  then PStr ("Note: API reports " ++ str_int total
             ++ " total results but only " ++ str_int returned
             ++ " were retrieved. "
             ++ "Gmail's API estimate may be inflated. "
             ++ "For accurate counts, verify in Gmail's web UI.")
  else PNone.

Definition run (service : Service) (query : string) (max_results : Z) : PyVal :=
  match service query (clamp_max_results max_results) with
  | Returned results =>
      let messages := messages results in
      let total := resultSizeEstimate results in
      let email_summaries := email_summaries messages in
      let returned := Z.of_nat (List.length email_summaries) in
      PDict [("ok", PBool true);
             ("query", PStr query);
             ("total_results", PInt total);
             ("returned", PInt returned);
             ("summary", PStr (summary_text returned total));
             ("unique_senders",
              PList (map PStr (unique [] (senders messages))));
             ("discrepancy_warning", discrepancy_warning returned total);
             ("emails", PList email_summaries)]
  | Raised e =>
      match exn_class e with
      | FileNotFoundError =>
          PDict [("ok", PBool false); ("error", PStr (exn_str e))]
      | _ =>
          PDict [("ok", PBool false);
                 ("error", PStr ("Gmail query failed: " ++ exn_str e))]
      end
  end.

End Gmail.

(* ===================================================================== *)
(** ** [agent/state.py], [agent/memory.py] *)
(* ===================================================================== *)

Module AgentState.

Record t : Type := mk {
  goal : string;
  history : list string;
  results : list PyVal;
  context : Py.dict;
  step : Z;
  max_steps : option Z;
  done : bool
}.

(** [AgentState(goal=goal)]: the defaults of the dataclass. *)
Definition init (goal : string) : t := mk goal [] [] [] 0 (Some 50) false.

Definition is_complete (self : t) : bool :=
  if done self then true
  else match max_steps self with
       | Some m => if m <=? step self then true else false
       | None => false
       end.

Definition add_history (self : t) (entry : string) : t :=
  mk (goal self) (history self ++ [entry])%list (results self) (context self)
     (step self) (max_steps self) (done self).

Definition add_result (self : t) (result : PyVal) : t :=
  mk (goal self) (history self) (results self ++ [result])%list (context self)
     (step self) (max_steps self) (done self).

(** [state.step += 1] and [state.done = True] *)
Definition incr_step (self : t) : t :=
  mk (goal self) (history self) (results self) (context self)
     (step self + 1) (max_steps self) (done self).

Definition set_done (self : t) : t :=
  mk (goal self) (history self) (results self) (context self)
     (step self) (max_steps self) true.

End AgentState.

Module Memory.

(** [self._items] *)
Definition t : Type := list string.

Definition init : t := [].

Definition add (self : t) (text : string) : t := (self ++ [text])%list.

(** [self._items[-n:]]; for [n = 0] the slice [[-0:]] is the whole
    list. *)
Definition recent (self : t) (n : nat) : list string :=
  match n with
  | O => self
  | _ => skipn (List.length self - n) self
  end.

Definition build_context (self : t) : string :=
  PyStr.join PyStr.nl (recent self 10).

End Memory.

(* ===================================================================== *)
(** ** [agent/agent.py]: the agent loop *)
(* ===================================================================== *)

Module Agent.
Import PyStr.

Section WithWorld.
Context {W : Type}.

(** [repr] of a list or a dictionary, as [str()] and f-strings print
    them; it belongs to the interpreter. *)
Variable py_repr : PyVal -> string.

(** [str(v)], the text an f-string puts for [{v}]. *)
Definition py_str (v : PyVal) : string :=
  match v with
  | PNone => "None"
  | PBool true => "True"
  | PBool false => "False"
  | PInt n => str_int n
  | PStr s => s
  | PList _ | PDict _ => py_repr v
  end.

(** A planner object: [plan], and [plan_with_tools] when it has that
    attribute.  It receives the state as it is after [state.step += 1]
    and answers with a value, or raises. *)
Record Planner : Type := mkPlanner {
  plan : W -> AgentState.t -> string -> W * Outcome PyVal;
  plan_with_tools :
    option (W -> AgentState.t -> string -> gmap string (Tool W)
            -> W * Outcome PyVal)
}.

Definition propose (planner : Planner) (tools : gmap string (Tool W)) (w : W)
           (state : AgentState.t) (ctx : string) : W * Outcome PyVal :=
  match plan_with_tools planner with
  | Some with_tools => with_tools w state ctx tools
  | None => plan planner w state ctx
  end.

(** [tools.get(name)]: a list or a dictionary is not hashable; any
    other value that is not a registered string finds nothing. *)
Definition tools_get (tools : gmap string (Tool W)) (name : PyVal)
  : Outcome (option (Tool W)) :=
  match name with
  | PStr s => Returned (tools !! s)
  | PList _ => Raised (mkExn TypeError "unhashable type: 'list'")
  | PDict _ => Raised (mkExn TypeError "unhashable type: 'dict'")
  | _ => Returned None
  end.

(** The first line of the banner put before a discrepancy warning. *)
Definition BANNER : string :=
  "⚠️⚠️⚠️ IMPORTANT DISCREPANCY ⚠️⚠️⚠️".

(** [isinstance(result, dict) and result.get("discrepancy_warning")] *)
Definition flagged_warning (result : PyVal) : option PyVal :=
  match result with
  | PDict d =>
      let warning := Py.get "discrepancy_warning" PNone d in
      if Py.truthy warning then Some warning else None
  | _ => None
  end.

Definition memory_entry_of (name result : PyVal) : string :=
  let plain := "Tool " ++ py_str name ++ " result: " ++ py_str result in
  match flagged_warning result with
  | Some warning => BANNER ++ nl ++ py_str warning ++ nl ++ plain
  | None => plain
  end.

(** [getattr(result, "get", None) and result.get("done")] *)
Definition signals_done (result : PyVal) : bool :=
  match result with
  | PDict d => Py.truthy (Py.get "done" PNone d)
  | _ => false
  end.

(** The [try] around [tool.run( **args )]. *)
Definition result_of (out : Outcome PyVal) : PyVal :=
  match out with
  | Returned result => result
  | Raised exc => PDict [("error", PStr (exn_str exc))]
  end.

(** What one pass through the body of the [while] leaves: the loop goes
    on to its next test, or an exception leaves [run_agent]. *)
Inductive Step : Type :=
| Continue (w : W) (state : AgentState.t) (memory : Memory.t)
| Fault (e : Exn).

(** The two lines a step can add to the history. *)
Definition proposal_line (step : Z) (name reason : PyVal) : string :=
  "Step " ++ str_int step ++ ": planner proposed "
  ++ py_str name ++ " (" ++ py_str reason ++ ")".

Definition miss_line (name : PyVal) : string :=
  "No tool named '" ++ py_str name ++ "' registered. Skipping.".

(** Lines 37-69: what the body does with the planner's answer. *)
Definition handle_proposal (tools : gmap string (Tool W)) (state : AgentState.t)
           (memory : Memory.t) (answer : W * Outcome PyVal) : Step :=
  match answer with
  | (_, Raised e) => Fault e
  | (w, Returned (PDict proposal)) =>
      let name := Py.get "name" PNone proposal in
      let args := Py.get "args" (PDict []) proposal in
      let reason := Py.get "reason" PNone proposal in
      let state :=
        AgentState.add_history state
          (proposal_line (AgentState.step state) name reason) in
      match tools_get tools name with
      | Raised e => Fault e
      | Returned None =>
          Continue w (AgentState.add_history state (miss_line name)) memory
      | Returned (Some tool) =>
          (* Execute tool and record result *)
          let '(w, out) := run tool w args in
          let result := result_of out in
          let state :=
            AgentState.add_result state
              (PDict [("tool", name); ("result", result)]) in
          (* Build memory entry with prominent warnings *)
          let memory := Memory.add memory (memory_entry_of name result) in
          let state :=
            if signals_done result then AgentState.set_done state else state in
          Continue w state memory
      end
  | (_, Returned _) =>
      Fault (mkExn AttributeError "object has no attribute 'get'")
  end.

(** Lines 29-35, then the rest of the body: the step is counted, the
    context is built from the memory and handed to the planner. *)
Definition loop_body (tools : gmap string (Tool W)) (planner : Planner) (w : W)
           (state : AgentState.t) (memory : Memory.t) : Step :=
  let state := AgentState.incr_step state in
  let ctx := Memory.build_context memory in
  handle_proposal tools state memory (propose planner tools w state ctx).

(** The state and the memory a step leaves, by what was proposed. *)
Definition after_miss (st : AgentState.t) (proposal : Py.dict) : AgentState.t :=
  let name := Py.get "name" PNone proposal in
  AgentState.mk (AgentState.goal st)
    (AgentState.history st ++
       [proposal_line (AgentState.step st + 1) name
                      (Py.get "reason" PNone proposal);
        miss_line name])%list
    (AgentState.results st) (AgentState.context st)
    (AgentState.step st + 1) (AgentState.max_steps st) (AgentState.done st).

Definition after_dispatch (st : AgentState.t) (proposal : Py.dict)
           (result : PyVal) : AgentState.t :=
  let name := Py.get "name" PNone proposal in
  AgentState.mk (AgentState.goal st)
    (AgentState.history st ++
       [proposal_line (AgentState.step st + 1) name
                      (Py.get "reason" PNone proposal)])%list
    (AgentState.results st ++
       [PDict [("tool", name); ("result", result)]])%list
    (AgentState.context st)
    (AgentState.step st + 1) (AgentState.max_steps st)
    (if signals_done result then true else AgentState.done st).

(** The result of [run_agent]: the final state with the memory it
    left, an exception that escaped, or a loop still running when the
    [fuel] (a bound on the iterations) is used up. *)
Inductive Run : Type :=
| Finished (w : W) (state : AgentState.t) (memory : Memory.t)
| Faulted (e : Exn)
| OutOfFuel.

Fixpoint run_agent (fuel : nat) (tools : gmap string (Tool W))
         (planner : Planner) (w : W)
         (state : AgentState.t) (memory : Memory.t) : Run :=
  if AgentState.is_complete state then Finished w state memory
  else
    match fuel with
    | O => OutOfFuel
    | S fuel' =>
        match loop_body tools planner w state memory with
        | Continue w' state' memory' =>
            run_agent fuel' tools planner w' state' memory'
        | Fault e => Faulted e
        end
    end.

(** A planner that honours the protocol: it answers with a dictionary
    whose name can be looked up. *)
Definition conforms (tools : gmap string (Tool W)) (planner : Planner) : Prop :=
  forall (w : W) (st : AgentState.t) (ctx : string),
  exists (w' : W) (proposal : Py.dict) (found : option (Tool W)),
    propose planner tools w st ctx = (w', Returned (PDict proposal)) /\
    tools_get tools (Py.get "name" PNone proposal) = Returned found.

(** No proposal of the planner leads to a result that carries a truthy
    "done". *)
Definition never_signals_done (tools : gmap string (Tool W))
           (planner : Planner) : Prop :=
  forall (w w' : W) (st : AgentState.t) (ctx : string) (proposal : Py.dict)
         (tool : Tool W),
    propose planner tools w st ctx = (w', Returned (PDict proposal)) ->
    tools_get tools (Py.get "name" PNone proposal) = Returned (Some tool) ->
    signals_done
      (result_of (snd (run tool w' (Py.get "args" (PDict []) proposal))))
    = false.

End WithWorld.
End Agent.

(* ===================================================================== *)
(** ** [agent/planner.py]: planners *)
(* ===================================================================== *)

Module MockPlanner.
Import PyStr.

Section WithWorld.
Context {W : Type}.

Definition proposal (name : string) (args : Py.dict) (reason : string)
  : PyVal :=
  PDict [("name", PStr name); ("args", PDict args); ("reason", PStr reason)].

Definition plan_with_tools (w : W) (state : AgentState.t) (context : string)
           (tools : gmap string (Tool W)) : W * Outcome PyVal :=
  if contains (lower (AgentState.goal state)) (lower context)
  then (w, Returned (proposal "noop" [] "goal appears in context"))
  else (w, Returned (proposal "noop" [] "default mock action")).

Definition plan (w : W) (state : AgentState.t) (context : string)
  : W * Outcome PyVal :=
  if contains (lower (AgentState.goal state)) (lower context)
  then (w, Returned (proposal "noop" [] "goal appears in context"))
  else (w, Returned (proposal "describe_state" [("brief", PBool true)]
                              "default summarization")).

Definition planner : Agent.Planner :=
  Agent.mkPlanner plan (Some plan_with_tools).

End WithWorld.
End MockPlanner.

Module ClaudePlanner.
Import PyStr.

Section WithClient.
Context {W : Type}.

(** [self.client.send_prompt(prompt, max_tokens=512, temperature=0.3)]:
    the remote model, which answers with a text or raises. *)
Variable send_prompt : W -> string -> W * Outcome string.

(** [json.loads]: the parsed value, or the exception it raises
    ([JSONDecodeError] for a text that is not JSON). *)
Variable json_loads : string -> Outcome PyVal.

(** The two prompt templates of [plan] and [plan_with_tools]; only the
    remote model reads their text. *)
Variable plan_prompt : AgentState.t -> string -> string.
Variable tools_prompt :
  AgentState.t -> string -> gmap string (Tool W) -> string.

(** Lines 171-179: the Markdown code fences are cut off. *)
Definition clean (response : string) : string :=
  let cleaned := strip response in
  let cleaned :=
    if startswith "```json" cleaned then drop 7 cleaned
    else if startswith "```" cleaned then drop 3 cleaned
    else cleaned in
  let cleaned :=
    if endswith "```" cleaned
    then take (String.length cleaned - 3) cleaned else cleaned in
  strip cleaned.

Fixpoint has_str (k : string) (items : list PyVal) : bool :=
  match items with
  | [] => false
  | PStr s :: rest => (String.eqb s k || has_str k rest)%bool
  | _ :: rest => has_str k rest
  end.

(** [if k not in action: action[k] = default], for whatever value the
    parser returned; the texts of the [TypeError]s are CPython's. *)
Definition ensure_key (k : string) (default : PyVal) (action : PyVal)
  : Outcome PyVal :=
  match action with
  | PDict d =>
      if Py.has_key k d then Returned action
      else Returned (PDict (Py.set k default d))
  | PList items =>
      if has_str k items then Returned action
      else Raised (mkExn TypeError
                         "list indices must be integers or slices, not str")
  | PStr s =>
      if contains k s then Returned action
      else Raised (mkExn TypeError
                         "'str' object does not support item assignment")
  | PNone =>
      Raised (mkExn TypeError "argument of type 'NoneType' is not iterable")
  | PBool _ =>
      Raised (mkExn TypeError "argument of type 'bool' is not iterable")
  | PInt _ =>
      Raised (mkExn TypeError "argument of type 'int' is not iterable")
  end.

Definition bind {A B} (x : Outcome A) (f : A -> Outcome B) : Outcome B :=
  match x with Returned a => f a | Raised e => Raised e end.

(** The body of the [try] of [_execute_plan], after the request. *)
Definition parse_action (response : string) : Outcome PyVal :=
  bind (json_loads (clean response)) (fun action =>
  bind (ensure_key "name" (PStr "noop") action) (fun action =>
  bind (ensure_key "args" (PDict []) action) (fun action =>
  ensure_key "reason" (PStr "Claude response") action))).

Definition noop_action (reason : string) : PyVal :=
  PDict [("name", PStr "noop"); ("args", PDict []); ("reason", PStr reason)].

(** The two [except] clauses. *)
Definition handle (e : Exn) : PyVal :=
  match exn_class e with
  | JSONDecodeError =>
      noop_action ("Failed to parse Claude response: " ++ exn_str e)
  | _ => noop_action ("Planner error: " ++ exn_str e)
  end.

Definition _execute_plan (w : W) (prompt : string) : W * PyVal :=
  match send_prompt w prompt with
  | (w', Returned response) =>
      match parse_action response with
      | Returned action => (w', action)
      | Raised e => (w', handle e)
      end
  | (w', Raised e) => (w', handle e)
  end.

(** The request, or the parsing of its answer, raises [e]. *)
Definition planning_fails (w w1 : W) (prompt : string) (e : Exn) : Prop :=
  send_prompt w prompt = (w1, Raised e) \/
  exists response, send_prompt w prompt = (w1, Returned response) /\
                   parse_action response = Raised e.

Definition plan (w : W) (state : AgentState.t) (context : string)
  : W * Outcome PyVal :=
  let '(w', action) := _execute_plan w (plan_prompt state context) in
  (w', Returned action).

Definition plan_with_tools (w : W) (state : AgentState.t) (context : string)
           (tools : gmap string (Tool W)) : W * Outcome PyVal :=
  let '(w', action) := _execute_plan w (tools_prompt state context tools) in
  (w', Returned action).

Definition planner : Agent.Planner :=
  Agent.mkPlanner plan (Some plan_with_tools).

End WithClient.
End ClaudePlanner.

(* ===================================================================== *)
(** ** Scenarios: the concrete dates, services, tools and planners the
       examples run on *)
(* ===================================================================== *)

Module Scenarios.

(** The reference date 2024-12-15. *)
Definition mid_december_2024 : Datetime.date := Datetime._ymd2ord 2024 12 15.

(** A stand-in for the interpreter's [repr] of lists and dictionaries. *)
Definition repr_stub (v : PyVal) : string := "<repr>".

(** A Gmail service that lists five messages and estimates fifty. *)
Definition message_from (id sender : string) : string * Outcome Gmail.headers :=
  (id, Returned [("From", sender); ("Subject", "Report"); ("Date", "Mon")]).

Definition five_of_fifty : Gmail.Service :=
  fun _ _ =>
    Returned (Gmail.mkListing
                [message_from "m1" "ann@example.com";
                 message_from "m2" "bob@example.com";
                 message_from "m3" "ann@example.com";
                 message_from "m4" "cho@example.com";
                 message_from "m5" "dee@example.com"] 50).

(** [QueryGmail] over that service, called with the keyword [query]. *)
Definition query_gmail_tool : Tool unit :=
  mkTool "Search emails in Gmail by query string."
    (fun w args =>
       match args with
       | PDict kw =>
           match Py.lookup "query" kw with
           | Some (PStr query) =>
               (w, Returned (Gmail.run five_of_fifty query 10))
           | _ =>
               (w, Raised (mkExn TypeError "run() missing argument: 'query'"))
           end
       | _ =>
           (w, Raised (mkExn TypeError "argument after ** must be a mapping"))
       end).

(** A planner that proposes the same action at every step. *)
Definition constant_planner (proposal : PyVal) : Agent.Planner (W := unit) :=
  Agent.mkPlanner (fun w _ _ => (w, Returned proposal)) None.

Definition propose_count_unread : PyVal :=
  MockPlanner.proposal "query_gmail" [("query", PStr "is:unread")]
                       "count unread mail".

Definition propose_broken : PyVal :=
  MockPlanner.proposal "broken" [] "try the broken tool".

(** The registry of [build_tools] in [main.py], reduced to the no-op. *)
Definition noop_only : gmap string (Tool unit) :=
  {[ "noop" := Tools.NoopTool ]}.

(** A client whose request fails, as [send_prompt] does when the API
    cannot be reached. *)
Definition failing_client (w : unit) (prompt : string)
  : unit * Outcome string :=
  (w, Raised (mkExn RuntimeError "Claude request failed: connection error")).

(** A client that answers with prose instead of JSON, and a parser that
    rejects it. *)
Definition chatty_client (w : unit) (prompt : string)
  : unit * Outcome string :=
  (w, Returned "Sure, I will look into it.").

Definition rejecting_json (text : string) : Outcome PyVal :=
  Raised (mkExn JSONDecodeError "Expecting value: line 1 column 1 (char 0)").

Definition no_prompt (st : AgentState.t) (ctx : string) : string := "".
Definition no_tools_prompt (st : AgentState.t) (ctx : string)
           (tools : gmap string (Tool unit)) : string := "".

Definition claude_offline : Agent.Planner (W := unit) :=
  ClaudePlanner.planner failing_client rejecting_json no_prompt no_tools_prompt.

Definition claude_chatty : Agent.Planner (W := unit) :=
  ClaudePlanner.planner chatty_client rejecting_json no_prompt no_tools_prompt.

(** Registries and entry states. *)
Definition no_tools : gmap string (Tool unit) := ∅.
Definition gmail_only : gmap string (Tool unit) :=
  {[ "query_gmail" := query_gmail_tool ]}.
Definition broken_only : gmap string (Tool unit) :=
  {[ "broken" := Tools.BaseTool ]}.

Definition three_steps : AgentState.t :=
  AgentState.mk "Tidy the inbox" [] [] [] 0 (Some 3) false.

Definition readme_goal : AgentState.t :=
  AgentState.init "Describe the README contents".

Definition unread_goal : AgentState.t :=
  AgentState.init "How many unread emails?".

(** The warning [QueryGmail.run] writes for 5 retrieved of 50 estimated. *)
Definition warning_5_of_50 : string :=
  "Note: API reports 50 total results but only 5 were retrieved. "
  ++ "Gmail's API estimate may be inflated. "
  ++ "For accurate counts, verify in Gmail's web UI.".

End Scenarios.


(* ===================================================================== *)
(** ** Calls with keyword arguments

    What the interpreter does with [f( **kw )] before the body of [f]
    runs: every key must name a parameter, and every parameter without
    a default must get a value; otherwise the call raises [TypeError]
    (texts as CPython 3.12 words them) and the body is not entered. *)
(* ===================================================================== *)

Module Call.
Import PyStr.

Record signature : Type := mkSignature {
  modname : string;
  qualname : string;
  required : list string;
  optional : list string
}.

Definition quoted (name : string) : string := "'" ++ name ++ "'".

(** ['a'], ['a' and 'b'], ['a', 'b', and 'c'] *)
Fixpoint name_tail (names : list string) : string :=
  match names with
  | [] => ""
  | [a] => "and " ++ quoted a
  | a :: rest => quoted a ++ ", " ++ name_tail rest
  end.

Definition name_list (names : list string) : string :=
  match names with
  | [a] => quoted a
  | [a; b] => quoted a ++ " and " ++ quoted b
  | _ => name_tail names
  end.

Definition missing_text (sig : signature) (names : list string) : string :=
  qualname sig ++ "() missing " ++ str_int (Z.of_nat (List.length names))
  ++ " required positional argument"
  ++ (match names with [_] => "" | _ => "s" end) ++ ": "
  ++ name_list names.

Definition unexpected_text (sig : signature) (key : string) : string :=
  qualname sig ++ "() got an unexpected keyword argument " ++ quoted key.

Definition multiple_text (sig : signature) (key : string) : string :=
  qualname sig ++ "() got multiple values for argument " ++ quoted key.

(** [key] names a parameter that is still free; [self] is a parameter
    too, and taken by the object. *)
Definition takes (sig : signature) (key : string) : bool :=
  existsb (String.eqb key) (required sig ++ optional sig)%list.

(** The first key of [kw] that names no free parameter. *)
Fixpoint first_unexpected (sig : signature) (kw : Py.dict) : option string :=
  match kw with
  | [] => None
  | (k, _) :: rest =>
      if takes sig k then first_unexpected sig rest else Some k
  end.

Definition missing (sig : signature) (kw : Py.dict) : list string :=
  List.filter (fun name => negb (Py.has_key name kw)) (required sig).

Definition bind (sig : signature) (kw : Py.dict) : Outcome unit :=
  match first_unexpected sig kw with
  | Some key =>
      if String.eqb key "self"
      then Raised (mkExn TypeError (multiple_text sig key))
      else Raised (mkExn TypeError (unexpected_text sig key))
  | None =>
      match missing sig kw with
      | [] => Returned tt
      | names => Raised (mkExn TypeError (missing_text sig names))
      end
  end.

(** A method [f] called as [f( **args )]: the value after [**] must be
    a mapping, the keywords must bind, and then the body runs. *)
Definition method {W : Type} (sig : signature)
           (body : W -> Py.dict -> W * Outcome PyVal)
           (w : W) (args : PyVal) : W * Outcome PyVal :=
  match args with
  | PDict kw =>
      match bind sig kw with
      | Returned _ => body w kw
      | Raised e => (w, Raised e)
      end
  | _ =>
      (w, Raised (mkExn TypeError
                    (modname sig ++ "." ++ qualname sig
                     ++ "() argument after ** must be a mapping, not "
                     ++ Py.type_name args)))
  end.

End Call.

(* ===================================================================== *)
(** ** [tools/gmail.py], [tools/calendar.py]: the eight tools of the
       toolkit, by their call protocol

    Each [run] wraps its whole body in [try ... except Exception] and
    returns a dictionary whatever happens, so a body is a function to a
    value; what the bodies do with the Google services is a parameter. *)
(* ===================================================================== *)

Module GoogleTools.
Section WithWorld.
Context {W : Type}.

Definition body_t : Type := W -> Py.dict -> W * PyVal.

Definition caught (body : body_t) (w : W) (kw : Py.dict) : W * Outcome PyVal :=
  let '(w', v) := body w kw in (w', Returned v).

Definition QueryGmail_sig : Call.signature :=
  Call.mkSignature "tools.gmail" "QueryGmail.run" ["query"]
                   ["max_results"; "count_only"; "count_all"].
Definition ReadEmail_sig : Call.signature :=
  Call.mkSignature "tools.gmail" "ReadEmail.run" ["message_id"] [].
Definition SendEmail_sig : Call.signature :=
  Call.mkSignature "tools.gmail" "SendEmail.run"
                   ["to"; "subject"; "body"] [].
Definition ListGmailLabels_sig : Call.signature :=
  Call.mkSignature "tools.gmail" "ListGmailLabels.run" [] [].
Definition ListCalendars_sig : Call.signature :=
  Call.mkSignature "tools.calendar" "ListCalendars.run" [] [].
Definition QueryEvents_sig : Call.signature :=
  Call.mkSignature "tools.calendar" "QueryEvents.run" []
    ["calendar_id"; "time_min"; "time_max"; "search_text"; "max_results"].
Definition CreateEvent_sig : Call.signature :=
  Call.mkSignature "tools.calendar" "CreateEvent.run"
                   ["summary"; "start_time"; "end_time"]
                   ["calendar_id"; "description"; "location"].
Definition DeleteEvent_sig : Call.signature :=
  Call.mkSignature "tools.calendar" "DeleteEvent.run"
                   ["event_id"] ["calendar_id"].

(** The bodies, in the order of the registry. *)
Record bodies : Type := mkBodies {
  query_gmail : body_t;
  read_email : body_t;
  send_email : body_t;
  list_gmail_labels : body_t;
  list_calendars : body_t;
  query_events : body_t;
  create_event : body_t;
  delete_event : body_t
}.

(** What every [run] of these tools does: it returns a dictionary. *)
Definition answers_dict (body : body_t) : Prop :=
  forall (w : W) (kw : Py.dict),
  exists entries : Py.dict, snd (body w kw) = PDict entries.

Definition answer_dicts (b : bodies) : Prop :=
  answers_dict (query_gmail b) /\ answers_dict (read_email b) /\
  answers_dict (send_email b) /\ answers_dict (list_gmail_labels b) /\
  answers_dict (list_calendars b) /\ answers_dict (query_events b) /\
  answers_dict (create_event b) /\ answers_dict (delete_event b).

Definition tool (description : string) (sig : Call.signature) (body : body_t)
  : Tool W :=
  mkTool description (Call.method sig (caught body)).

Definition QueryGmail (b : bodies) : Tool W :=
  tool ("Search emails in Gmail by query string. "
        ++ "Supports: 'from:user@example.com', 'subject:keyword', 'is:unread', "
        ++ "'newer_than:1d' (today), 'older_than:7d', 'label:inbox', and combinations like 'from:user is:unread'. "
        ++ "Optional: max_results (1-100, default 10) to retrieve more matching emails. "
        ++ "Use count_all=True to count all matching emails (accurate but slower), or count_only=True for API estimate.")
       QueryGmail_sig (query_gmail b).

Definition ReadEmail (b : bodies) : Tool W :=
  tool "Read the full content of an email by its ID. Get the ID from query_gmail first."
       ReadEmail_sig (read_email b).

Definition SendEmail (b : bodies) : Tool W :=
  tool "Send an email. Use carefully - sent emails cannot be unsent."
       SendEmail_sig (send_email b).

Definition ListGmailLabels (b : bodies) : Tool W :=
  tool "List all available Gmail labels (folders/categories)"
       ListGmailLabels_sig (list_gmail_labels b).

Definition ListCalendars (b : bodies) : Tool W :=
  tool "List all available Google Calendars"
       ListCalendars_sig (list_calendars b).

Definition QueryEvents (b : bodies) : Tool W :=
  tool ("Query events from a Google Calendar. "
        ++ "Can filter by calendar ID, time range, and search text. "
        ++ "Default calendar is primary. "
        ++ "Use time_min/time_max for date ranges (ISO 8601 format like '2025-12-26')")
       QueryEvents_sig (query_events b).

Definition CreateEvent (b : bodies) : Tool W :=
  tool ("Create a new event in Google Calendar. "
        ++ "Provide event title, start and end times. "
        ++ "Times should be in ISO 8601 format (e.g., '2025-12-26T10:00:00') or date only (e.g., '2025-12-26')")
       CreateEvent_sig (create_event b).

Definition DeleteEvent (b : bodies) : Tool W :=
  tool "Delete an event from a Google Calendar by its ID"
       DeleteEvent_sig (delete_event b).

(** [GoogleAgentToolkit.__init__]: [self.tools] *)
Definition tools (b : bodies) : gmap string (Tool W) :=
  <[ "delete_event" := DeleteEvent b ]>
  (<[ "create_event" := CreateEvent b ]>
  (<[ "query_events" := QueryEvents b ]>
  (<[ "list_calendars" := ListCalendars b ]>
  (<[ "list_gmail_labels" := ListGmailLabels b ]>
  (<[ "send_email" := SendEmail b ]>
  (<[ "read_email" := ReadEmail b ]>
  (<[ "query_gmail" := QueryGmail b ]> ∅))))))).

End WithWorld.
End GoogleTools.

(* ===================================================================== *)
(** ** [agents/google_agent.py]: [GoogleAgent.execute_task] and what it
       calls

    [self.toolkit.tools] and [self.query_parser] are arguments; the
    clock gives [now] (for the date arithmetic) and [timestamp] (its
    [isoformat()]); [self.task_history] and [self.suggested_tools] are
    the fields of [t], which [execute_task] returns updated. *)
(* ===================================================================== *)

Module GoogleAgentTasks.
Import PyStr.

(** [self.query_parser]: the two parsers of [LLMQueryParser] the
    parameter extraction asks, and [determine_tool], whose answer is
    the text of the model, stripped and in lower case.  The parsers
    return what [_call_llm] returns: the value [json.loads] read from
    the model's text, which is a dictionary by annotation only. *)
Record QueryParser : Type := mkQueryParser {
  parse_gmail_query : string -> Outcome PyVal;
  parse_calendar_query : string -> Outcome PyVal;
  determine_tool : string -> Outcome string
}.

(** Lines 183-211: the keyword-based choice. *)
Definition gmail_tools (goal_lower : string) (tools : list string)
  : list string :=
  if contains_any ["email"; "gmail"; "inbox"; "send"; "read"; "message"]
                  goal_lower
  then
    if contains_any ["count"; "how many"; "total"] goal_lower
    then (tools ++ ["query_gmail"])%list
    else if contains_any ["read"; "show"; "display"] goal_lower
    then (tools ++ ["query_gmail"])%list
    else if contains_any ["send"; "write"] goal_lower
    then (tools ++ ["send_email"])%list
    else if contains_any ["label"; "folder"] goal_lower
    then (tools ++ ["list_gmail_labels"])%list
    else (tools ++ ["query_gmail"])%list
  else tools.

Definition calendar_tools (goal_lower : string) (tools : list string)
  : list string :=
  if contains_any ["calendar"; "event"; "schedule"; "meeting"; "appointment"]
                  goal_lower
  then
    if contains_any ["create"; "add"] goal_lower
    then (tools ++ ["create_event"])%list
    else if contains_any ["delete"; "remove"; "cancel"] goal_lower
    then (tools ++ ["delete_event"])%list
    else if contains_any ["list all"; "list calendars"] goal_lower
    then (tools ++ ["list_calendars"])%list
    else (tools ++ ["query_events"])%list
  else tools.

Definition keyword_tools (goal : string) : list string :=
  let goal_lower := lower goal in
  let tools : list string := [] in
  let tools := gmail_tools goal_lower tools in
  let tools := calendar_tools goal_lower tools in
  match tools with
  | [] => ["query_gmail"]
  | _ => tools
  end.

(** [_determine_tools(self, goal)] *)
Definition _determine_tools (query_parser : option QueryParser)
           (goal : string) : list string :=
  match query_parser with
  | Some parser =>
      match determine_tool parser goal with
      | Returned tool => [tool]
      | Raised _ => keyword_tools goal
      end
  | None => keyword_tools goal
  end.

(** [_suggest_tools(self, goal, result)]: the new value of
    [self.suggested_tools]; [result] is not looked at. *)
Definition suggest_if (words : list string) (suggestion : string)
           (goal_lower : string) (suggested : list string) : list string :=
  if contains_any words goal_lower
  then (suggested ++ [suggestion])%list else suggested.

Definition _suggest_tools (goal : string) (result : PyVal) : list string :=
  let suggested : list string := [] in
  let goal_lower := lower goal in
  let suggested :=
    suggest_if ["filter"; "organize"; "label"; "sort"]
      ("Gmail Filters Tool - "
       ++ "A tool to create and manage Gmail filters for automatic email organization")
      goal_lower suggested in
  let suggested :=
    suggest_if ["template"; "compose"; "draft"]
      ("Email Templates - "
       ++ "Pre-built email templates for common messages")
      goal_lower suggested in
  let suggested :=
    suggest_if ["reminder"; "notify"; "alert"]
      ("Calendar Reminders Tool - "
       ++ "A tool to set and manage calendar event reminders")
      goal_lower suggested in
  let suggested :=
    suggest_if ["schedule"; "send later"]
      ("Email Scheduling - "
       ++ "Schedule emails to be sent at a specific time")
      goal_lower suggested in
  let suggested :=
    suggest_if ["share"; "permission"; "access"]
      ("Calendar Sharing - " ++ "Share calendars with other users")
      goal_lower suggested in
  suggest_if ["bulk"; "multiple"; "batch"]
    ("Bulk Operations Tool - "
     ++ "Perform bulk operations on multiple emails or events")
    goal_lower suggested.

(** One entry of [task_record["steps"]]. *)
Record StepRecord : Type := mkStep {
  step_tool : string;
  step_params : PyVal;
  step_result : PyVal
}.

Record TaskRecord : Type := mkTask {
  task_goal : string;
  task_timestamp : string;
  task_steps : list StepRecord;
  task_result : PyVal;
  task_error : option string;
  task_suggested_tools : list string
}.

Record t : Type := mk {
  task_history : list TaskRecord;
  suggested_tools : list string
}.

(** [GoogleAgent.__init__] *)
Definition init : t := mk [] [].

(** The first key of [params] that names a parameter of [execute]
    itself. *)
Fixpoint colliding (params : Py.dict) : option string :=
  match params with
  | [] => None
  | (k, _) :: rest =>
      if (String.eqb k "tool_name" || String.eqb k "self")%bool
      then Some k else colliding rest
  end.

(** The regex-based extraction, whose result is a dictionary. *)
Definition regex_parameters (now : Datetime.date) (goal tool_name : string)
  : Outcome PyVal :=
  match GoogleAgent.regex_parameters now goal tool_name with
  | Returned params => Returned (PDict params)
  | Raised e => Raised e
  end.

(** [_extract_parameters(self, goal, tool_name)], as [execute_task]
    gets its result: lines 219-231 hand on the answer of the parser as
    it is, whatever its type; without a parser, for the other tools,
    and when the parser raises, the regex-based extraction follows. *)
Definition _extract_parameters (query_parser : option QueryParser)
           (now : Datetime.date) (goal tool_name : string) : Outcome PyVal :=
  match query_parser with
  | Some parser =>
      if String.eqb tool_name "query_gmail" then
        match parse_gmail_query parser goal with
        | Returned llm_params => Returned llm_params
        | Raised _ => regex_parameters now goal tool_name
        end
      else if String.eqb tool_name "query_events" then
        match parse_calendar_query parser goal with
        | Returned llm_params => Returned llm_params
        | Raised _ => regex_parameters now goal tool_name
        end
      else regex_parameters now goal tool_name
  | None => regex_parameters now goal tool_name
  end.

Section WithWorld.
Context {W : Type}.

(** [self.toolkit.execute(tool_name, **params)], as a call: a value
    of [params] that is not a mapping, or a key of [params] named like
    a parameter of [execute], makes the call raise before [execute] is
    entered. *)
Definition call_execute (tools : gmap string (Tool W)) (w : W)
           (tool_name : string) (params : PyVal) : W * Outcome PyVal :=
  match params with
  | PDict kwargs =>
      match colliding kwargs with
      | Some key =>
          (w, Raised (mkExn TypeError
                        ("GoogleAgentToolkit.execute() got multiple values "
                         ++ "for argument '" ++ key ++ "'")))
      | None =>
          let '(w', result) :=
            GoogleAgentToolkit.execute tools w tool_name kwargs in
          (w', Returned result)
      end
  | _ =>
      (w, Raised (mkExn TypeError
                    ("agents.google_agent.GoogleAgentToolkit.execute() "
                     ++ "argument after ** must be a mapping, not "
                     ++ Py.type_name params)))
  end.

(** Where the [for] loop of [execute_task] stands: the world, the
    locals [execution_count] and [result], the steps recorded so far,
    and the text of the exception that ended the loop, if one did. *)
Record Loop : Type := mkLoop {
  world : W;
  execution_count : Z;
  result : PyVal;
  steps : list StepRecord;
  error : option string
}.

(** Lines 121-153: the body of the [try]. *)
Fixpoint run_tools (tools : gmap string (Tool W))
         (query_parser : option QueryParser) (now : Datetime.date)
         (goal : string) (max_steps : Z) (tools_needed : list string)
         (w : W) (execution_count : Z) (result : PyVal)
         (steps : list StepRecord) : Loop :=
  match tools_needed with
  | [] => mkLoop w execution_count result steps None
  | tool_name :: rest =>
      if max_steps <=? execution_count then
        mkLoop w execution_count result steps
               (Some ("Max steps (" ++ str_int max_steps ++ ") exceeded"))
      else
        (* Parse parameters from goal *)
        match _extract_parameters query_parser now goal tool_name with
        | Raised e => mkLoop w execution_count result steps (Some (exn_str e))
        | Returned params =>
            (* Execute the tool *)
            match call_execute tools w tool_name params with
            | (w, Raised e) =>
                mkLoop w execution_count result steps (Some (exn_str e))
            | (w, Returned step_result) =>
                let execution_count := execution_count + 1 in
                (* Record the step *)
                let steps :=
                  (steps ++ [mkStep tool_name params step_result])%list in
                match step_result with
                | PDict entries =>
                    let result :=
                      if Py.truthy (Py.get "ok" PNone entries)
                      then step_result else result in
                    run_tools tools query_parser now goal max_steps rest
                              w execution_count result steps
                | _ =>
                    mkLoop w execution_count result steps
                           (Some "object has no attribute 'get'")
                end
            end
        end
  end.

(** [execute_task(self, goal, max_steps=10)]: the agent and the world
    it leaves, and the dictionary it returns. *)
Definition execute_task (tools : gmap string (Tool W))
           (query_parser : option QueryParser) (now : Datetime.date)
           (timestamp : string) (self : t) (w : W)
           (goal : string) (max_steps : Z) : t * W * PyVal :=
  (* Parse the goal to determine which tools are needed *)
  let tools_needed := _determine_tools query_parser goal in
  let loop :=
    run_tools tools query_parser now goal max_steps tools_needed w 0 PNone []
  in
  let task_record :=
    mkTask goal timestamp (steps loop)
           (match error loop with None => result loop | Some _ => PNone end)
           (error loop)
           (_suggest_tools goal (result loop)) in
  (* Save to history *)
  let self :=
    mk (task_history self ++ [task_record])%list
       (_suggest_tools goal (result loop)) in
  (self, world loop,
   PDict [("ok", PBool (match error loop with None => true | Some _ => false end));
          ("goal", PStr goal);
          ("result", result loop);
          ("steps_executed", PInt (execution_count loop));
          ("suggested_tools",
           PList (map PStr (suggested_tools self)));
          ("task_id", PInt (Z.of_nat (List.length (task_history self)) - 1))]).

(** [add_custom_tool(self, name, tool)] on [self.toolkit.tools] *)
Definition add_custom_tool (tools : gmap string (Tool W)) (name : string)
           (tool : Tool W) : gmap string (Tool W) :=
  <[ name := tool ]> tools.

End WithWorld.

(** The answers of the parser to [goal] are dictionaries with no key
    named like a parameter of [execute]. *)
Definition plain_answers (query_parser : option QueryParser) (goal : string)
  : Prop :=
  match query_parser with
  | None => True
  | Some parser =>
      (forall v, parse_gmail_query parser goal = Returned v ->
                 exists d, v = PDict d /\ colliding d = None) /\
      (forall v, parse_calendar_query parser goal = Returned v ->
                 exists d, v = PDict d /\ colliding d = None)
  end.

(** [get_agent_status(self)]: the three counters. *)
Definition total_tasks_executed (self : t) : Z :=
  Z.of_nat (List.length (task_history self)).

Definition successful_tasks (self : t) : Z :=
  Z.of_nat
    (List.length
       (List.filter (fun task => match task_error task with
                                 | None => true
                                 | Some _ => false
                                 end)
                    (task_history self))).

Definition failed_tasks (self : t) : Z :=
  total_tasks_executed self - successful_tasks self.

(** [reset_history(self)] *)
Definition reset_history (self : t) : t := mk [] (suggested_tools self).

End GoogleAgentTasks.

(* ===================================================================== *)
(** ** [tools/base.py]: [ToolRegistry]; [tools/filesystem.py],
       [tools/network.py]; [main.py]: [build_tools] *)
(* ===================================================================== *)

Module ToolRegistry.
Section WithWorld.
Context {W : Type}.

(** A tool object as [register] sees it: the [name] attribute of its
    class, and the tool. *)
Record Named : Type := mkNamed {
  name : string;
  tool : Tool W
}.

(** [ToolRegistry()] *)
Definition init : gmap string (Tool W) := ∅.

(** [self._tools[tool.name] = tool] *)
Definition register (self : gmap string (Tool W)) (t : Named)
  : gmap string (Tool W) :=
  <[ name t := tool t ]> self.

Definition get (self : gmap string (Tool W)) (name : string)
  : option (Tool W) :=
  self !! name.

(** [dict(self._tools)] *)
Definition as_dict (self : gmap string (Tool W)) : gmap string (Tool W) :=
  self.

End WithWorld.
End ToolRegistry.

Module Filesystem.
Section WithWorld.
Context {W : Type}.

(** The file system and the network: [open(path, "r")] with
    [fh.read()], [open(path, "w")] with [fh.write(content)], and
    [urlopen] with the decoding of what it reads. *)
Record System : Type := mkSystem {
  read_text : W -> PyVal -> W * Outcome PyVal;
  write_text : W -> PyVal -> PyVal -> W * Outcome unit;
  fetch : W -> PyVal -> PyVal -> W * Outcome PyVal
}.

Definition ReadFile_sig : Call.signature :=
  Call.mkSignature "tools.filesystem" "ReadFile.run" ["path"] [].
Definition SafeWriteFile_sig : Call.signature :=
  Call.mkSignature "tools.filesystem" "SafeWriteFile.run"
                   ["path"; "content"] ["overwrite"].
Definition HttpGet_sig : Call.signature :=
  Call.mkSignature "tools.network" "HttpGet.run" ["url"] ["timeout"].

Definition ReadFile_body (sys : System) (w : W) (kw : Py.dict)
  : W * Outcome PyVal :=
  read_text sys w (Py.get "path" PNone kw).

(** This tool intentionally requires explicit [overwrite=True] to
    modify files. *)
Definition SafeWriteFile_body (sys : System) (w : W) (kw : Py.dict)
  : W * Outcome PyVal :=
  let overwrite := Py.get "overwrite" (PBool false) kw in
  if negb (Py.truthy overwrite)
  then (w, Returned (PDict [("ok", PBool false);
                           ("error", PStr "overwrite flag not set")]))
  else
    match write_text sys w (Py.get "path" PNone kw)
                     (Py.get "content" PNone kw) with
    | (w', Returned _) => (w', Returned (PDict [("ok", PBool true)]))
    | (w', Raised e) => (w', Raised e)
    end.

Definition HttpGet_body (sys : System) (w : W) (kw : Py.dict)
  : W * Outcome PyVal :=
  fetch sys w (Py.get "url" PNone kw) (Py.get "timeout" (PInt 10) kw).

Definition ReadFile (sys : System) : Tool W :=
  mkTool "Read text from a file path"
         (Call.method ReadFile_sig (ReadFile_body sys)).

Definition SafeWriteFile (sys : System) : Tool W :=
  mkTool "Write text to a file path (use carefully)"
         (Call.method SafeWriteFile_sig (SafeWriteFile_body sys)).

Definition HttpGet (sys : System) : Tool W :=
  mkTool "Perform a simple HTTP GET and return text content"
         (Call.method HttpGet_sig (HttpGet_body sys)).

End WithWorld.
End Filesystem.

Module Main.
Section WithWorld.
Context {W : Type}.

(** [build_tools()]; the four Gmail classes are imported with the
    module, so the registrations in the [try] all take place. *)
Definition build_tools (sys : Filesystem.System)
           (b : GoogleTools.bodies) : gmap string (Tool W) :=
  let registry := ToolRegistry.init in
  let registry :=
    ToolRegistry.register registry
      (ToolRegistry.mkNamed "noop" Tools.NoopTool) in
  let registry :=
    ToolRegistry.register registry
      (ToolRegistry.mkNamed "read_file" (Filesystem.ReadFile sys)) in
  let registry :=
    ToolRegistry.register registry
      (ToolRegistry.mkNamed "write_file" (Filesystem.SafeWriteFile sys)) in
  let registry :=
    ToolRegistry.register registry
      (ToolRegistry.mkNamed "http_get" (Filesystem.HttpGet sys)) in
  (* Gmail tools *)
  let registry :=
    ToolRegistry.register registry
      (ToolRegistry.mkNamed "query_gmail" (GoogleTools.QueryGmail b)) in
  let registry :=
    ToolRegistry.register registry
      (ToolRegistry.mkNamed "read_email" (GoogleTools.ReadEmail b)) in
  let registry :=
    ToolRegistry.register registry
      (ToolRegistry.mkNamed "send_email" (GoogleTools.SendEmail b)) in
  let registry :=
    ToolRegistry.register registry
      (ToolRegistry.mkNamed "list_gmail_labels"
                            (GoogleTools.ListGmailLabels b)) in
  ToolRegistry.as_dict registry.

End WithWorld.
End Main.

(* ===================================================================== *)
(** ** [tools/gmail.py]: [QueryGmail.run] with its two counting paths

    The [list] request with its [pageToken]: the page it answers is a
    listing with the token of the next page, if there is one.  The
    [while True] of [count_all] is run with a bound [fuel] on the
    number of requests; [None] is a loop that has not ended. *)
(* ===================================================================== *)

Module GmailCount.
Import PyStr.

Record Page : Type := mkPage {
  listing : Gmail.Listing;
  nextPageToken : option string
}.

(** [service.users().messages().list(userId="me", q=..., maxResults=...,
    pageToken=...)], preceded by [get_gmail_service()]. *)
Definition PagedService : Type :=
  string -> Z -> option string -> Outcome Page.

(** The two [except] clauses of [run]. *)
Definition failure (e : Exn) : PyVal :=
  match exn_class e with
  | FileNotFoundError =>
      PDict [("ok", PBool false); ("error", PStr (exn_str e))]
  | _ =>
      PDict [("ok", PBool false);
             ("error", PStr ("Gmail query failed: " ++ exn_str e))]
  end.

Definition ids (page : Page) : list string :=
  map fst (Gmail.messages (listing page)).

(** Lines 50-64: the pagination. *)
Fixpoint paginate (fuel : nat) (service : PagedService) (query : string)
         (next_page_token : option string) (all_ids : list string)
  : option (Outcome (list string)) :=
  match fuel with
  | O => None
  | S fuel' =>
      match service query 100 next_page_token with
      | Raised e => Some (Raised e)
      | Returned results =>
          let all_ids := (all_ids ++ ids results)%list in
          match nextPageToken results with
          | None => Some (Returned all_ids)
          | Some token =>
              if String.eqb token "" then Some (Returned all_ids)
              else paginate fuel' service query (Some token) all_ids
          end
      end
  end.

(** [falsy token]: [not next_page_token]. *)
Definition last_page (page : Page) : bool :=
  match nextPageToken page with
  | None => true
  | Some token => String.eqb token ""
  end.

(** What the service answers to the requests of a count, one after the
    other from [token] on: the [pages], each naming the next, and then
    [final], the answer to the request that ends the count. *)
Fixpoint serves (service : PagedService) (query : string)
         (token : option string) (pages : list Page) (final : Outcome Page)
  : Prop :=
  match pages with
  | [] => service query 100 token = final
  | page :: rest =>
      service query 100 token = Returned page /\
      exists next : string,
        nextPageToken page = Some next /\ next <> "" /\
        serves service query (Some next) rest final
  end.

Definition count_all (fuel : nat) (service : PagedService) (query : string)
  : option PyVal :=
  match paginate fuel service query None [] with
  | None => None
  | Some (Raised e) => Some (failure e)
  | Some (Returned all_ids) =>
      let n := Z.of_nat (List.length all_ids) in
      Some (PDict [("ok", PBool true);
                   ("query", PStr query);
                   ("count", PInt n);
                   ("summary",
                    PStr ("Found " ++ str_int n
                          ++ " emails matching query (accurate count)"))])
  end.

Definition count_only (service : PagedService) (query : string) : PyVal :=
  match service query 1 None with
  | Raised e => failure e
  | Returned results =>
      let estimate := Gmail.resultSizeEstimate (listing results) in
      PDict [("ok", PBool true);
             ("query", PStr query);
             ("count", PInt estimate);
             ("count_note",
              PStr ("This is an API estimate and may be inaccurate. "
                    ++ "Use count_all=True for accurate count."));
             ("summary",
              PStr ("Found " ++ str_int estimate ++ " emails (API estimate)"))]
  end.

(** The first page, as the listing path asks for it. *)
Definition first_page (service : PagedService) : Gmail.Service :=
  fun query max_results =>
    match service query max_results None with
    | Returned results => Returned (listing results)
    | Raised e => Raised e
    end.

(** [run(self, query, max_results=10, count_only=False, count_all=False)] *)
Definition run (fuel : nat) (service : PagedService) (query : string)
           (max_results : Z) (count_only_ count_all_ : bool) : option PyVal :=
  if count_all_ then count_all fuel service query
  else if count_only_ then Some (count_only service query)
  else Some (Gmail.run (first_page service) query max_results).

End GmailCount.

(* ===================================================================== *)
(** ** [tools/calendar.py]: the request of [QueryEvents.run] and
       [CreateEvent._parse_time], for arguments of the declared types *)
(* ===================================================================== *)

Module Calendar.
Import PyStr.

(** Lines 108-121: a date string is converted to RFC 3339 if needed;
    [midnight] is ["T00:00:00Z"] for [time_min] and ["T23:59:59Z"] for
    [time_max]. *)
Definition rfc3339 (midnight : string) (time : string) : string :=
  if negb (contains "T" time) then time ++ midnight
  else if negb (endswith "Z" time) then time ++ "Z"
  else time.

(** [x] when [x] is given and truthy. *)
Definition provided (x : option string) : option string :=
  match x with
  | Some s => if String.eqb s "" then None else Some s
  | None => None
  end.

Definition set_if (k : string) (x : option string) (kwargs : Py.dict)
  : Py.dict :=
  match x with
  | Some s => Py.set k (PStr s) kwargs
  | None => kwargs
  end.

(** Lines 92-125: the keyword arguments of [service.events().list]. *)
Definition request (calendar_id : string) (time_min time_max : option string)
           (search_text : option string) (max_results : Z) : Py.dict :=
  let max_results := Gmail.clamp_max_results max_results in
  let kwargs : Py.dict :=
    [("calendarId", PStr calendar_id);
     ("maxResults", PInt max_results);
     ("singleEvents", PBool true);
     ("orderBy", PStr "startTime")] in
  let kwargs :=
    set_if "timeMin" (option_map (rfc3339 "T00:00:00Z") (provided time_min))
           kwargs in
  let kwargs :=
    set_if "timeMax" (option_map (rfc3339 "T23:59:59Z") (provided time_max))
           kwargs in
  set_if "q" (provided search_text) kwargs.

(** The arguments [run] receives from the keywords [kw], with the
    defaults of its signature: a text, or nothing. *)
Definition text_arg (k : string) (kw : Py.dict) : option string :=
  match Py.lookup k kw with
  | Some (PStr s) => Some s
  | _ => None
  end.

Definition request_of (kw : Py.dict) : Py.dict :=
  request (match text_arg "calendar_id" kw with
           | Some s => s
           | None => "primary"
           end)
          (text_arg "time_min" kw) (text_arg "time_max" kw)
          (text_arg "search_text" kw)
          (match Py.lookup "max_results" kw with
           | Some (PInt n) => n
           | _ => 10
           end).

(** [time_str.count("-")] *)
Fixpoint count_dashes (s : string) : nat :=
  match s with
  | EmptyString => O
  | String c s' =>
      if Ascii.eqb c "-" then S (count_dashes s') else count_dashes s'
  end.

(** [CreateEvent._parse_time(time_str)] *)
Definition _parse_time (time_str : string) : Py.dict :=
  (* If it's a date-only string (YYYY-MM-DD) *)
  if (Nat.eqb (String.length time_str) 10
      && Nat.eqb (count_dashes time_str) 2)%bool
  then [("date", PStr time_str)]
  else
    (* Otherwise treat as datetime; ensure it has Z suffix for UTC *)
    let time_str :=
      if negb (endswith "Z" time_str) then
        if contains "T" time_str then time_str ++ "Z"
        else time_str ++ "T00:00:00Z"
      else time_str in
    [("dateTime", PStr time_str)].

(** Lines 200-213: the body of the [insert] request. *)
Definition event_body (summary start_time end_time : string)
           (description location : option string) : Py.dict :=
  let event : Py.dict :=
    [("summary", PStr summary);
     ("start", PDict (_parse_time start_time));
     ("end", PDict (_parse_time end_time))] in
  let event := set_if "description" (provided description) event in
  set_if "location" (provided location) event.

End Calendar.

(* ===================================================================== *)
(** ** [agents/llm_parser.py]: [QueryParser._call_llm] and
       [LLMQueryParser.determine_tool] *)
(* ===================================================================== *)

Module LLMParser.
Import PyStr.

(** [text.split(sep)[1]] for a [text] that contains [sep]: what stands
    between the first [sep] and the next one, or the end. *)
Fixpoint after_first (sep s : string) : option string :=
  match strip_prefix sep s with
  | Some rest => Some rest
  | None =>
      match s with
      | EmptyString => None
      | String _ s' => after_first sep s'
      end
  end.

Fixpoint before_first (sep s : string) : string :=
  if startswith sep s then EmptyString
  else match s with
       | EmptyString => EmptyString
       | String c s' => String c (before_first sep s')
       end.

Definition second_part (sep text : string) : string :=
  match after_first sep text with
  | Some rest => before_first sep rest
  | None => EmptyString
  end.

(** Lines 229-233: remove markdown code blocks if present. *)
Definition unfence (text : string) : string :=
  let text :=
    if contains "```" text then
      let text := second_part "```" text in
      if startswith "json" text then drop 4 text else text
    else text in
  strip text.

(** A response of the API, by what [response.content[0].text] does on
    it: it is a text, or [content] is empty ([IndexError]), or its
    first block has no [text] ([AttributeError]). *)
Inductive Response : Type :=
| Text (text : string)
| EmptyContent
| NoText.

Section WithClient.

(** [self.client.messages.create(model=..., max_tokens=...,
    messages=[...])] *)
Variable messages_create : string -> Z -> Outcome Response.

Variable json_loads : string -> Outcome PyVal.

(** The prompt of [_determine_tool]; only the remote model reads it. *)
Variable tool_prompt : string -> string.

(** [_call_llm(self, prompt)]: the request is made before the [try],
    which catches [JSONDecodeError], [IndexError] and
    [AttributeError]. *)
Definition _call_llm (prompt : string) : Outcome PyVal :=
  match messages_create prompt 500 with
  | Raised e => Raised e
  | Returned EmptyContent | Returned NoText => Returned (PDict [])
  | Returned (Text text) =>
      match json_loads (unfence text) with
      | Returned result => Returned result
      | Raised e =>
          match exn_class e with
          | JSONDecodeError | AttributeError => Returned (PDict [])
          | _ => Raised e
          end
      end
  end.

(** [_determine_tool(self, query)]; nothing is caught here. *)
Definition _determine_tool (query : string) : Outcome Py.dict :=
  match messages_create (tool_prompt query) 50 with
  | Raised e => Raised e
  | Returned EmptyContent =>
      Raised (mkExn OtherError "list index out of range")
  | Returned NoText =>
      Raised (mkExn AttributeError "object has no attribute 'text'")
  | Returned (Text text) =>
      Returned [("tool", PStr (lower (strip text)))]
  end.

(** [LLMQueryParser.determine_tool(self, query)]:
    [result.get("tool", "query_gmail")] *)
Definition determine_tool (query : string) : Outcome PyVal :=
  match _determine_tool query with
  | Returned result => Returned (Py.get "tool" (PStr "query_gmail") result)
  | Raised e => Raised e
  end.

End WithClient.
End LLMParser.

(* ===================================================================== *)
(** ** Further scenarios: a world that logs what is done to it *)
(* ===================================================================== *)

Module Fixtures.

(** A state without a step bound: [AgentState(goal, max_steps=None)]. *)
Definition unbounded : AgentState.t :=
  AgentState.mk "Watch the inbox" [] [] [] 0 None false.

(** The world is the list of the actions carried out, latest first. *)
Definition logged (action : string) : GoogleTools.body_t (W := list string) :=
  fun w kw => (action :: w, PDict [("ok", PBool true)]).

Definition logging_bodies : GoogleTools.bodies (W := list string) :=
  GoogleTools.mkBodies
    (logged "list messages") (logged "get message") (logged "send message")
    (logged "list labels") (logged "list calendars") (logged "list events")
    (logged "insert event") (logged "delete event").

(** A mailbox of 230 messages, listed in pages of 100, 100 and 30. *)
Definition numbered (n : nat) : list (string * Outcome Gmail.headers) :=
  map (fun i => (PyStr.str_int (Z.of_nat i), Returned [])) (seq 0 n).

Definition three_pages : GmailCount.PagedService :=
  fun query max_results token =>
    match token with
    | None =>
        Returned (GmailCount.mkPage (Gmail.mkListing (numbered 100) 201)
                                    (Some "p2"))
    | Some "p2" =>
        Returned (GmailCount.mkPage (Gmail.mkListing (numbered 100) 201)
                                    (Some "p3"))
    | Some _ =>
        Returned (GmailCount.mkPage (Gmail.mkListing (numbered 30) 201) None)
    end.

(** A service that names a next page for ever. *)
Definition endless_pages : GmailCount.PagedService :=
  fun query max_results token =>
    Returned (GmailCount.mkPage (Gmail.mkListing (numbered 1) 1)
                                (Some "more")).

(** A client that answers with a given text, and a JSON parser that
    reads a given value out of whatever text it gets. *)
Definition answering (text : string) (w : unit) (prompt : string)
  : unit * Outcome string :=
  (w, Returned text).

Definition json_of (v : PyVal) (text : string) : Outcome PyVal := Returned v.

(** The [ClaudePlanner] over a model that answers with a quoted
    sentence: a JSON text, which [json.loads] reads as a string. *)
Definition quoted (text : string) : string :=
  String "034"%char (text ++ String "034"%char EmptyString).

Definition claude_quoting : Agent.Planner (W := unit) :=
  ClaudePlanner.planner
    (answering (quoted "Give a name, args and a reason."))
    (json_of (PStr "Give a name, args and a reason."))
    Scenarios.no_prompt Scenarios.no_tools_prompt.

(** A planner that asks for the unread mail as long as nothing was
    observed, and proposes the no-op once the memory has an entry; and
    a registry with the two tools it names. *)
Definition list_then_stop : Agent.Planner (W := unit) :=
  Agent.mkPlanner
    (fun w _ ctx =>
       if String.eqb ctx EmptyString
       then (w, Returned Scenarios.propose_count_unread)
       else (w, Returned (MockPlanner.proposal "noop" [] "mail was listed")))
    None.

Definition gmail_and_noop : gmap string (Tool unit) :=
  {[ "query_gmail" := Scenarios.query_gmail_tool; "noop" := Tools.NoopTool ]}.

(** An LLM parser whose model names "query_gmail" and then gives
    answers [_call_llm] cannot read. *)
Definition puzzled_parser : GoogleAgentTasks.QueryParser :=
  GoogleAgentTasks.mkQueryParser
    (fun _ => Returned (PDict [])) (fun _ => Returned (PDict []))
    (fun _ => Returned "query_gmail").

(** An LLM parser whose model names "query_gmail" and answers the
    Gmail question with a JSON object that gives the query. *)
Definition helpful_parser : GoogleAgentTasks.QueryParser :=
  GoogleAgentTasks.mkQueryParser
    (fun _ => Returned (PDict [("query", PStr "is:unread")]))
    (fun _ => Returned (PDict [("calendar_id", PStr "primary")]))
    (fun _ => Returned "query_gmail").

(** An LLM parser whose model names "query_gmail" and answers the
    Gmail question with a JSON array. *)
Definition listing_parser : GoogleAgentTasks.QueryParser :=
  GoogleAgentTasks.mkQueryParser
    (fun _ => Returned (PList [PStr "is:unread"]))
    (fun _ => Returned PNone)
    (fun _ => Returned "query_gmail").

Definition logging_system : Filesystem.System (W := list string) :=
  Filesystem.mkSystem
    (fun w path => ("read file" :: w, Returned (PStr "contents")))
    (fun w path content => ("write file" :: w, Returned tt))
    (fun w url timeout =>
       ("fetch" :: w,
        Returned (PDict [("status", PInt 200); ("content", PStr "")]))).

End Fixtures.

(* ===================================================================== *)
(** * Properties *)
(* ===================================================================== *)

(** ** Strings *)

Section StringFacts.
Import PyStr.

Lemma append_assoc (a b c : string) : (a ++ b) ++ c = a ++ (b ++ c).
Proof. induction a as [|x a IH]; simpl; [reflexivity | now rewrite IH]. Qed.

Lemma append_empty_r (a : string) : a ++ "" = a.
Proof. induction a as [|x a IH]; simpl; [reflexivity | now rewrite IH]. Qed.

Lemma startswith_app (p r : string) : startswith p (p ++ r) = true.
Proof.
  induction p as [|x p IH]; simpl; [reflexivity|].
  now rewrite Ascii.eqb_refl, IH.
Qed.

Lemma startswith_inv (p s : string) :
  startswith p s = true -> exists r, s = p ++ r.
Proof.
  revert s; induction p as [|x p IH]; intros s H; simpl in *.
  - now exists s.
  - destruct s as [|y s]; [discriminate|].
    apply andb_prop in H as [Hxy Hp].
    apply Ascii.eqb_eq in Hxy as ->.
    destruct (IH _ Hp) as [r ->]. now exists r.
Qed.

Lemma strip_prefix_inv (p s r : string) :
  strip_prefix p s = Some r -> s = p ++ r.
Proof.
  revert s; induction p as [|x p IH]; intros s H; simpl in *.
  - now inversion H.
  - destruct s as [|y s]; [discriminate|].
    destruct (Ascii.eqb x y) eqn:E; [|discriminate].
    apply Ascii.eqb_eq in E as ->. now rewrite (IH _ H).
Qed.


(** [contains] decides the occurrence of a text inside another. *)
Lemma contains_intro (n pre post : string) :
  contains n (pre ++ n ++ post) = true.
Proof.
  induction pre as [|x pre IH]; simpl.
  - destruct (n ++ post) eqn:E; simpl; rewrite <- E, startswith_app;
      reflexivity.
  - rewrite IH. now destruct (startswith n _).
Qed.

Lemma contains_inv (n s : string) :
  contains n s = true -> exists pre post, s = pre ++ n ++ post.
Proof.
  induction s as [|x s IH]; simpl; intros H.
  - destruct (startswith n "") eqn:E; [|discriminate].
    apply startswith_inv in E as [r ->]. now exists "", r.
  - destruct (startswith n (String x s)) eqn:E.
    + apply startswith_inv in E as [r ->]. now exists "", r.
    + destruct (IH H) as (pre & post & ->). now exists (String x pre), post.
Qed.

Lemma lstrip_split (s : string) : exists ws, s = ws ++ lstrip s.
Proof.
  induction s as [|x s [ws IH]]; simpl.
  - now exists "".
  - destruct (is_space x).
    + exists (String x ws). simpl. now rewrite <- IH.
    + now exists "".
Qed.

Lemma join_snoc (sep : string) (items : list string) (x : string) :
  exists pre, join sep (items ++ [x])%list = pre ++ x.
Proof.
  induction items as [|y items [pre IH]]; simpl.
  - now exists "".
  - destruct (items ++ [x])%list eqn:E.
    + now destruct items.
    + exists (y ++ sep ++ pre). rewrite !append_assoc. now rewrite <- IH.
Qed.

Lemma lstrip_blank_app (ws x : string) :
  lstrip ws = "" -> lstrip (ws ++ x) = lstrip x.
Proof.
  induction ws as [|c ws IH]; simpl; [reflexivity|].
  destruct (is_space c); [exact IH | discriminate].
Qed.






End StringFacts.

(** ** The scans of the resolver *)

Section RegexFacts.
Import PyStr Regex.

Lemma week_alt_sound (alts : list string) (s w : string) :
  week_alt alts s = Some w ->
  In w alts /\ exists r, s = w ++ r /\ spaces_then_week r = true.
Proof.
  induction alts as [|a alts IH]; simpl; [discriminate|].
  destruct (strip_prefix a s) as [r|] eqn:E.
  - destruct (spaces_then_week r) eqn:Hr.
    + intros [= <-]. split; [now left|].
      exists r. split; [now apply strip_prefix_inv | assumption].
    + intros H. destruct (IH H) as [? ?]. split; [now right | assumption].
  - intros H. destruct (IH H) as [? ?]. split; [now right | assumption].
Qed.

Lemma week_search_sound (s w : string) :
  week_search s = Some w ->
  In w ORDINALS /\ exists pre r, s = pre ++ w ++ r /\ spaces_then_week r = true.
Proof.
  induction s as [|x s IH].
  - discriminate.
  - change (week_search (String x s))
      with (match week_alt ORDINALS (String x s) with
            | Some w => Some w
            | None => week_search s
            end).
    destruct (week_alt ORDINALS (String x s)) eqn:E.
    + intros [= <-]. apply week_alt_sound in E as (Hin & r & Hs & Hr).
      split; [assumption|]. now exists "", r.
    + intros H. destruct (IH H) as (Hin & pre & r & -> & Hr).
      split; [assumption|]. now exists (String x pre), r.
Qed.

(** A text where the week pattern matches contains the word "week". *)
Lemma week_search_contains_week (s w : string) :
  week_search s = Some w -> contains "week" s = true.
Proof.
  intros H. apply week_search_sound in H as (_ & pre & r & -> & Hr).
  destruct r as [|c r]; [simpl in Hr; discriminate|].
  unfold spaces_then_week in Hr.
  apply andb_prop in Hr as [_ Hr].
  apply startswith_inv in Hr as [post Hpost].
  destruct (lstrip_split r) as [ws Hws].
  rewrite Hws, Hpost.
  replace (pre ++ w ++ String c (ws ++ "week" ++ post))
    with ((pre ++ w ++ String c ws) ++ "week" ++ post).
  - apply contains_intro.
  - rewrite !append_assoc. reflexivity.
Qed.

Lemma month_alt_in (alts : list (string * option string)) (s w : string) :
  month_alt alts s = Some w -> In w (map fst alts).
Proof.
  induction alts as [|[a la] alts IH]; simpl; [discriminate|].
  destruct (strip_prefix a s) as [r|].
  - destruct (not_followed_by la r && boundary (last_char a) r)%bool.
    + intros [= <-]. now left.
    + intros H. right. now apply IH.
  - intros H. right. now apply IH.
Qed.

Lemma month_search_in (s w : string) :
  month_search s = Some w -> In w (map fst MONTHS).
Proof.
  induction s as [|x s IH].
  - discriminate.
  - change (month_search (String x s))
      with (match month_alt MONTHS (String x s) with
            | Some w => Some w
            | None => month_search s
            end).
    destruct (month_alt MONTHS (String x s)) eqn:E.
    + intros [= <-]. now apply month_alt_in in E.
    + exact IH.
Qed.

End RegexFacts.

(* ===================================================================== *)
(** * The phrases of a goal

    What it is for a text to name a month and an ordinal week, said
    without the patterns: a month is named in full or by its first
    three letters, with no letter, digit or underscore right after it;
    an ordinal week is one of "first" .. "fifth" or "1st" .. "5th", one
    or more blanks, and "week".  The number of a month is its place in
    the calendar, the number of an ordinal its place in the count. *)
(* ===================================================================== *)

Abbreviation MONTH_NAMES :=
  ["january"; "february"; "march"; "april"; "may"; "june"; "july";
   "august"; "september"; "october"; "november"; "december"].
Abbreviation ORDINAL_WORDS := ["first"; "second"; "third"; "fourth"; "fifth"].
Abbreviation ORDINAL_NUMERALS := ["1st"; "2nd"; "3rd"; "4th"; "5th"].

(** The word [w] names the month number [m], in full or by its first
    three letters. *)
Abbreviation names_month w m :=
  (exists full : string,
      1 <= m /\ nth_error MONTH_NAMES (Z.to_nat (m - 1)) = Some full /\
      (w = full \/ w = PyStr.take 3 full)).

(** The word [w] is the ordinal number [k], written out or as a
    numeral. *)
Abbreviation names_ordinal w k :=
  (1 <= k /\
   (nth_error ORDINAL_WORDS (Z.to_nat (k - 1)) = Some w \/
    nth_error ORDINAL_NUMERALS (Z.to_nat (k - 1)) = Some w)).

(** No letter, digit or underscore comes first in [rest]. *)
Abbreviation no_word_ahead rest :=
  (forall (c0 : ascii) (tail0 : string),
      rest = String c0 tail0 -> PyStr.is_word c0 = false).

(** After its first [n] characters, the text [s] names the month [m]. *)
Abbreviation month_at s n m :=
  (exists pre0 w0 post0 : string,
      s = pre0 ++ w0 ++ post0 /\ String.length pre0 = n /\
      names_month w0 m /\ no_word_ahead post0).

(** After its first [n] characters, the text [s] names the [k]-th
    week: an ordinal, blanks, and "week". *)
Abbreviation week_at s n k :=
  (exists pre0 w0 blanks0 post0 : string,
      s = pre0 ++ w0 ++ blanks0 ++ "week" ++ post0 /\
      String.length pre0 = n /\ names_ordinal w0 k /\
      blanks0 <> "" /\ PyStr.lstrip blanks0 = "").

Section PhraseFacts.
Import PyStr Regex Datetime GoogleAgent.




















End PhraseFacts.

(** ** Dictionaries *)

Section DictFacts.

Lemma lookup_set_eq (k : string) (v : PyVal) (d : Py.dict) :
  Py.lookup k (Py.set k v d) = Some v.
Proof.
  induction d as [|[k' v'] d IH]; simpl.
  - now rewrite String.eqb_refl.
  - destruct (String.eqb k k') eqn:E; simpl; rewrite E;
      [reflexivity | exact IH].
Qed.

Lemma lookup_set_ne (k k' : string) (v : PyVal) (d : Py.dict) :
  k <> k' -> Py.lookup k (Py.set k' v d) = Py.lookup k d.
Proof.
  intros Hne. induction d as [|[k0 v0] d IH]; simpl.
  - apply String.eqb_neq in Hne. now rewrite Hne.
  - destruct (String.eqb k' k0) eqn:E; simpl.
    + apply String.eqb_eq in E as <-.
      apply String.eqb_neq in Hne. now rewrite Hne.
    + now rewrite IH.
Qed.

End DictFacts.

(** ** Dates *)

Section DateFacts.
Import Datetime.

(** Year and month of a valid date, and where the year 9999 begins. *)
Lemma ord2ymd_bounds (n : date) :
  valid n ->
  1 <= year_of n <= 9999 /\ 1 <= month_of n <= 12 /\
  (year_of n <= 9998 -> n <= 3651694).
Proof.
  intros Hn. unfold valid, _MAXORDINAL in Hn.
  unfold year_of, month_of, _ord2ymd, _DI400Y, _DI100Y, _DI4Y.
  set (a := (n - 1) / 146097). set (ra := (n - 1) mod 146097).
  set (b := ra / 36524). set (rb := ra mod 36524).
  set (c := rb / 1461). set (rc := rb mod 1461).
  set (e := rc / 365). set (r := rc mod 365).
  assert (Ha : n - 1 = 146097 * a + ra /\ 0 <= ra < 146097)
    by (subst a ra; split; [apply Z.div_mod | apply Z.mod_pos_bound]; lia).
  assert (Hb : ra = 36524 * b + rb /\ 0 <= rb < 36524)
    by (subst b rb; split; [apply Z.div_mod | apply Z.mod_pos_bound]; lia).
  assert (Hc : rb = 1461 * c + rc /\ 0 <= rc < 1461)
    by (subst c rc; split; [apply Z.div_mod | apply Z.mod_pos_bound]; lia).
  assert (He : rc = 365 * e + r /\ 0 <= r < 365)
    by (subst e r; split; [apply Z.div_mod | apply Z.mod_pos_bound]; lia).
  clearbody a ra b rb c rc e r.
  destruct ((e =? 4) || (b =? 4))%bool eqn:Hsp.
  - apply orb_prop in Hsp. split; [|split]; try lia.
    all: destruct Hsp as [H|H]; apply Z.eqb_eq in H; lia.
  - apply orb_false_elim in Hsp as [H1 H2].
    apply Z.eqb_neq in H1, H2.
    rewrite Z.shiftr_div_pow2 by lia. change (2 ^ 5) with 32.
    set (m := (r + 50) / 32).
    assert (Hm : r + 50 = 32 * m + (r + 50) mod 32
                 /\ 0 <= (r + 50) mod 32 < 32)
      by (subst m; split; [apply Z.div_mod | apply Z.mod_pos_bound]; lia).
    clearbody m.
    assert (1 <= m <= 12) by lia.
    destruct (r <? _) eqn:Hlt.
    + split; [lia|]. split; [|lia].
      apply Z.ltb_lt in Hlt.
      assert (m = 1 \/ 2 <= m) as [->|?] by lia; [|lia].
      simpl in Hlt. lia.
    + split; [lia|]. split; lia.
Qed.

Lemma days_before_month_bounds (y m : Z) :
  1 <= m <= 12 ->
  0 <= _days_before_month y m <= 335 /\
  (m <= 11 -> _days_before_month y m <= 305).
Proof.
  intros Hm. unfold _days_before_month.
  assert (m = 1 \/ m = 2 \/ m = 3 \/ m = 4 \/ m = 5 \/ m = 6 \/ m = 7 \/
          m = 8 \/ m = 9 \/ m = 10 \/ m = 11 \/ m = 12) as Hc by lia.
  destruct (_is_leap y);
    repeat (destruct Hc as [->|Hc]; [simpl; lia|]); subst; simpl; lia.
Qed.

Lemma days_before_year_bounds (y : Z) :
  1 <= y <= 9999 ->
  0 <= _days_before_year y <= 3651694 /\
  (y <= 9998 -> _days_before_year y <= 3651329).
Proof.
  intros Hy. unfold _days_before_year. cbv zeta.
  pose proof (Z.div_mod (y - 1) 4 ltac:(lia)).
  pose proof (Z.mod_pos_bound (y - 1) 4 ltac:(lia)).
  pose proof (Z.div_mod (y - 1) 100 ltac:(lia)).
  pose proof (Z.mod_pos_bound (y - 1) 100 ltac:(lia)).
  pose proof (Z.div_mod (y - 1) 400 ltac:(lia)).
  pose proof (Z.mod_pos_bound (y - 1) 400 ltac:(lia)).
  lia.
Qed.

(** The first of a month is a date, and leaves room for forty days
    unless it is the first of December 9999. *)
Lemma datetime_first (y m : Z) :
  1 <= y <= 9999 -> 1 <= m <= 12 ->
  datetime y m 1 = Returned (_ymd2ord y m 1) /\
  1 <= _ymd2ord y m 1 /\
  (y <= 9998 \/ m <= 11 -> _ymd2ord y m 1 + 40 <= _MAXORDINAL).
Proof.
  intros Hy Hm.
  pose proof (days_before_month_bounds y m Hm) as [Hdm Hdm'].
  pose proof (days_before_year_bounds y Hy) as [Hdy Hdy'].
  split; [|split].
  - unfold datetime, MINYEAR, MAXYEAR.
    replace (1 <=? y) with true by (symmetry; apply Z.leb_le; lia).
    replace (y <=? 9999) with true by (symmetry; apply Z.leb_le; lia).
    replace (1 <=? m) with true by (symmetry; apply Z.leb_le; lia).
    replace (m <=? 12) with true by (symmetry; apply Z.leb_le; lia).
    replace (1 <=? _days_in_month y m) with true; [reflexivity|].
    symmetry; apply Z.leb_le. unfold _days_in_month.
    destruct ((m =? 2) && _is_leap y)%bool; [lia|].
    assert (m = 1 \/ m = 2 \/ m = 3 \/ m = 4 \/ m = 5 \/ m = 6 \/ m = 7 \/
            m = 8 \/ m = 9 \/ m = 10 \/ m = 11 \/ m = 12) as Hc by lia.
    repeat (destruct Hc as [->|Hc]; [simpl; lia|]); subst; simpl; lia.
  - unfold _ymd2ord. lia.
  - unfold _ymd2ord, _MAXORDINAL. intros [H|H]; [specialize (Hdy' H); lia|].
    specialize (Hdm' H). lia.
Qed.

Lemma add_days_ok (d n : Z) :
  1 <= d + n <= _MAXORDINAL -> add_days d n = Returned (d + n).
Proof.
  intros H. unfold add_days. cbv zeta.
  replace (1 <=? d + n) with true by (symmetry; apply Z.leb_le; lia).
  replace (d + n <=? _MAXORDINAL) with true by (symmetry; apply Z.leb_le; lia).
  reflexivity.
Qed.

(** The days from a date to the Monday on or after it, as the resolver
    computes them. *)
Lemma days_until_monday (first : Z) :
  let wd := weekday first in
  let d0 := (7 - wd) mod 7 in
  let d := if ((d0 =? 0) && negb (wd =? 0))%bool then 7 else d0 in
  0 <= d <= 6 /\ weekday (first + d) = 0 /\ (wd = 0 -> d = 0).
Proof.
  cbv zeta. unfold weekday.
  pose proof (Z.mod_pos_bound (first + 6) 7 ltac:(lia)) as Hwd.
  set (wd := (first + 6) mod 7) in *.
  pose proof (Z.div_mod (first + 6) 7 ltac:(lia)) as Hdiv. fold wd in Hdiv.
  assert (Hd0 : (7 - wd) mod 7 = if wd =? 0 then 0 else 7 - wd).
  { destruct (wd =? 0) eqn:E.
    - apply Z.eqb_eq in E. rewrite E. reflexivity.
    - apply Z.eqb_neq in E. apply Z.mod_small. lia. }
  rewrite Hd0.
  destruct (wd =? 0) eqn:E; simpl.
  - apply Z.eqb_eq in E. split; [lia|]. split; [|reflexivity].
    rewrite Z.add_0_r. fold wd. exact E.
  - apply Z.eqb_neq in E.
    replace (7 - wd =? 0) with false by (symmetry; apply Z.eqb_neq; lia).
    simpl. split; [lia|]. split; [|lia].
    replace (first + (7 - wd) + 6) with ((first + 6) / 7 * 7 + 7) by lia.
    replace ((first + 6) / 7 * 7 + 7) with (((first + 6) / 7 + 1) * 7) by lia.
    apply Z.mod_mul. lia.
Qed.

End DateFacts.

(** ** The calendar branch of the resolver, case by case *)

Section CalendarFacts.
Import PyStr Regex Datetime GoogleAgent.

Lemma extract_events (now : date) (goal : string) :
  _extract_parameters None now goal "query_events" = calendar_parameters now goal.
Proof. reflexivity. Qed.

Lemma extract_gmail (now : date) (goal : string) :
  _extract_parameters None now goal "query_gmail"
  = Returned (gmail_parameters goal).
Proof. reflexivity. Qed.

(** When the LLM parser raises, the regex extraction runs as if no
    parser were configured. *)
Lemma extract_after_llm_failure (parser : LLMQueryParser) (now : date)
      (goal tool_name : string) :
  (exists e, parse_gmail_query parser goal = Raised e) ->
  (exists e, parse_calendar_query parser goal = Raised e) ->
  _extract_parameters (Some parser) now goal tool_name
  = _extract_parameters None now goal tool_name.
Proof.
  intros [e1 H1] [e2 H2]. unfold _extract_parameters. rewrite H1, H2.
  now destruct (String.eqb tool_name "query_gmail"),
               (String.eqb tool_name "query_events").
Qed.

Lemma month_number_range (w : string) (default : Z) :
  In w (map fst MONTHS) -> 1 <= table_get (lower w) default month_map <= 12.
Proof.
  intros H. simpl in H.
  repeat (destruct H as [<-|H]; [vm_compute; split; discriminate|]).
  contradiction.
Qed.

Lemma week_number_range (w : string) (default : Z) :
  In w ORDINALS -> 1 <= table_get (lower w) default week_map <= 5.
Proof.
  intros H. simpl in H.
  repeat (destruct H as [<-|H]; [vm_compute; split; discriminate|]).
  contradiction.
Qed.

Lemma lookup_defaults (gl : string) :
  Py.lookup "time_min" (calendar_defaults gl) = None /\
  Py.lookup "time_max" (calendar_defaults gl) = None.
Proof. unfold calendar_defaults. now destruct (contains "work" gl). Qed.

Lemma lookup_with_range (s e : date) (params : Py.dict) :
  Py.lookup "time_min" (with_range s e params) = Some (PStr (strftime_ymd s)) /\
  Py.lookup "time_max" (with_range s e params) = Some (PStr (strftime_ymd e)).
Proof.
  unfold with_range. split.
  - rewrite lookup_set_ne by discriminate. apply lookup_set_eq.
  - apply lookup_set_eq.
Qed.

Variables (now : date) (goal : string).
Hypothesis now_valid : valid now.
Hypothesis now_year : year_of now <= 9998.

Let gl := lower goal.

Lemma now_room : 1 <= now /\ now + 40 <= _MAXORDINAL.
Proof.
  destruct (ord2ymd_bounds now now_valid) as (_ & _ & H).
  specialize (H now_year). unfold valid, _MAXORDINAL in *. lia.
Qed.

Lemma monday_of_week :
  1 <= now - weekday now <= now /\ weekday (now - weekday now) = 0.
Proof.
  unfold weekday.
  pose proof (Z.mod_pos_bound (now + 6) 7 ltac:(lia)).
  pose proof (Z.div_mod (now + 6) 7 ltac:(lia)).
  destruct now_room as [H1 _].
  split.
  - assert (0 <= (now + 6) / 7) by (apply Z.div_pos; lia).
    assert ((now + 6) / 7 <> 0)
      by (intros E; rewrite E in *; lia).
    lia.
  - replace (now - (now + 6) mod 7 + 6) with ((now + 6) / 7 * 7) by lia.
    apply Z.mod_mul. lia.
Qed.

Lemma calendar_today :
  contains "today" gl = true ->
  calendar_parameters now goal
  = Returned (with_range now (now + 1) (calendar_defaults gl)).
Proof.
  intros Ht. unfold calendar_parameters. cbv zeta. fold gl. rewrite Ht.
  destruct now_room. rewrite add_days_ok by lia. reflexivity.
Qed.

Lemma calendar_no_range :
  contains "today" gl = false -> contains "week" gl = false ->
  calendar_parameters now goal = Returned (calendar_defaults gl).
Proof.
  intros Ht Hw. unfold calendar_parameters. cbv zeta. fold gl.
  now rewrite Ht, Hw.
Qed.

Lemma calendar_this_week :
  contains "today" gl = false -> contains "week" gl = true ->
  month_search gl = None \/ week_search gl = None ->
  contains "next" gl = false ->
  calendar_parameters now goal
  = Returned (with_range (now - weekday now) (now - weekday now + 6)
                         (calendar_defaults gl)).
Proof.
  intros Ht Hw Hnone Hnext. unfold calendar_parameters. cbv zeta. fold gl.
  rewrite Ht, Hw, Hnext.
  destruct now_room, monday_of_week as [? _].
  assert (Hgo :
    bind (add_days now (- weekday now)) (fun start_of_week =>
    bind (add_days start_of_week 6) (fun end_of_week =>
    Returned (with_range start_of_week end_of_week (calendar_defaults gl))))
    = Returned (with_range (now - weekday now) (now - weekday now + 6)
                           (calendar_defaults gl))).
  { rewrite add_days_ok by lia. cbn [bind].
    replace (now + - weekday now) with (now - weekday now) by lia.
    rewrite add_days_ok by lia. reflexivity. }
  destruct Hnone as [-> | ->]; [|destruct (month_search gl)]; exact Hgo.
Qed.

Lemma calendar_next_week :
  contains "today" gl = false -> contains "week" gl = true ->
  month_search gl = None \/ week_search gl = None ->
  contains "next" gl = true ->
  calendar_parameters now goal
  = Returned (with_range (now - weekday now + 7) (now - weekday now + 7 + 6)
                         (calendar_defaults gl)).
Proof.
  intros Ht Hw Hnone Hnext. unfold calendar_parameters. cbv zeta. fold gl.
  rewrite Ht, Hw, Hnext.
  destruct now_room, monday_of_week as [? _].
  assert (Hgo :
    bind (add_days now (- weekday now)) (fun monday =>
    bind (add_days monday 7) (fun start_of_week =>
    bind (add_days start_of_week 6) (fun end_of_week =>
    Returned (with_range start_of_week end_of_week (calendar_defaults gl)))))
    = Returned (with_range (now - weekday now + 7) (now - weekday now + 7 + 6)
                           (calendar_defaults gl))).
  { rewrite add_days_ok by lia. cbn [bind].
    replace (now + - weekday now) with (now - weekday now) by lia.
    rewrite add_days_ok by lia. cbn [bind].
    rewrite add_days_ok by lia. reflexivity. }
  destruct Hnone as [-> | ->]; [|destruct (month_search gl)]; exact Hgo.
Qed.

Lemma calendar_month_week (month_str week_str : string) :
  contains "today" gl = false ->
  month_search gl = Some month_str -> week_search gl = Some week_str ->
  let month_num := table_get (lower month_str) (month_of now) month_map in
  let week_num := table_get (lower week_str) 1 week_map in
  let year_ :=
    if month_of now <=? month_num then year_of now else year_of now + 1 in
  let first_of_month := _ymd2ord year_ month_num 1 in
  exists first_monday : date,
    datetime year_ month_num 1 = Returned first_of_month /\
    1 <= first_of_month <= first_monday /\ first_monday < first_of_month + 7 /\
    first_monday + 34 <= _MAXORDINAL /\
    weekday first_monday = 0 /\
    (weekday first_of_month = 0 -> first_monday = first_of_month) /\
    1 <= month_num <= 12 /\ 1 <= week_num <= 5 /\
    calendar_parameters now goal
    = Returned (with_range (first_monday + 7 * (week_num - 1))
                           (first_monday + 7 * (week_num - 1) + 6)
                           (calendar_defaults gl)).
Proof.
  intros Ht Hm Hw month_num week_num year_ first_of_month.
  pose proof (month_number_range _ (month_of now) (month_search_in _ _ Hm))
    as Hmn.
  pose proof (week_search_sound _ _ Hw) as [Hin _].
  pose proof (week_number_range _ 1 Hin) as Hwn.
  fold month_num in Hmn. fold week_num in Hwn.
  destruct (ord2ymd_bounds now now_valid) as (Hy & Hmo & _).
  assert (Hyear : 1 <= year_ <= 9999 /\ (year_ <= 9998 \/ month_num <= 11)).
  { subst year_. destruct (month_of now <=? month_num) eqn:E.
    - lia.
    - apply Z.leb_gt in E. lia. }
  destruct Hyear as [Hyr Hroom].
  destruct (datetime_first year_ month_num Hyr Hmn) as (Hdt & Hge & Hmax).
  specialize (Hmax Hroom). fold first_of_month in Hdt, Hge, Hmax.
  pose proof (days_until_monday first_of_month) as Hd. cbv zeta in Hd.
  set (d := if (((7 - weekday first_of_month) mod 7 =? 0)
                && negb (weekday first_of_month =? 0))%bool
            then 7 else (7 - weekday first_of_month) mod 7) in *.
  destruct Hd as (Hd & Hmon & Hzero).
  exists (first_of_month + d).
  split; [exact Hdt|]. split; [lia|]. split; [lia|]. split; [lia|].
  split; [exact Hmon|].
  split; [intros H0; rewrite (Hzero H0); lia|].
  split; [exact Hmn|]. split; [exact Hwn|].
  unfold calendar_parameters. cbv zeta. fold gl.
  rewrite Ht, (week_search_contains_week _ _ Hw), Hm, Hw.
  fold month_num week_num year_. rewrite Hdt. cbn [bind]. fold d.
  rewrite add_days_ok by lia. cbn [bind].
  rewrite add_days_ok by lia. cbn [bind].
  rewrite add_days_ok by lia. reflexivity.
Qed.

End CalendarFacts.

(* ===================================================================== *)
(** * The resolver: dates ([GoogleAgent._extract_parameters]) *)
(* ===================================================================== *)

Section ResolverDates.
Import PyStr Regex Datetime GoogleAgent Scenarios.


(** A month name glued to a word character is not seen as one: the
    pattern of the months ends with a word boundary.  "Jan2025" names
    no month, and the goal is resolved to the current week. *)
Lemma month_glued_to_a_digit_is_not_seen :
  let goal := "Events in the third week of Jan2025" in
  contains "today" (lower goal) = false /\
  week_search (lower goal) = Some "third" /\
  month_search (lower goal) = None /\
  _extract_parameters None mid_december_2024 goal "query_events"
  = Returned [("calendar_id", PStr "primary");
              ("time_min", PStr "2024-12-09");
              ("time_max", PStr "2024-12-15")].
Proof. vm_compute. repeat split. Qed.



(** C2, as stated, fails: a calendar goal with neither "today" nor
    "week" gets no range at all (only the calendar id), not the current
    week; and in the last days of the year 9999 "next week" leaves the
    range of [datetime], so the resolution raises. *)
Lemma no_current_week_fallback :
  _extract_parameters None mid_december_2024 "Show my meetings" "query_events"
  = Returned [("calendar_id", PStr "primary")] /\
  _extract_parameters None (_ymd2ord 9999 12 28) "Meetings next week"
                      "query_events"
  = Raised (mkExn OverflowError "date value out of range").
Proof. vm_compute. split; reflexivity. Qed.

(** C2 (amended).  For every goal and every reference date before the
    year 9999 the resolution of a calendar query returns parameters (it
    does not raise), and every range it produces has start <= end.  A
    goal with neither "today" nor "week" gets no range: the parameters
    are the defaults only.  The current week, Monday to Sunday, is the
    range of a goal that contains "week" but neither "today", nor
    "next", nor a month together with an ordinal week. *)
Theorem calendar_resolution_total_and_ordered :
  forall (now : date) (goal : string),
    valid now -> year_of now <= 9998 ->
    let gl := lower goal in
    exists params : Py.dict,
      _extract_parameters None now goal "query_events" = Returned params /\
      ((Py.lookup "time_min" params = None /\ Py.lookup "time_max" params = None)
       \/ exists s e : date,
            valid s /\ valid e /\ s <= e /\
            Py.lookup "time_min" params = Some (PStr (strftime_ymd s)) /\
            Py.lookup "time_max" params = Some (PStr (strftime_ymd e))) /\
      (contains "today" gl = false -> contains "week" gl = false ->
       params = calendar_defaults gl /\
       Py.lookup "time_min" params = None /\ Py.lookup "time_max" params = None) /\
      (contains "today" gl = false -> contains "week" gl = true ->
       month_search gl = None \/ week_search gl = None ->
       contains "next" gl = false ->
       let monday := now - weekday now in
       weekday monday = 0 /\ monday <= now <= monday + 6 /\
       Py.lookup "time_min" params = Some (PStr (strftime_ymd monday)) /\
       Py.lookup "time_max" params = Some (PStr (strftime_ymd (monday + 6)))).
Proof.
  intros now goal Hv Hy gl.
  pose proof (monday_of_week now Hv Hy) as [Hmon Hmon0].
  pose proof (now_room now Hv Hy) as Hroom.
  assert (Hwd : 0 <= weekday now < 7)
    by (unfold weekday; apply Z.mod_pos_bound; lia).
  assert (Hrange : forall (s e : date) (base : Py.dict),
             1 <= s -> s <= e -> e <= _MAXORDINAL ->
             exists s' e' : date,
               valid s' /\ valid e' /\ s' <= e' /\
               Py.lookup "time_min" (with_range s e base)
               = Some (PStr (strftime_ymd s')) /\
               Py.lookup "time_max" (with_range s e base)
               = Some (PStr (strftime_ymd e'))).
  { intros s e base H1 H2 H3. exists s, e. unfold valid.
    split; [lia|]. split; [lia|]. split; [lia|]. apply lookup_with_range. }
  rewrite extract_events.
  destruct (contains "today" gl) eqn:Ht.
  { (* today *)
    eexists. split; [apply (calendar_today now goal Hv Hy Ht)|].
    split; [|split; discriminate].
    right. apply Hrange; lia. }
  destruct (contains "week" gl) eqn:Hw.
  2:{ (* no temporal word *)
    eexists. split; [apply (calendar_no_range now goal Ht Hw)|].
    pose proof (lookup_defaults gl) as Hd.
    split; [left; exact Hd|]. split; [|discriminate].
    intros _ _. split; [reflexivity | exact Hd]. }
  assert (Hcases :
    (exists m w, month_search gl = Some m /\ week_search gl = Some w)
    \/ (month_search gl = None \/ week_search gl = None)).
  { destruct (month_search gl) as [m|]; [|right; now left].
    destruct (week_search gl) as [w|]; [|right; now right].
    left. now exists m, w. }
  destruct Hcases as [(m & w & Hm & Hws) | Hnone].
  { (* month and ordinal week *)
    destruct (calendar_month_week now goal Hv Hy m w Ht Hm Hws)
      as (fm & _ & Hfm & _ & Hmax & _ & _ & _ & Hwn & Hres).
    eexists. split; [exact Hres|].
    split; [|split; [discriminate|]].
    - right. apply Hrange; lia.
    - intros _ _ [Hn|Hn]; [rewrite Hm in Hn | rewrite Hws in Hn];
        discriminate. }
  destruct (contains "next" gl) eqn:Hn.
  { (* next week *)
    eexists. split; [apply (calendar_next_week now goal Hv Hy Ht Hw Hnone Hn)|].
    split; [|split; discriminate].
    right. apply Hrange; lia. }
  (* this week *)
  eexists. split; [apply (calendar_this_week now goal Hv Hy Ht Hw Hnone Hn)|].
  split; [|split; [discriminate|]].
  - right. apply Hrange; lia.
  - intros _ _ _ _ monday. subst monday.
    split; [exact Hmon0|]. split; [lia|]. apply lookup_with_range.
Qed.

(** A goal about this week, on 2024-12-15: Monday 9 to Sunday 15. *)
Lemma calendar_resolution_total_and_ordered_witness :
  valid mid_december_2024 /\ year_of mid_december_2024 <= 9998 /\
  exists params : Py.dict,
    _extract_parameters None mid_december_2024 "What is planned this week?"
                        "query_events" = Returned params /\
    Py.lookup "time_min" params = Some (PStr "2024-12-09") /\
    Py.lookup "time_max" params = Some (PStr "2024-12-15").
Proof.
  assert (Hv : valid mid_december_2024) by (vm_compute; split; discriminate).
  assert (Hy : year_of mid_december_2024 <= 9998) by (vm_compute; discriminate).
  split; [exact Hv|]. split; [exact Hy|].
  destruct (calendar_resolution_total_and_ordered mid_december_2024
              "What is planned this week?" Hv Hy)
    as (params & Hres & _ & _ & Hweek).
  exists params. split; [exact Hres|].
  destruct (Hweek eq_refl eq_refl (or_introl eq_refl) eq_refl)
    as (_ & _ & Hmin & Hmax).
  split; [exact Hmin | exact Hmax].
Defined.

End ResolverDates.


(* ===================================================================== *)
(** * The resolver: email filters ([GoogleAgent._extract_parameters]) *)
(* ===================================================================== *)

Section ResolverFilters.
Import PyStr Regex Datetime GoogleAgent Scenarios.

Lemma gmail_parameters_with_sender (goal email : string) (more : list string) :
  findall_email goal = email :: more ->
  let gl := lower goal in
  let query := "from:" ++ email ++ inbox_clause gl ++ unread_clause gl in
  gmail_parameters goal
  = if contains_any ["how many"; "count"; "total"] gl
    then [("query", PStr query); ("count_all", PBool true)]
    else [("query", PStr query)].
Proof.
  intros Hfind gl query. subst query.
  unfold gmail_parameters, unread_clause, inbox_clause. cbv zeta.
  rewrite Hfind. fold gl.
  assert (Hfolder :
    forall v, exists v',
      (if contains "inbox" gl then Py.set "query" (PStr "in:inbox") []
       else if contains "sent" gl then Py.set "query" (PStr "in:sent") []
       else if contains "draft" gl then Py.set "query" (PStr "in:draft") []
       else Py.set "query" (PStr "") []) = [("query", v')] /\
      Py.set "query" v [("query", v')] = [("query", v)]).
  { intros v. destruct (contains "inbox" gl); [|destruct (contains "sent" gl);
      [|destruct (contains "draft" gl)]]; eexists; split; reflexivity. }
  destruct (Hfolder (PStr ("from:" ++ email))) as (v' & -> & ->).
  destruct (contains "inbox" gl), (contains "unread" gl),
    (contains_any ["how many"; "count"; "total"] gl);
    cbn; rewrite ?append_assoc, ?append_empty_r; reflexivity.
Qed.

(** C10, as stated, fails for the folders other than the inbox: the
    sender clause replaces the folder clause, and only "in:inbox" is
    appended again. *)
Lemma sent_folder_dropped_by_sender :
  _extract_parameters None mid_december_2024 "Show sent emails" "query_gmail"
  = Returned [("query", PStr "in:sent")] /\
  _extract_parameters None mid_december_2024
    "Show sent emails from alice@example.com" "query_gmail"
  = Returned [("query", PStr "from:alice@example.com")] /\
  _extract_parameters None mid_december_2024
    "Unread draft emails from alice@example.com" "query_gmail"
  = Returned [("query", PStr "from:alice@example.com is:unread")].
Proof. vm_compute. repeat split. Qed.

(** C10 (amended).  For every email-query goal in which an address is
    found, the query starts with the clause "from:" of the first
    address, which replaces the folder clause; " in:inbox" follows when
    the goal mentions the inbox (the folders sent and draft are not
    appended), then " is:unread" when the goal mentions unread mail
    (followed once more by " in:inbox" for an inbox goal).  [count_all]
    is set to true exactly when the goal contains "how many", "count"
    or "total".  The goal "how many unread emails from
    alice@example.com" gives the query "from:alice@example.com
    is:unread" with count_all = true. *)
Theorem sender_takes_precedence :
  (forall (now : date) (goal email : string) (more : list string),
      findall_email goal = email :: more ->
      let gl := lower goal in
      exists params : Py.dict,
        _extract_parameters None now goal "query_gmail" = Returned params /\
        Py.lookup "query" params
        = Some (PStr ("from:" ++ email ++ inbox_clause gl ++ unread_clause gl)) /\
        (contains_any ["how many"; "count"; "total"] gl = true ->
         Py.lookup "count_all" params = Some (PBool true)) /\
        (contains_any ["how many"; "count"; "total"] gl = false ->
         Py.lookup "count_all" params = None)) /\
  (forall now : date,
      _extract_parameters None now
        "how many unread emails from alice@example.com" "query_gmail"
      = Returned [("query", PStr "from:alice@example.com is:unread");
                  ("count_all", PBool true)]).
Proof.
  split; [|reflexivity].
  intros now goal email more Hfind gl.
  eexists. split; [apply extract_gmail|].
  rewrite (gmail_parameters_with_sender goal email more Hfind). fold gl.
  destruct (contains_any ["how many"; "count"; "total"] gl);
    repeat split; try reflexivity; discriminate.
Qed.

(** An inbox goal with a sender and unread mail. *)
Lemma sender_takes_precedence_witness :
  let goal := "Unread mail from bob@example.org in my inbox" in
  findall_email goal = ["bob@example.org"] /\
  exists params : Py.dict,
    _extract_parameters None mid_december_2024 goal "query_gmail"
    = Returned params /\
    Py.lookup "query" params
    = Some (PStr "from:bob@example.org in:inbox is:unread in:inbox") /\
    Py.lookup "count_all" params = None.
Proof.
  split; [reflexivity|].
  destruct (proj1 sender_takes_precedence mid_december_2024
              "Unread mail from bob@example.org in my inbox"
              "bob@example.org" [] eq_refl)
    as (params & Hres & Hq & _ & Hnc).
  exists params. split; [exact Hres|]. split; [exact Hq | exact (Hnc eq_refl)].
Defined.

End ResolverFilters.


(* ===================================================================== *)
(** * The estimate check of [QueryGmail.run] *)
(* ===================================================================== *)

Section Discrepancy.
Import PyStr Gmail.

Lemma discrepancy_warning_cases (returned total : Z) :
  (0 < returned /\ 2 * returned < total /\
   exists text, discrepancy_warning returned total = PStr text /\ text <> "")
  \/ (~ (0 < returned /\ 2 * returned < total) /\
      discrepancy_warning returned total = PNone).
Proof.
  unfold discrepancy_warning.
  destruct (0 <? returned) eqn:E1; [destruct (returned * 2 <? total) eqn:E2|];
    simpl.
  - left. apply Z.ltb_lt in E1, E2. split; [lia|]. split; [lia|].
    eexists. split; [reflexivity | discriminate].
  - right. apply Z.ltb_ge in E2. split; [lia | reflexivity].
  - right. apply Z.ltb_ge in E1. split; [lia | reflexivity].
Qed.

(** Fifty estimated for five retrieved is flagged; forty for thirty is
    not. *)
Example estimate_50_for_5 :
  discrepancy_warning 5 50 = PStr Scenarios.warning_5_of_50.
Proof. reflexivity. Qed.

Example estimate_40_for_30 : discrepancy_warning 30 40 = PNone.
Proof. reflexivity. Qed.

(** C3.  When the listing succeeds, with [returned] messages retrieved
    against the service's estimate [total], the result carries a warning
    (a non-empty text under "discrepancy_warning", [None] otherwise)
    if and only if returned > 0 and total > 2 * returned; the check
    fills that one entry only: "ok" is true and the other entries are
    what they are without regard to the warning. *)
Theorem discrepancy_flagged_iff :
  forall (service : Service) (query : string) (max_results : Z)
         (results : Listing),
    service query (clamp_max_results max_results) = Returned results ->
    let returned := Z.of_nat (List.length (email_summaries (messages results))) in
    let total := resultSizeEstimate results in
    exists warning : PyVal,
      run service query max_results
      = PDict [("ok", PBool true);
               ("query", PStr query);
               ("total_results", PInt total);
               ("returned", PInt returned);
               ("summary", PStr (summary_text returned total));
               ("unique_senders",
                PList (map PStr (unique [] (senders (messages results)))));
               ("discrepancy_warning", warning);
               ("emails", PList (email_summaries (messages results)))] /\
      ((exists text, warning = PStr text /\ text <> "")
       <-> 0 < returned /\ 2 * returned < total) /\
      (warning = PNone <-> ~ (0 < returned /\ 2 * returned < total)).
Proof.
  intros service query max_results results Hsvc returned total.
  exists (discrepancy_warning returned total).
  split; [unfold run; rewrite Hsvc; reflexivity|].
  destruct (discrepancy_warning_cases returned total)
    as [(H1 & H2 & text & -> & Hne) | (Hno & ->)].
  - split; split; try (intros; split; assumption).
    + intros _. now exists text.
    + discriminate.
    + intros Hc. exfalso. apply Hc. now split.
  - split; split; try tauto; try reflexivity.
    intros (text & Habs & _). discriminate.
Qed.

End Discrepancy.


(* ===================================================================== *)
(** * The agent loop ([run_agent]) *)
(* ===================================================================== *)

Section LoopFacts.
Import PyStr.
Context {W : Type}.
Variable py_repr : PyVal -> string.
Variable tools : gmap string (Tool W).
Variable planner : Agent.Planner (W := W).

Abbreviation loop_body := (Agent.loop_body py_repr tools planner).
Abbreviation run_agent fuel := (Agent.run_agent py_repr fuel tools planner).
Abbreviation handle_proposal := (Agent.handle_proposal py_repr tools).
Abbreviation propose := (Agent.propose planner tools).

Abbreviation proposal_line := (Agent.proposal_line py_repr).
Abbreviation miss_line := (Agent.miss_line py_repr).
Abbreviation conforms := (Agent.conforms tools planner).
Abbreviation never_signals_done := (Agent.never_signals_done tools planner).

Lemma run_agent_complete (fuel : nat) (w : W) (st : AgentState.t)
      (mem : Memory.t) :
  AgentState.is_complete st = true ->
  run_agent fuel w st mem = Agent.Finished w st mem.
Proof. intros H. destruct fuel; simpl; now rewrite H. Qed.

Lemma run_agent_step (fuel : nat) (w : W) (st : AgentState.t)
      (mem : Memory.t) :
  AgentState.is_complete st = false ->
  run_agent (S fuel) w st mem
  = match loop_body w st mem with
    | Agent.Continue w' st' mem' => run_agent fuel w' st' mem'
    | Agent.Fault e => Agent.Faulted e
    end.
Proof. intros H. simpl. now rewrite H. Qed.

Lemma run_agent_no_fuel (w : W) (st : AgentState.t) (mem : Memory.t) :
  AgentState.is_complete st = false ->
  run_agent O w st mem = Agent.OutOfFuel.
Proof. intros H. simpl. now rewrite H. Qed.

Lemma is_complete_iff (st : AgentState.t) :
  AgentState.is_complete st = true <->
  AgentState.done st = true \/
  exists m, AgentState.max_steps st = Some m /\ m <= AgentState.step st.
Proof.
  unfold AgentState.is_complete.
  destruct (AgentState.done st); [tauto|].
  destruct (AgentState.max_steps st) as [m|].
  - destruct (m <=? AgentState.step st) eqn:E.
    + apply Z.leb_le in E. split; [|reflexivity]. intros _. right. now exists m.
    + apply Z.leb_gt in E. split; [discriminate|].
      intros [H | (m' & [= <-] & Hm)]; [discriminate | lia].
  - split; [discriminate|]. intros [H | (m' & H & _)]; discriminate.
Qed.

(** What a step does when the proposed tool is not registered. *)
Lemma step_unregistered (w w' : W) (st : AgentState.t) (mem : Memory.t)
      (proposal : Py.dict) (name : string) :
  propose w (AgentState.incr_step st) (Memory.build_context mem)
  = (w', Returned (PDict proposal)) ->
  Py.get "name" PNone proposal = PStr name ->
  tools !! name = None ->
  loop_body w st mem
  = Agent.Continue w'
      (AgentState.mk (AgentState.goal st)
         (AgentState.history st ++
            [proposal_line (AgentState.step st + 1) (PStr name)
                           (Py.get "reason" PNone proposal);
             miss_line (PStr name)])%list
         (AgentState.results st) (AgentState.context st)
         (AgentState.step st + 1) (AgentState.max_steps st) (AgentState.done st))
      mem.
Proof.
  intros Hp Hn Ht. unfold Agent.loop_body. cbv zeta. rewrite Hp.
  unfold Agent.handle_proposal. cbv zeta. rewrite Hn.
  unfold Agent.tools_get. rewrite Ht.
  unfold AgentState.add_history, AgentState.incr_step, proposal_line, miss_line.
  simpl. now rewrite <- app_assoc.
Qed.

(** What a step does when the proposed tool is registered: the tool
    runs, its result (or the text of its exception) is appended to the
    results, the memory gets its entry, and [done] is set when the
    result asks for it. *)
Lemma step_dispatched (w w1 w2 : W) (st : AgentState.t) (mem : Memory.t)
      (proposal : Py.dict) (name : string) (tool : Tool W) (out : Outcome PyVal) :
  propose w (AgentState.incr_step st) (Memory.build_context mem)
  = (w1, Returned (PDict proposal)) ->
  Py.get "name" PNone proposal = PStr name ->
  tools !! name = Some tool ->
  run tool w1 (Py.get "args" (PDict []) proposal) = (w2, out) ->
  let result := Agent.result_of out in
  loop_body w st mem
  = Agent.Continue w2
      (AgentState.mk (AgentState.goal st)
         (AgentState.history st ++
            [proposal_line (AgentState.step st + 1) (PStr name)
                           (Py.get "reason" PNone proposal)])%list
         (AgentState.results st ++
            [PDict [("tool", PStr name); ("result", result)]])%list
         (AgentState.context st)
         (AgentState.step st + 1) (AgentState.max_steps st)
         (if Agent.signals_done result then true else AgentState.done st))
      (mem ++ [Agent.memory_entry_of py_repr (PStr name) result])%list.
Proof.
  intros Hp Hn Ht Hr result. unfold Agent.loop_body. cbv zeta. rewrite Hp.
  unfold Agent.handle_proposal. cbv zeta. rewrite Hn.
  unfold Agent.tools_get. rewrite Ht, Hr. fold result.
  unfold AgentState.add_history, AgentState.add_result, AgentState.incr_step,
    AgentState.set_done, Memory.add, proposal_line.
  simpl. now destruct (Agent.signals_done result).
Qed.

(** Whatever a completed step did, it counted one step, kept the bound,
    and did not clear [done]. *)
Lemma step_monotone (w w' : W) (st st' : AgentState.t) (mem mem' : Memory.t) :
  loop_body w st mem = Agent.Continue w' st' mem' ->
  AgentState.step st' = AgentState.step st + 1 /\
  AgentState.max_steps st' = AgentState.max_steps st /\
  AgentState.goal st' = AgentState.goal st /\
  (AgentState.done st = true -> AgentState.done st' = true).
Proof.
  unfold Agent.loop_body, Agent.handle_proposal. cbv zeta.
  destruct (propose w _ _) as [w1 [[| | | |items|proposal]|e]];
    try discriminate.
  destruct (Agent.tools_get tools _) as [[tool|]|e]; try discriminate.
  - destruct (run tool w1 _) as [w2 out].
    destruct (Agent.signals_done _); intros [= <- <- <-]; simpl; tauto.
  - intros [= <- <- <-]. simpl. tauto.
Qed.

Lemma step_without_done (w : W) (st : AgentState.t) (mem : Memory.t) :
  conforms -> never_signals_done ->
  exists (w' : W) (st' : AgentState.t) (mem' : Memory.t),
    loop_body w st mem = Agent.Continue w' st' mem' /\
    AgentState.step st' = AgentState.step st + 1 /\
    AgentState.max_steps st' = AgentState.max_steps st /\
    AgentState.done st' = AgentState.done st.
Proof.
  intros Hc Hn.
  destruct (Hc w (AgentState.incr_step st) (Memory.build_context mem))
    as (w1 & proposal & found & Hp & Hg).
  unfold Agent.loop_body, Agent.handle_proposal. cbv zeta. rewrite Hp, Hg.
  destruct found as [tool|].
  - pose proof (Hn _ _ _ _ _ _ Hp Hg) as Hd.
    destruct (run tool w1 _) as [w2 out]. simpl in Hd. rewrite Hd.
    do 3 eexists. split; [reflexivity|]. simpl. tauto.
  - do 3 eexists. split; [reflexivity|]. simpl. tauto.
Qed.

Lemma run_bounded (n : Z) (k : nat) :
  conforms -> never_signals_done ->
  forall (w : W) (st : AgentState.t) (mem : Memory.t),
    AgentState.done st = false ->
    AgentState.max_steps st = Some n ->
    AgentState.step st + Z.of_nat k = n ->
    (forall fuel, (fuel < k)%nat -> run_agent fuel w st mem = Agent.OutOfFuel) /\
    exists (w' : W) (st' : AgentState.t) (mem' : Memory.t),
      AgentState.step st' = n /\ AgentState.max_steps st' = Some n /\
      forall fuel, (k <= fuel)%nat ->
                   run_agent fuel w st mem = Agent.Finished w' st' mem'.
Proof.
  intros Hc Hn. induction k as [|k IH]; intros w st mem Hd Hm Hs.
  - assert (Hcomp : AgentState.is_complete st = true).
    { apply is_complete_iff. right. exists n. split; [assumption | lia]. }
    split; [intros fuel Hf; lia|].
    exists w, st, mem. split; [lia|]. split; [assumption|].
    intros fuel _. now apply run_agent_complete.
  - assert (Hcomp : AgentState.is_complete st = false).
    { destruct (AgentState.is_complete st) eqn:E; [|reflexivity].
      apply is_complete_iff in E as [E | (m & Hm' & Hle)].
      - congruence.
      - rewrite Hm in Hm'. injection Hm' as <-. lia. }
    destruct (step_without_done w st mem Hc Hn)
      as (w1 & st1 & mem1 & Hbody & Hstep & Hmax & Hdone).
    destruct (IH w1 st1 mem1) as (Hless & w' & st' & mem' & Hfs & Hfm & Hrun).
    { congruence. } { congruence. } { lia. }
    split.
    + intros [|fuel] Hf; [now apply run_agent_no_fuel|].
      rewrite run_agent_step, Hbody by assumption. apply Hless. lia.
    + exists w', st', mem'. split; [assumption|]. split; [assumption|].
      intros [|fuel] Hf; [lia|].
      rewrite run_agent_step, Hbody by assumption. apply Hrun. lia.
Qed.

(** C4 (amended).  With a planner that honours the protocol (it
    answers every request, without raising, with a dictionary whose
    name can be looked up) and never leads to a result carrying "done",
    and an entry state (step = 0, not done) whose bound is
    max_steps = n >= 0, the loop terminates, the final state has
    step = n, and it takes exactly n iterations to get there: n passes
    through the body are enough, fewer are not. *)
Theorem loop_runs_max_steps_iterations :
  forall (n : Z) (w : W) (st : AgentState.t) (mem : Memory.t),
    conforms -> never_signals_done ->
    AgentState.step st = 0 -> AgentState.done st = false ->
    AgentState.max_steps st = Some n -> 0 <= n ->
    exists (w' : W) (st' : AgentState.t) (mem' : Memory.t),
      (forall fuel, (Z.to_nat n <= fuel)%nat ->
                    run_agent fuel w st mem = Agent.Finished w' st' mem') /\
      (forall fuel, (fuel < Z.to_nat n)%nat ->
                    run_agent fuel w st mem = Agent.OutOfFuel) /\
      AgentState.step st' = n /\
      AgentState.is_complete st' = true.
Proof.
  intros n w st mem Hc Hn Hs Hd Hm Hpos.
  destruct (run_bounded n (Z.to_nat n) Hc Hn w st mem Hd Hm)
    as (Hless & w' & st' & mem' & Hfs & Hfm & Hrun); [lia|].
  exists w', st', mem'. split; [exact Hrun|]. split; [exact Hless|].
  split; [exact Hfs|].
  apply is_complete_iff. right. exists n. split; [assumption | lia].
Qed.

Abbreviation after_miss := (Agent.after_miss py_repr).
Abbreviation after_dispatch := (Agent.after_dispatch py_repr).

Lemma step_cases (w w' : W) (st st' : AgentState.t) (mem mem' : Memory.t) :
  loop_body w st mem = Agent.Continue w' st' mem' ->
  exists (w1 : W) (proposal : Py.dict),
    propose w (AgentState.incr_step st) (Memory.build_context mem)
    = (w1, Returned (PDict proposal)) /\
    let name := Py.get "name" PNone proposal in
    (Agent.tools_get tools name = Returned None /\
     w' = w1 /\ st' = after_miss st proposal /\ mem' = mem)
    \/
    (exists (tool : Tool W) (out : Outcome PyVal),
        Agent.tools_get tools name = Returned (Some tool) /\
        run tool w1 (Py.get "args" (PDict []) proposal) = (w', out) /\
        st' = after_dispatch st proposal (Agent.result_of out) /\
        mem' = (mem ++ [Agent.memory_entry_of py_repr name (Agent.result_of out)])%list).
Proof.
  unfold Agent.loop_body, Agent.handle_proposal. cbv zeta.
  destruct (propose w _ _) as [w1 [[| | | |items|proposal]|e]];
    try discriminate.
  intros H. exists w1, proposal. split; [reflexivity|]. cbv zeta.
  destruct (Agent.tools_get tools _) as [[tool|]|e]; try discriminate.
  - right. destruct (run tool w1 _) as [w2 out] eqn:Hr.
    exists tool, out. injection H as <- <- <-.
    split; [reflexivity|]. split; [exact Hr|].
    unfold after_dispatch, AgentState.add_history, AgentState.add_result,
      AgentState.incr_step, AgentState.set_done, Memory.add.
    simpl. now destruct (Agent.signals_done _).
  - left. injection H as <- <- <-.
    split; [reflexivity|]. split; [reflexivity|]. split; [|reflexivity].
    unfold after_miss, AgentState.add_history, AgentState.incr_step.
    simpl. now rewrite <- app_assoc.
Qed.

(** The loop returns a state only when the state is complete. *)
Lemma finished_is_complete (fuel : nat) :
  forall (w w' : W) (st st' : AgentState.t) (mem mem' : Memory.t),
    run_agent fuel w st mem = Agent.Finished w' st' mem' ->
    AgentState.is_complete st' = true.
Proof.
  induction fuel as [|fuel IH]; intros w w' st st' mem mem' H;
    destruct (AgentState.is_complete st) eqn:E.
  - rewrite run_agent_complete in H by assumption. now injection H as <- <- <-.
  - rewrite run_agent_no_fuel in H by assumption. discriminate.
  - rewrite run_agent_complete in H by assumption. now injection H as <- <- <-.
  - rewrite run_agent_step in H by assumption.
    destruct (loop_body w st mem) as [w1 st1 mem1|e]; [|discriminate].
    now apply (IH _ _ _ _ _ _ H).
Qed.

(** Completion is asked for by a result exactly when the tool returned
    a dictionary whose "done" entry is truthy; an exception caught by
    the loop never asks for it. *)
Lemma signals_done_iff (out : Outcome PyVal) :
  Agent.signals_done (Agent.result_of out) = true <->
  exists (d : Py.dict) (v : PyVal),
    out = Returned (PDict d) /\ Py.lookup "done" d = Some v /\
    Py.truthy v = true.
Proof.
  destruct out as [[| | | | |d]|e]; simpl;
    try (split; [discriminate | intros (d' & v & [=] & _)]).
  unfold Py.get. destruct (Py.lookup "done" d) as [v|] eqn:E.
  - split.
    + intros H. now exists d, v.
    + intros (d' & v' & [= <-] & Hl & Ht). rewrite E in Hl.
      now injection Hl as <-.
  - split; [discriminate|].
    intros (d' & v' & [= <-] & Hl & _). rewrite E in Hl. discriminate.
Qed.

(** A run that returns from a state that was not complete has made a
    last pass, from a state that was not complete either. *)
Lemma finished_after_a_last_pass (fuel : nat) :
  forall (w w' : W) (st st' : AgentState.t) (mem mem' : Memory.t),
    AgentState.is_complete st = false ->
    run_agent fuel w st mem = Agent.Finished w' st' mem' ->
    exists (w0 : W) (st0 : AgentState.t) (mem0 : Memory.t),
      AgentState.is_complete st0 = false /\
      loop_body w0 st0 mem0 = Agent.Continue w' st' mem'.
Proof.
  induction fuel as [|fuel IH]; intros w w' st st' mem mem' Hc H.
  - rewrite run_agent_no_fuel in H by assumption. discriminate.
  - rewrite run_agent_step in H by assumption.
    destruct (loop_body w st mem) as [w1 st1 mem1|e] eqn:Hb; [|discriminate].
    destruct (AgentState.is_complete st1) eqn:E1.
    + rewrite run_agent_complete in H by assumption.
      injection H as <- <- <-. now exists w, st, mem.
    + exact (IH _ _ _ _ _ _ E1 H).
Qed.

(** What one pass of the loop does to completion, with the request for
    completion spelled out on the value the tool returned. *)
Lemma step_completion (w w' : W) (st st' : AgentState.t)
      (mem mem' : Memory.t) :
  loop_body w st mem = Agent.Continue w' st' mem' ->
  AgentState.done st = false ->
  (AgentState.done st' = true <->
   exists (w1 : W) (proposal : Py.dict) (name : string) (tool : Tool W)
          (d : Py.dict) (v : PyVal),
     propose w (AgentState.incr_step st) (Memory.build_context mem)
     = (w1, Returned (PDict proposal)) /\
     Py.lookup "name" proposal = Some (PStr name) /\
     tools !! name = Some tool /\
     run tool w1 (Py.get "args" (PDict []) proposal)
     = (w', Returned (PDict d)) /\
     Py.lookup "done" d = Some v /\ Py.truthy v = true) /\
  (AgentState.done st' = true ->
   exists (name : string) (d : Py.dict) (v : PyVal),
     Py.lookup "done" d = Some v /\ Py.truthy v = true /\
     AgentState.results st'
     = (AgentState.results st ++
          [PDict [("tool", PStr name); ("result", PDict d)]])%list /\
     mem' = Memory.add mem
              (Agent.memory_entry_of py_repr (PStr name) (PDict d))).
Proof.
  intros Hbody Hdf.
  destruct (step_cases w w' st st' mem mem' Hbody)
    as (w1 & proposal & Hp &
        [(Hg & -> & -> & ->) | (tool & out & Hg & Hr & -> & ->)]);
    cbv zeta in Hg.
  - (* no tool ran: [done] is as before *)
    simpl. rewrite Hdf. split; [|discriminate].
    split; [discriminate|].
    intros (w2 & proposal2 & name & tool & d & v & Hp2 & Hn & Ht & _).
    rewrite Hp in Hp2. injection Hp2 as <- <-.
    unfold Py.get in Hg. rewrite Hn in Hg. simpl in Hg. congruence.
  - assert (Hname : exists name : string,
               Py.lookup "name" proposal = Some (PStr name) /\
               Py.get "name" PNone proposal = PStr name /\
               tools !! name = Some tool).
    { unfold Py.get in *.
      destruct (Py.lookup "name" proposal) as [[| | |name| |]|];
        simpl in Hg; try discriminate.
      exists name. split; [reflexivity|]. split; [reflexivity|]. congruence. }
    destruct Hname as (name & Hl & Hn & Ht).
    simpl. rewrite Hdf, Hn.
    destruct (Agent.signals_done (Agent.result_of out)) eqn:Hsig.
    + apply signals_done_iff in Hsig as (d & v & -> & Hd & Hv).
      split.
      * split; [|reflexivity]. intros _.
        now exists w1, proposal, name, tool, d, v.
      * intros _. exists name, d, v. repeat split; assumption.
    + split; [|discriminate]. split; [discriminate|].
      intros (w2 & proposal2 & name2 & tool2 & d & v & Hp2 & Hn2 & Ht2 & Hr2
              & Hd & Hv).
      rewrite Hp in Hp2. injection Hp2 as <- <-.
      rewrite Hl in Hn2. injection Hn2 as <-.
      rewrite Ht in Ht2. injection Ht2 as <-.
      rewrite Hr in Hr2. injection Hr2 as ->.
      assert (Agent.signals_done (Agent.result_of (Returned (PDict d))) = true)
        by (apply signals_done_iff; now exists d, v).
      congruence.
Qed.

(** C5.  The loop is complete exactly when [done] is set or the step
    count has reached [max_steps] (if set).  A complete state is
    returned as it is, whatever the fuel: the loop does not run again,
    so completeness does not revert.  From a state that is not complete
    [run_agent] makes a pass through the body and goes on from the state
    the pass leaves (or raises what the pass raised).  A pass counts one
    step, keeps the bound, and never clears [done]; from a state that is
    not complete it leaves a complete one exactly when the count has
    reached the bound or the tool dispatched in that pass returned a
    dictionary whose "done" entry is truthy, and [done] is set exactly
    in the second case.  When [done] is set, the pass has been recorded
    in full (the result appended to the results, its entry added to the
    memory, the step counted) and the loop returns that state at its
    next test.  Every run that returns has ended so: its last pass
    started from a state that was not complete and either reached the
    bound or recorded a result carrying a truthy "done". *)
Theorem termination_condition :
  forall (w : W) (st : AgentState.t) (mem : Memory.t),
    (AgentState.is_complete st = true <->
     AgentState.done st = true \/
     exists m, AgentState.max_steps st = Some m /\ m <= AgentState.step st) /\
    (AgentState.is_complete st = true ->
     forall fuel, run_agent fuel w st mem = Agent.Finished w st mem) /\
    (AgentState.is_complete st = false ->
     run_agent O w st mem = Agent.OutOfFuel /\
     forall fuel,
       run_agent (S fuel) w st mem
       = match loop_body w st mem with
         | Agent.Continue w' st' mem' => run_agent fuel w' st' mem'
         | Agent.Fault e => Agent.Faulted e
         end) /\
    (forall (w' : W) (st' : AgentState.t) (mem' : Memory.t),
        loop_body w st mem = Agent.Continue w' st' mem' ->
        AgentState.step st' = AgentState.step st + 1 /\
        AgentState.max_steps st' = AgentState.max_steps st /\
        (AgentState.done st = true -> AgentState.done st' = true) /\
        (AgentState.is_complete st = true ->
         AgentState.is_complete st' = true) /\
        (AgentState.is_complete st = false ->
         let requested :=
           exists (w1 : W) (proposal : Py.dict) (name : string)
                  (tool : Tool W) (d : Py.dict) (v : PyVal),
             propose w (AgentState.incr_step st) (Memory.build_context mem)
             = (w1, Returned (PDict proposal)) /\
             Py.lookup "name" proposal = Some (PStr name) /\
             tools !! name = Some tool /\
             run tool w1 (Py.get "args" (PDict []) proposal)
             = (w', Returned (PDict d)) /\
             Py.lookup "done" d = Some v /\ Py.truthy v = true in
         (AgentState.done st' = true <-> requested) /\
         (AgentState.is_complete st' = true <->
          (exists m, AgentState.max_steps st = Some m /\
                     AgentState.step st' = m) \/ requested) /\
         (AgentState.done st' = true ->
          (exists (name : string) (d : Py.dict) (v : PyVal),
              Py.lookup "done" d = Some v /\ Py.truthy v = true /\
              AgentState.results st'
              = (AgentState.results st ++
                   [PDict [("tool", PStr name); ("result", PDict d)]])%list /\
              mem' = Memory.add mem
                       (Agent.memory_entry_of py_repr (PStr name) (PDict d))) /\
          forall fuel,
            run_agent fuel w' st' mem' = Agent.Finished w' st' mem'))) /\
    (forall (fuel : nat) (w' : W) (st' : AgentState.t) (mem' : Memory.t),
        run_agent fuel w st mem = Agent.Finished w' st' mem' ->
        AgentState.is_complete st' = true /\
        (AgentState.is_complete st = false ->
         exists (w0 : W) (st0 : AgentState.t) (mem0 : Memory.t),
           AgentState.is_complete st0 = false /\
           loop_body w0 st0 mem0 = Agent.Continue w' st' mem' /\
           ((exists m, AgentState.max_steps st' = Some m /\
                       AgentState.step st' = m) \/
            (exists (name : string) (d : Py.dict) (v : PyVal),
                Py.lookup "done" d = Some v /\ Py.truthy v = true /\
                AgentState.done st' = true /\
                AgentState.results st'
                = (AgentState.results st0 ++
                     [PDict [("tool", PStr name); ("result", PDict d)]])%list /\
                mem' = Memory.add mem0
                         (Agent.memory_entry_of py_repr (PStr name)
                                                (PDict d)))))).
Proof.
  assert (Hincomplete : forall st0 : AgentState.t,
             AgentState.is_complete st0 = false ->
             AgentState.done st0 = false /\
             forall m, AgentState.max_steps st0 = Some m ->
                       AgentState.step st0 < m).
  { intros st0 H. unfold AgentState.is_complete in H.
    destruct (AgentState.done st0); [discriminate|]. split; [reflexivity|].
    intros m Hm. rewrite Hm in H.
    destruct (m <=? AgentState.step st0) eqn:E; [discriminate|].
    now apply Z.leb_gt in E. }
  assert (Hpass : forall (w w' : W) (st st' : AgentState.t)
                         (mem mem' : Memory.t),
             loop_body w st mem = Agent.Continue w' st' mem' ->
             AgentState.is_complete st = false ->
             (AgentState.is_complete st' = true <->
              (exists m, AgentState.max_steps st = Some m /\
                         AgentState.step st' = m) \/
              AgentState.done st' = true)).
  { intros w0 w1 st0 st1 mem0 mem1 Hbody Hc.
    destruct (step_monotone w0 w1 st0 st1 mem0 mem1 Hbody)
      as (Hs & Hm & _ & _).
    destruct (Hincomplete st0 Hc) as [_ Hlt].
    rewrite is_complete_iff. split.
    - intros [Hd | (m & Hmax & Hle)]; [now right|].
      left. exists m. rewrite Hm in Hmax. split; [exact Hmax|].
      specialize (Hlt m Hmax). lia.
    - intros [(m & Hmax & Hstep) | Hd]; [|now left].
      right. exists m. split; [congruence | lia]. }
  intros w st mem. split; [apply is_complete_iff|].
  split; [intros H fuel; now apply run_agent_complete|].
  split.
  { intros Hc. split; [now apply run_agent_no_fuel|].
    intros fuel. now apply run_agent_step. }
  split.
  - intros w' st' mem' Hbody.
    destruct (step_monotone w w' st st' mem mem' Hbody) as (Hs & Hm & _ & Hd).
    split; [exact Hs|]. split; [exact Hm|]. split; [exact Hd|].
    split.
    { rewrite !is_complete_iff. intros [H | (m & Hmax & Hle)].
      - left. now apply Hd.
      - right. exists m. split; [congruence | lia]. }
    intros Hc requested.
    destruct (Hincomplete st Hc) as [Hdf _].
    destruct (step_completion w w' st st' mem mem' Hbody Hdf) as [Hiff Hrec].
    fold requested in Hiff.
    split; [exact Hiff|]. split.
    { rewrite (Hpass _ _ _ _ _ _ Hbody Hc). now rewrite Hiff. }
    intros Hdt. split; [exact (Hrec Hdt)|].
    intros fuel. apply run_agent_complete. apply is_complete_iff. now left.
  - intros fuel w' st' mem' Hrun.
    split; [exact (finished_is_complete fuel _ _ _ _ _ _ Hrun)|].
    intros Hc.
    destruct (finished_after_a_last_pass fuel _ _ _ _ _ _ Hc Hrun)
      as (w0 & st0 & mem0 & Hc0 & Hbody).
    exists w0, st0, mem0. split; [exact Hc0|]. split; [exact Hbody|].
    destruct (step_monotone w0 w' st0 st' mem0 mem' Hbody)
      as (_ & Hm & _ & _).
    destruct (Hincomplete st0 Hc0) as [Hdf _].
    destruct (step_completion w0 w' st0 st' mem0 mem' Hbody Hdf)
      as [_ Hrec].
    pose proof (finished_is_complete fuel _ _ _ _ _ _ Hrun) as Hc'.
    apply (Hpass _ _ _ _ _ _ Hbody Hc0) in Hc'
      as [(m & Hmax & Hstep) | Hdt].
    + left. exists m. split; [congruence | exact Hstep].
    + right. destruct (Hrec Hdt) as (name & d & v & Hl & Hv & Hres & Hmem).
      exists name, d, v. repeat split; assumption.
Qed.

(** A step whose proposal names no registered tool: two history lines,
    nothing else, and the loop goes on to its next test. *)
Lemma unregistered_is_skipped (w w' : W) (st : AgentState.t) (mem : Memory.t)
      (proposal : Py.dict) (name : string) :
  propose w (AgentState.incr_step st) (Memory.build_context mem)
  = (w', Returned (PDict proposal)) ->
  Py.get "name" PNone proposal = PStr name ->
  tools !! name = None ->
  loop_body w st mem = Agent.Continue w' (after_miss st proposal) mem /\
  AgentState.results (after_miss st proposal) = AgentState.results st /\
  AgentState.done (after_miss st proposal) = AgentState.done st /\
  AgentState.history (after_miss st proposal)
  = (AgentState.history st ++
       [proposal_line (AgentState.step st + 1) (PStr name)
                      (Py.get "reason" PNone proposal);
        miss_line (PStr name)])%list /\
  (AgentState.is_complete st = false ->
   forall fuel, run_agent (S fuel) w st mem
                = run_agent fuel w' (after_miss st proposal) mem).
Proof.
  intros Hp Hn Ht.
  assert (Hbody : loop_body w st mem
                  = Agent.Continue w' (after_miss st proposal) mem).
  { rewrite (step_unregistered w w' st mem proposal name Hp Hn Ht).
    unfold after_miss. now rewrite Hn. }
  split; [exact Hbody|]. split; [reflexivity|]. split; [reflexivity|].
  split; [unfold after_miss; now rewrite Hn|].
  intros Hc fuel. now rewrite run_agent_step, Hbody.
Qed.

(** C6.  For a tool name with no registered capability, dispatch does
    not raise.  The toolkit returns the failure result
    {ok: False, error: "Tool '<name>' not found"}, leaving the world as
    it was.  In the agent loop the step does not fault: it logs the
    proposal and the miss in the history, appends nothing to the results
    (with or without a success flag) nor to the memory, and the loop
    goes on to its next test. *)
Theorem unregistered_tool_is_not_an_error :
  forall name : string,
    (forall (registry : gmap string (Tool W)) (w : W) (kwargs : Py.dict),
        registry !! name = None ->
        GoogleAgentToolkit.execute registry w name kwargs
        = (w, PDict [("ok", PBool false);
                     ("error", PStr ("Tool '" ++ name ++ "' not found"))]) /\
        contains "not found" ("Tool '" ++ name ++ "' not found") = true) /\
    (forall (w w' : W) (st : AgentState.t) (mem : Memory.t) (proposal : Py.dict),
        propose w (AgentState.incr_step st) (Memory.build_context mem)
        = (w', Returned (PDict proposal)) ->
        Py.get "name" PNone proposal = PStr name ->
        tools !! name = None ->
        loop_body w st mem = Agent.Continue w' (after_miss st proposal) mem /\
        AgentState.results (after_miss st proposal) = AgentState.results st /\
        AgentState.done (after_miss st proposal) = AgentState.done st /\
        AgentState.history (after_miss st proposal)
        = (AgentState.history st ++
             [proposal_line (AgentState.step st + 1) (PStr name)
                            (Py.get "reason" PNone proposal);
              miss_line (PStr name)])%list /\
        (AgentState.is_complete st = false ->
         forall fuel, run_agent (S fuel) w st mem
                      = run_agent fuel w' (after_miss st proposal) mem)).
Proof.
  intros name. split.
  - intros registry w kwargs Hnone. split.
    + unfold GoogleAgentToolkit.execute. now rewrite Hnone.
    + replace ("Tool '" ++ name ++ "' not found")
        with (("Tool '" ++ name ++ "' ") ++ "not found" ++ "")
        by (rewrite !append_assoc; reflexivity).
      apply contains_intro.
  - intros w w' st mem proposal Hp Hn Ht.
    now apply unregistered_is_skipped.
Qed.

(** The context built from a memory ends with the entry added last. *)
Lemma context_ends_with_last_entry (mem : Memory.t) (entry : string) :
  exists pre, Memory.build_context (Memory.add mem entry) = pre ++ entry.
Proof.
  unfold Memory.build_context, Memory.recent, Memory.add.
  cbn [Nat.eqb]. rewrite skipn_app, length_app. simpl List.length.
  replace (List.length mem + 1 - 10 - List.length mem)%nat with O by lia.
  rewrite skipn_O. apply join_snoc.
Qed.

(** C8 (amended).  When the tool dispatched in a step returns a
    dictionary with a truthy "discrepancy_warning", the entry added to
    the memory starts with the banner line followed by the warning, the
    context built from the memory after the step, which is the context
    the next pass through the body hands to the planner, contains the
    banner and the text of the warning, and the flagged result is
    appended to the results of the state; the history receives only the
    line of the proposal. *)
Theorem warning_reaches_next_context :
  forall (w w1 w2 : W) (st : AgentState.t) (mem : Memory.t)
         (proposal : Py.dict) (name : string) (tool : Tool W)
         (result : Py.dict) (warning : PyVal),
    propose w (AgentState.incr_step st) (Memory.build_context mem)
    = (w1, Returned (PDict proposal)) ->
    Py.get "name" PNone proposal = PStr name ->
    tools !! name = Some tool ->
    run tool w1 (Py.get "args" (PDict []) proposal) = (w2, Returned (PDict result)) ->
    Py.get "discrepancy_warning" PNone result = warning ->
    Py.truthy warning = true ->
    exists (st' : AgentState.t) (mem' : Memory.t),
      loop_body w st mem = Agent.Continue w2 st' mem' /\
      (exists pre post,
          Memory.build_context mem'
          = pre ++ Agent.BANNER ++ nl ++ Agent.py_str py_repr warning ++ nl ++ post) /\
      loop_body w2 st' mem'
      = handle_proposal (AgentState.incr_step st') mem'
          (propose w2 (AgentState.incr_step st') (Memory.build_context mem')) /\
      AgentState.results st'
      = (AgentState.results st ++
           [PDict [("tool", PStr name); ("result", PDict result)]])%list /\
      AgentState.history st'
      = (AgentState.history st ++
           [proposal_line (AgentState.step st + 1) (PStr name)
                          (Py.get "reason" PNone proposal)])%list.
Proof.
  intros w w1 w2 st mem proposal name tool result warning Hp Hn Ht Hr Hw Htr.
  pose proof (step_dispatched w w1 w2 st mem proposal name tool _ Hp Hn Ht Hr)
    as Hbody. cbv zeta in Hbody. simpl Agent.result_of in Hbody.
  do 2 eexists. split; [exact Hbody|].
  split; [|split; [reflexivity|split; reflexivity]].
  destruct (context_ends_with_last_entry mem
              (Agent.memory_entry_of py_repr (PStr name) (PDict result)))
    as [pre Hctx].
  unfold Memory.add in Hctx. rewrite Hctx.
  unfold Agent.memory_entry_of, Agent.flagged_warning. rewrite Hw, Htr.
  exists pre. eexists. reflexivity.
Qed.

(** C9 (amended).  The failure results the toolkit builds itself, for a
    tool that is not registered and for a tool that raises, have
    ok = False and a non-empty error message.  In the agent loop, a pass
    whose proposed tool is registered and raises does not fault: the
    exception is caught, the record {tool: name, result: {error:
    str(exc)}} is appended to the results, the result has the single key
    "error" (no success flag), the memory gets the entry of that result,
    [done] is left as it was, and [run_agent] goes on with the next
    test.  The text recorded is the text of the exception as it is:
    empty exactly when the exception has no message. *)
Theorem failure_results_error_text :
  (forall (registry : gmap string (Tool W)) (w : W) (name : string)
          (kwargs : Py.dict),
      (registry !! name = None \/
       exists tool e, registry !! name = Some tool /\
                      snd (run tool w (PDict kwargs)) = Raised e) ->
      exists msg : string,
        snd (GoogleAgentToolkit.execute registry w name kwargs)
        = PDict [("ok", PBool false); ("error", PStr msg)] /\
        msg <> "") /\
  (forall (w w1 w2 : W) (st : AgentState.t) (mem : Memory.t)
          (proposal : Py.dict) (name : string) (tool : Tool W) (e : Exn),
      propose w (AgentState.incr_step st) (Memory.build_context mem)
      = (w1, Returned (PDict proposal)) ->
      Py.get "name" PNone proposal = PStr name ->
      tools !! name = Some tool ->
      run tool w1 (Py.get "args" (PDict []) proposal) = (w2, Raised e) ->
      exists (st' : AgentState.t) (mem' : Memory.t) (result : Py.dict)
             (text : string),
        loop_body w st mem = Agent.Continue w2 st' mem' /\
        AgentState.results st'
        = (AgentState.results st ++
             [PDict [("tool", PStr name); ("result", PDict result)]])%list /\
        result = [("error", PStr text)] /\
        text = exn_str e /\
        (text = "" <-> exn_str e = "") /\
        Py.lookup "ok" result = None /\
        mem' = Memory.add mem ("Tool " ++ name ++ " result: "
                                 ++ py_repr (PDict result)) /\
        AgentState.done st' = AgentState.done st /\
        AgentState.step st' = AgentState.step st + 1 /\
        (AgentState.is_complete st = false ->
         forall fuel, run_agent (S fuel) w st mem = run_agent fuel w2 st' mem')).
Proof.
  split.
  - intros registry w name kwargs [Hnone | (tool & e & Hsome & Hraise)];
      unfold GoogleAgentToolkit.execute.
    + rewrite Hnone. eexists. split; [reflexivity | discriminate].
    + rewrite Hsome. destruct (run tool w (PDict kwargs)) as [w' out].
      simpl in Hraise. subst out. eexists. split; [reflexivity | discriminate].
  - intros w w1 w2 st mem proposal name tool e Hp Hn Ht Hr.
    pose proof (step_dispatched w w1 w2 st mem proposal name tool _ Hp Hn Ht Hr)
      as Hbody. cbv zeta in Hbody.
    change (Agent.result_of (Raised e))
      with (PDict [("error", PStr (exn_str e))]) in Hbody.
    change (Agent.signals_done (PDict [("error", PStr (exn_str e))]))
      with false in Hbody.
    change (Agent.memory_entry_of py_repr (PStr name)
              (PDict [("error", PStr (exn_str e))]))
      with ("Tool " ++ name ++ " result: "
              ++ py_repr (PDict [("error", PStr (exn_str e))])) in Hbody.
    do 2 eexists. exists [("error", PStr (exn_str e))], (exn_str e).
    split; [exact Hbody|]. split; [reflexivity|]. split; [reflexivity|].
    split; [reflexivity|]. split; [tauto|]. split; [reflexivity|].
    split; [reflexivity|]. split; [reflexivity|]. split; [reflexivity|].
    intros Hc fuel. now rewrite run_agent_step, Hbody.
Qed.

End LoopFacts.


(* ===================================================================== *)
(** * Planning failures ([ClaudePlanner._execute_plan]) *)
(* ===================================================================== *)

Section PlanningFailure.
Import PyStr.
Context {W : Type}.
Variable py_repr : PyVal -> string.
Variable send_prompt : W -> string -> W * Outcome string.
Variable json_loads : string -> Outcome PyVal.
Variable plan_prompt : AgentState.t -> string -> string.
Variable tools_prompt :
  AgentState.t -> string -> gmap string (Tool W) -> string.
Variable tools : gmap string (Tool W).

Abbreviation claude :=
  (ClaudePlanner.planner send_prompt json_loads plan_prompt tools_prompt).
Abbreviation execute_plan := (ClaudePlanner._execute_plan send_prompt json_loads).
Abbreviation parse_action := (ClaudePlanner.parse_action json_loads).

Abbreviation planning_fails := (ClaudePlanner.planning_fails send_prompt json_loads).

Lemma unparseable_json_fails (w w1 : W) (prompt response : string) (e : Exn) :
  send_prompt w prompt = (w1, Returned response) ->
  json_loads (ClaudePlanner.clean response) = Raised e ->
  planning_fails w w1 prompt e.
Proof.
  intros Hs Hj. right. exists response. split; [exact Hs|].
  unfold ClaudePlanner.parse_action. now rewrite Hj.
Qed.

Lemma failed_plan_is_noop (w w1 : W) (prompt : string) (e : Exn) :
  planning_fails w w1 prompt e ->
  execute_plan w prompt = (w1, ClaudePlanner.handle e).
Proof.
  unfold ClaudePlanner._execute_plan.
  intros [-> | (response & -> & ->)]; reflexivity.
Qed.

Lemma handle_reason (e : Exn) :
  exists reason,
    ClaudePlanner.handle e = ClaudePlanner.noop_action reason /\
    (reason = "Failed to parse Claude response: " ++ exn_str e \/
     reason = "Planner error: " ++ exn_str e) /\
    (exn_class e = JSONDecodeError ->
     reason = "Failed to parse Claude response: " ++ exn_str e) /\
    reason <> "".
Proof.
  unfold ClaudePlanner.handle.
  destruct (exn_class e); eexists; (split; [reflexivity|]);
    (split; [(now left) || (now right)|]);
    (split; [(intros _; reflexivity) || discriminate | discriminate]).
Qed.

(** C7 (amended).  When the request to the model or the parsing of its
    answer raises (unparseable JSON included), [_execute_plan] returns
    the proposal {name: "noop", args: {}, reason: ...} whose reason
    starts with "Failed to parse Claude response: " or "Planner error: "
    followed by the text of the exception.  The step of the agent loop
    that gets this proposal does not fault.  When no tool named "noop"
    is registered, the step logs the miss and the loop goes on as long
    as steps remain; when [NoopTool] is registered under "noop", its
    result {done: True, ...} is recorded, [done] is set, and the loop
    returns at its next test. *)
Theorem planning_failure_becomes_noop :
  forall (w w1 : W) (st : AgentState.t) (mem : Memory.t) (e : Exn),
    planning_fails w w1
      (tools_prompt (AgentState.incr_step st) (Memory.build_context mem) tools) e ->
    exists reason : string,
      Agent.propose claude tools w (AgentState.incr_step st)
                    (Memory.build_context mem)
      = (w1, Returned (ClaudePlanner.noop_action reason)) /\
      (reason = "Failed to parse Claude response: " ++ exn_str e \/
       reason = "Planner error: " ++ exn_str e) /\
      reason <> "" /\
      (exists w' st' mem',
          Agent.loop_body py_repr tools claude w st mem
          = Agent.Continue w' st' mem') /\
      (tools !! "noop" = None ->
       exists st',
         Agent.loop_body py_repr tools claude w st mem
         = Agent.Continue w1 st' mem /\
         AgentState.done st' = AgentState.done st /\
         AgentState.results st' = AgentState.results st /\
         AgentState.step st' = AgentState.step st + 1) /\
      (tools !! "noop" = Some Tools.NoopTool ->
       exists st' mem',
         Agent.loop_body py_repr tools claude w st mem
         = Agent.Continue w1 st' mem' /\
         AgentState.done st' = true /\
         AgentState.results st'
         = (AgentState.results st ++
              [PDict [("tool", PStr "noop");
                      ("result", PDict [("done", PBool true);
                                        ("message", PStr "No action taken")])]])%list /\
         forall fuel,
           Agent.run_agent py_repr fuel tools claude w1 st' mem'
           = Agent.Finished w1 st' mem').
Proof.
  intros w w1 st mem e Hfail.
  destruct (handle_reason e) as (reason & Hh & Hprefix & _ & Hne).
  assert (Hp : Agent.propose claude tools w (AgentState.incr_step st)
                             (Memory.build_context mem)
               = (w1, Returned (ClaudePlanner.noop_action reason))).
  { unfold Agent.propose, ClaudePlanner.planner, ClaudePlanner.plan_with_tools.
    simpl. now rewrite (failed_plan_is_noop _ _ _ _ Hfail), Hh. }
  exists reason. split; [exact Hp|]. split; [exact Hprefix|].
  split; [exact Hne|].
  assert (Hname : Py.get "name" PNone
                    [("name", PStr "noop"); ("args", PDict []);
                     ("reason", PStr reason)] = PStr "noop") by reflexivity.
  split; [|split].
  - destruct (tools !! "noop") as [tool|] eqn:Ht.
    + destruct (run tool w1 (PDict [])) as [w2 out] eqn:Hr.
      do 3 eexists.
      apply (step_dispatched py_repr tools claude w w1 w2 st mem _ "noop" tool out
               Hp Hname Ht Hr).
    + do 3 eexists.
      apply (step_unregistered py_repr tools claude w w1 st mem _ "noop"
               Hp Hname Ht).
  - intros Ht. eexists. split.
    + apply (step_unregistered py_repr tools claude w w1 st mem _ "noop"
               Hp Hname Ht).
    + simpl. repeat split.
  - intros Ht. do 2 eexists. split.
    + apply (step_dispatched py_repr tools claude w w1 w1 st mem _ "noop"
               Tools.NoopTool _ Hp Hname Ht eq_refl).
    + split; [reflexivity|]. split; [reflexivity|].
      intros fuel. now apply run_agent_complete.
Qed.

End PlanningFailure.


(* ===================================================================== *)
(** * The scenarios, run *)
(* ===================================================================== *)

Section ScenarioRuns.
Import PyStr Scenarios.

(** Five messages retrieved against an estimate of fifty are flagged. *)
Lemma discrepancy_flagged_iff_witness :
  (exists results,
      five_of_fifty "is:unread" (Gmail.clamp_max_results 10) = Returned results) /\
  exists (d : Py.dict) (text : string),
    Gmail.run five_of_fifty "is:unread" 10 = PDict d /\
    Py.lookup "discrepancy_warning" d = Some (PStr text) /\ text <> "".
Proof.
  split; [eexists; reflexivity|].
  destruct (discrepancy_flagged_iff five_of_fifty "is:unread" 10 _ eq_refl)
    as (warning & Hrun & Hiff & _).
  destruct (proj2 Hiff) as (text & -> & Hne); [simpl; lia|].
  do 2 eexists. split; [exact Hrun|]. split; [reflexivity | exact Hne].
Defined.

(** [MockPlanner] honours the protocol, and without tools nothing it
    proposes is dispatched. *)
Lemma mock_planner_conforms : Agent.conforms no_tools MockPlanner.planner.
Proof.
  intros w st ctx. unfold Agent.propose. simpl.
  unfold MockPlanner.plan_with_tools.
  destruct (contains _ _); do 3 eexists; split; reflexivity.
Defined.

Lemma mock_planner_never_done :
  Agent.never_signals_done no_tools MockPlanner.planner.
Proof.
  intros w w' st ctx proposal tool. unfold Agent.propose. simpl.
  unfold MockPlanner.plan_with_tools.
  destruct (contains _ _); intros [= <- <-]; discriminate.
Defined.

(** The planner that asks for the unread mail at every step honours
    the protocol, and the listing its tool returns carries no "done". *)
Lemma count_unread_conforms :
  Agent.conforms gmail_only (constant_planner propose_count_unread).
Proof.
  intros w st ctx. exists w. do 2 eexists. split; reflexivity.
Defined.

Lemma count_unread_never_done :
  Agent.never_signals_done gmail_only (constant_planner propose_count_unread).
Proof.
  intros w w' st ctx proposal tool. unfold Agent.propose. simpl.
  intros [= <- <-].
  change (Agent.tools_get gmail_only
            (Py.get "name" PNone
               [("name", PStr "query_gmail");
                ("args", PDict [("query", PStr "is:unread")]);
                ("reason", PStr "count unread mail")]))
    with (Returned (Some query_gmail_tool)).
  intros [= <-]. vm_compute. reflexivity.
Defined.

(** The query for the unread mail is dispatched at every step and its
    result never asks for completion: with max_steps = 3 the loop makes
    three passes, each one recorded, and returns. *)
Lemma loop_runs_max_steps_iterations_witness :
  Agent.conforms gmail_only (constant_planner propose_count_unread) /\
  Agent.never_signals_done gmail_only (constant_planner propose_count_unread) /\
  AgentState.step three_steps = 0 /\ AgentState.done three_steps = false /\
  AgentState.max_steps three_steps = Some 3 /\ 0 <= 3 /\
  exists (st' : AgentState.t) (mem' : Memory.t),
    Agent.run_agent repr_stub 3 gmail_only
                    (constant_planner propose_count_unread) tt three_steps
                    Memory.init
    = Agent.Finished tt st' mem' /\
    Agent.run_agent repr_stub 2 gmail_only
                    (constant_planner propose_count_unread) tt three_steps
                    Memory.init
    = Agent.OutOfFuel /\
    AgentState.step st' = 3 /\
    List.length (AgentState.results st') = 3%nat /\
    AgentState.done st' = false.
Proof.
  split; [exact count_unread_conforms|].
  split; [exact count_unread_never_done|].
  split; [reflexivity|]. split; [reflexivity|]. split; [reflexivity|].
  split; [lia|].
  destruct (loop_runs_max_steps_iterations repr_stub gmail_only
              (constant_planner propose_count_unread)
              3 tt three_steps Memory.init
              count_unread_conforms count_unread_never_done
              eq_refl eq_refl eq_refl ltac:(lia))
    as ([] & st' & mem' & Hrun & Hless & Hstep & _).
  exists st', mem'.
  pose proof (Hrun 3%nat ltac:(simpl; lia)) as H3.
  split; [exact H3|].
  split; [apply Hless; simpl; lia|]. split; [exact Hstep|].
  vm_compute in H3. injection H3 as <- <-. split; reflexivity.
Defined.

(** C4, as stated, fails: a planner that never signals completion need
    not let the loop reach its bound.  The [ClaudePlanner] of the
    repository, when the model answers with a quoted sentence in which
    "name", "args" and "reason" occur, hands that text to the loop as
    its proposal; no tool is ever dispatched, so no result carries
    "done", and from the state with step = 0 and max_steps = 3 the
    first pass raises [AttributeError]: [run_agent] does not return a
    state, and the step count it leaves is 1, not 3. *)
Lemma planner_fault_cuts_the_run_short :
  Agent.never_signals_done noop_only Fixtures.claude_quoting /\
  AgentState.step three_steps = 0 /\
  AgentState.done three_steps = false /\
  AgentState.max_steps three_steps = Some 3 /\
  Agent.propose Fixtures.claude_quoting noop_only tt
                (AgentState.incr_step three_steps)
                (Memory.build_context Memory.init)
  = (tt, Returned (PStr "Give a name, args and a reason.")) /\
  AgentState.step (AgentState.incr_step three_steps) = 1 /\
  (forall fuel : nat,
      Agent.run_agent repr_stub (S fuel) noop_only Fixtures.claude_quoting tt
                      three_steps Memory.init
      = Agent.Faulted (mkExn AttributeError "object has no attribute 'get'")) /\
  (forall (fuel : nat) (st' : AgentState.t) (mem' : Memory.t),
      Agent.run_agent repr_stub fuel noop_only Fixtures.claude_quoting tt
                      three_steps Memory.init
      <> Agent.Finished tt st' mem').
Proof.
  assert (Hrun : forall fuel : nat,
             Agent.run_agent repr_stub (S fuel) noop_only
               Fixtures.claude_quoting tt three_steps Memory.init
             = Agent.Faulted
                 (mkExn AttributeError "object has no attribute 'get'")).
  { intros fuel. rewrite run_agent_step by reflexivity.
    vm_compute. reflexivity. }
  split.
  { intros w w' st ctx proposal tool. vm_compute. discriminate. }
  split; [reflexivity|]. split; [reflexivity|]. split; [reflexivity|].
  split; [vm_compute; reflexivity|]. split; [reflexivity|].
  split; [exact Hrun|].
  intros [|fuel] st' mem'; [vm_compute; discriminate|].
  rewrite Hrun. discriminate.
Qed.

(** A run of two passes under a bound of three.  The first pass
    dispatches the query for the unread mail, whose result carries no
    "done": the state it leaves is not complete and the loop goes on.
    The second pass dispatches [NoopTool], whose result carries
    done = True: the pass is recorded, [done] is set, and the loop
    returns that state at its next test, one step before the bound. *)
Lemma termination_condition_witness :
  exists (st1 st2 : AgentState.t) (mem1 mem2 : Memory.t),
    AgentState.is_complete three_steps = false /\
    Agent.loop_body repr_stub Fixtures.gmail_and_noop Fixtures.list_then_stop
                    tt three_steps Memory.init
    = Agent.Continue tt st1 mem1 /\
    AgentState.done st1 = false /\ AgentState.is_complete st1 = false /\
    List.length (AgentState.results st1) = 1%nat /\
    Agent.loop_body repr_stub Fixtures.gmail_and_noop Fixtures.list_then_stop
                    tt st1 mem1
    = Agent.Continue tt st2 mem2 /\
    AgentState.done st2 = true /\ AgentState.step st2 = 2 /\
    AgentState.max_steps st2 = Some 3 /\
    (exists (name : string) (d : Py.dict) (v : PyVal),
        Py.lookup "done" d = Some v /\ Py.truthy v = true /\
        AgentState.results st2
        = (AgentState.results st1 ++
             [PDict [("tool", PStr name); ("result", PDict d)]])%list /\
        mem2 = Memory.add mem1
                 (Agent.memory_entry_of repr_stub (PStr name) (PDict d))) /\
    (forall fuel,
        Agent.run_agent repr_stub fuel Fixtures.gmail_and_noop
                        Fixtures.list_then_stop tt st2 mem2
        = Agent.Finished tt st2 mem2) /\
    Agent.run_agent repr_stub 3 Fixtures.gmail_and_noop Fixtures.list_then_stop
                    tt three_steps Memory.init
    = Agent.Finished tt st2 mem2 /\
    Agent.run_agent repr_stub 1 Fixtures.gmail_and_noop Fixtures.list_then_stop
                    tt three_steps Memory.init
    = Agent.OutOfFuel.
Proof.
  destruct (Agent.loop_body repr_stub Fixtures.gmail_and_noop
              Fixtures.list_then_stop tt three_steps Memory.init)
    as [[] st1 mem1|e] eqn:Hb1; [|vm_compute in Hb1; discriminate].
  destruct (Agent.loop_body repr_stub Fixtures.gmail_and_noop
              Fixtures.list_then_stop tt st1 mem1)
    as [[] st2 mem2|e] eqn:Hb2;
    [|vm_compute in Hb1; injection Hb1 as <- <-;
      vm_compute in Hb2; discriminate].
  assert (Hd1 : AgentState.done st1 = false)
    by (vm_compute in Hb1; injection Hb1 as <- <-; reflexivity).
  assert (Hc1 : AgentState.is_complete st1 = false)
    by (vm_compute in Hb1; injection Hb1 as <- <-; reflexivity).
  assert (Hd2 : AgentState.done st2 = true).
  { vm_compute in Hb1. injection Hb1 as <- <-.
    vm_compute in Hb2. injection Hb2 as <- <-. reflexivity. }
  destruct (termination_condition repr_stub Fixtures.gmail_and_noop
              Fixtures.list_then_stop tt three_steps Memory.init)
    as (_ & _ & Hfirst & Hpass1 & _).
  destruct (Hfirst eq_refl) as [_ Hunfold1].
  destruct (Hpass1 tt st1 mem1 Hb1) as (Hs1 & Hm1 & _).
  destruct (termination_condition repr_stub Fixtures.gmail_and_noop
              Fixtures.list_then_stop tt st1 mem1)
    as (_ & _ & Hsecond & Hpass2 & _).
  destruct (Hsecond Hc1) as [Hnofuel Hunfold2].
  destruct (Hpass2 tt st2 mem2 Hb2) as (Hs2 & Hm2 & _ & _ & Hdone2).
  destruct (Hdone2 Hc1) as (_ & _ & Hrec).
  destruct (Hrec Hd2) as [Hrecorded Hexit].
  exists st1, st2, mem1, mem2.
  split; [reflexivity|]. split; [reflexivity|]. split; [exact Hd1|].
  split; [exact Hc1|].
  split; [vm_compute in Hb1; injection Hb1 as <- <-; reflexivity|].
  split; [exact Hb2|]. split; [exact Hd2|].
  split; [rewrite Hs2, Hs1; reflexivity|].
  split; [rewrite Hm2, Hm1; reflexivity|].
  split; [exact Hrecorded|]. split; [exact Hexit|].
  split.
  - rewrite (Hunfold1 2%nat), Hb1, (Hunfold2 1%nat), Hb2. apply Hexit.
  - rewrite (Hunfold1 0%nat), Hb1. exact Hnofuel.
Defined.

(** A proposal for "send_sms", which nobody registered. *)
Lemma unregistered_tool_is_not_an_error_witness :
  noop_only !! "send_sms" = None /\
  GoogleAgentToolkit.execute noop_only tt "send_sms" [("to", PStr "Ann")]
  = (tt, PDict [("ok", PBool false);
                ("error", PStr "Tool 'send_sms' not found")]) /\
  exists st' : AgentState.t,
    Agent.loop_body repr_stub noop_only
      (constant_planner (MockPlanner.proposal "send_sms" [] "notify Ann"))
      tt three_steps Memory.init
    = Agent.Continue tt st' Memory.init /\
    AgentState.results st' = [] /\
    AgentState.history st'
    = ["Step 1: planner proposed send_sms (notify Ann)";
       "No tool named 'send_sms' registered. Skipping."].
Proof.
  assert (Hnone : noop_only !! "send_sms" = None) by reflexivity.
  split; [exact Hnone|].
  destruct (unregistered_tool_is_not_an_error repr_stub noop_only
              (constant_planner (MockPlanner.proposal "send_sms" [] "notify Ann"))
              "send_sms") as [Hkit Hloop].
  split; [exact (proj1 (Hkit noop_only tt [("to", PStr "Ann")] Hnone))|].
  destruct (Hloop tt tt three_steps Memory.init _ eq_refl eq_refl Hnone)
    as (Hbody & Hres & _ & Hhist & _).
  eexists. split; [exact Hbody|]. split; [exact Hres | exact Hhist].
Defined.

(** C7, as stated, fails: with the registry of [main.py], where
    [NoopTool] is registered under "noop", a failed planning request
    ends the run.  The no-op proposal is dispatched, the result of
    [NoopTool.run] carries done = True, and the loop returns after this
    first step, 49 steps before its bound. *)
Lemma planning_failure_ends_the_run :
  Agent.run_agent repr_stub 50 noop_only claude_offline tt readme_goal Memory.init
  = Agent.Finished tt
      (AgentState.mk "Describe the README contents"
         ["Step 1: planner proposed noop (Planner error: Claude request failed: connection error)"]
         [PDict [("tool", PStr "noop");
                 ("result", PDict [("done", PBool true);
                                   ("message", PStr "No action taken")])]]
         [] 1 (Some 50) true)
      ["Tool noop result: <repr>"] /\
  Agent.run_agent repr_stub 50 noop_only claude_chatty tt readme_goal Memory.init
  = Agent.Finished tt
      (AgentState.mk "Describe the README contents"
         ["Step 1: planner proposed noop (Failed to parse Claude response: Expecting value: line 1 column 1 (char 0))"]
         [PDict [("tool", PStr "noop");
                 ("result", PDict [("done", PBool true);
                                   ("message", PStr "No action taken")])]]
         [] 1 (Some 50) true)
      ["Tool noop result: <repr>"].
Proof. split; vm_compute; reflexivity. Qed.

(** A failed request, with no tool registered under "noop": the step is
    a miss and the loop goes on. *)
Lemma planning_failure_becomes_noop_witness :
  ClaudePlanner.planning_fails failing_client rejecting_json tt tt
    (no_tools_prompt (AgentState.incr_step readme_goal)
                     (Memory.build_context Memory.init) no_tools)
    (mkExn RuntimeError "Claude request failed: connection error") /\
  exists (reason : string) (st' : AgentState.t),
    Agent.propose claude_offline no_tools tt (AgentState.incr_step readme_goal)
                  (Memory.build_context Memory.init)
    = (tt, Returned (ClaudePlanner.noop_action reason)) /\
    reason <> "" /\
    Agent.loop_body repr_stub no_tools claude_offline tt readme_goal Memory.init
    = Agent.Continue tt st' Memory.init /\
    AgentState.done st' = false.
Proof.
  assert (Hfail : ClaudePlanner.planning_fails failing_client rejecting_json tt tt
            (no_tools_prompt (AgentState.incr_step readme_goal)
                             (Memory.build_context Memory.init) no_tools)
            (mkExn RuntimeError "Claude request failed: connection error"))
    by (left; reflexivity).
  split; [exact Hfail|].
  destruct (planning_failure_becomes_noop repr_stub failing_client rejecting_json
              no_prompt no_tools_prompt no_tools tt tt readme_goal Memory.init
              _ Hfail)
    as (reason & Hp & _ & Hne & _ & Hmiss & _).
  destruct (Hmiss eq_refl) as (st' & Hbody & Hdone & _).
  exists reason, st'. split; [exact Hp|]. split; [exact Hne|].
  split; [exact Hbody | exact Hdone].
Defined.

(** C8, as stated, fails in its last part: the flagged result does not
    reach the history.  After the step that dispatched the query whose
    result carries the warning, the history holds the line of the
    proposal only, and the text of the warning occurs in none of its
    lines; it is in the results and in the memory. *)
Lemma warning_absent_from_history :
  exists (st' : AgentState.t) (mem' : Memory.t) (result : PyVal),
    Agent.loop_body repr_stub gmail_only (constant_planner propose_count_unread)
                    tt unread_goal Memory.init
    = Agent.Continue tt st' mem' /\
    AgentState.results st'
    = [PDict [("tool", PStr "query_gmail"); ("result", result)]] /\
    Agent.flagged_warning result = Some (PStr warning_5_of_50) /\
    AgentState.history st'
    = ["Step 1: planner proposed query_gmail (count unread mail)"] /\
    existsb (contains warning_5_of_50) (AgentState.history st') = false /\
    existsb (contains "DISCREPANCY") (AgentState.history st') = false /\
    contains warning_5_of_50 (Memory.build_context mem') = true.
Proof. do 3 eexists. vm_compute. repeat split. Qed.

(** The flagged listing of five out of fifty, in the next context. *)
Lemma warning_reaches_next_context_witness :
  exists (proposal result : Py.dict),
    Agent.propose (constant_planner propose_count_unread) gmail_only tt
                  (AgentState.incr_step unread_goal)
                  (Memory.build_context Memory.init)
    = (tt, Returned (PDict proposal)) /\
    Py.get "name" PNone proposal = PStr "query_gmail" /\
    gmail_only !! "query_gmail" = Some query_gmail_tool /\
    run query_gmail_tool tt (Py.get "args" (PDict []) proposal)
    = (tt, Returned (PDict result)) /\
    Py.get "discrepancy_warning" PNone result = PStr warning_5_of_50 /\
    Py.truthy (PStr warning_5_of_50) = true /\
    exists (st' : AgentState.t) (mem' : Memory.t) (pre post : string),
      Agent.loop_body repr_stub gmail_only (constant_planner propose_count_unread)
                      tt unread_goal Memory.init
      = Agent.Continue tt st' mem' /\
      Memory.build_context mem'
      = pre ++ Agent.BANNER ++ nl ++ warning_5_of_50 ++ nl ++ post.
Proof.
  do 2 eexists.
  split; [reflexivity|]. split; [reflexivity|]. split; [reflexivity|].
  split; [reflexivity|]. split; [reflexivity|]. split; [reflexivity|].
  destruct (warning_reaches_next_context repr_stub gmail_only
              (constant_planner propose_count_unread) tt tt tt unread_goal
              Memory.init _ "query_gmail" query_gmail_tool _
              (PStr warning_5_of_50) eq_refl eq_refl eq_refl eq_refl eq_refl eq_refl)
    as (st' & mem' & Hbody & (pre & post & Hctx) & _).
  exists st', mem', pre, post. split; [exact Hbody | exact Hctx].
Defined.

(** C9, as stated, fails in the agent loop: a tool whose [run] is the
    one of the base class raises [NotImplementedError()], whose text is
    empty; the result recorded for it is {error: ""}, an empty error
    message under no success flag. *)
Lemma empty_error_text_recorded :
  run Tools.BaseTool tt (PDict []) = (tt, Raised (mkExn NotImplementedError "")) /\
  Agent.loop_body repr_stub broken_only (constant_planner propose_broken)
                  tt readme_goal Memory.init
  = Agent.Continue tt
      (AgentState.mk "Describe the README contents"
         ["Step 1: planner proposed broken (try the broken tool)"]
         [PDict [("tool", PStr "broken");
                 ("result", PDict [("error", PStr "")])]]
         [] 1 (Some 50) false)
      ["Tool broken result: <repr>"].
Proof. split; vm_compute; reflexivity. Qed.

(** The base class's tool, through the toolkit and through the loop:
    the toolkit wraps the empty text of its exception, the loop records
    it bare. *)
Lemma failure_results_error_text_witness :
  (exists tool e, broken_only !! "broken" = Some tool /\
                  snd (run tool tt (PDict [])) = Raised e) /\
  (exists msg : string,
      snd (GoogleAgentToolkit.execute broken_only tt "broken" [])
      = PDict [("ok", PBool false); ("error", PStr msg)] /\ msg <> "") /\
  exists (st' : AgentState.t) (mem' : Memory.t),
    Agent.loop_body repr_stub broken_only (constant_planner propose_broken)
                    tt readme_goal Memory.init
    = Agent.Continue tt st' mem' /\
    AgentState.results st'
    = [PDict [("tool", PStr "broken");
              ("result", PDict [("error", PStr "")])]] /\
    mem' = ["Tool broken result: <repr>"] /\
    AgentState.done st' = false /\
    Agent.run_agent repr_stub 50 broken_only (constant_planner propose_broken)
                    tt readme_goal Memory.init
    = Agent.run_agent repr_stub 49 broken_only (constant_planner propose_broken)
                      tt st' mem'.
Proof.
  assert (H : exists tool e, broken_only !! "broken" = Some tool /\
                             snd (run tool tt (PDict [])) = Raised e)
    by (do 2 eexists; split; reflexivity).
  split; [exact H|].
  destruct (failure_results_error_text repr_stub broken_only
              (constant_planner propose_broken)) as [Hkit Hloop].
  split; [exact (Hkit broken_only tt "broken" [] (or_intror H))|].
  destruct (Hloop tt tt tt readme_goal Memory.init _ "broken" Tools.BaseTool
              (mkExn NotImplementedError "") eq_refl eq_refl eq_refl eq_refl)
    as (st' & mem' & result & text & Hbody & Hres & -> & -> & _ & _ & Hmem
        & Hdone & _ & Hrun).
  exists st', mem'. split; [exact Hbody|]. split; [exact Hres|].
  split; [exact Hmem|]. split; [exact Hdone|]. exact (Hrun eq_refl 49%nat).
Defined.

End ScenarioRuns.

(* ===================================================================== *)
(** * Further properties of the agent loop *)
(* ===================================================================== *)

Section LoopInvariants.
Import PyStr.
Context {W : Type}.
Variable py_repr : PyVal -> string.
Variable tools : gmap string (Tool W).
Variable planner : Agent.Planner (W := W).

Abbreviation loop_body := (Agent.loop_body py_repr tools planner).
Abbreviation run_agent fuel := (Agent.run_agent py_repr fuel tools planner).
Abbreviation propose := (Agent.propose planner tools).
Abbreviation conforms := (Agent.conforms tools planner).
Abbreviation never_signals_done := (Agent.never_signals_done tools planner).

Lemma step_grows (w w' : W) (st st' : AgentState.t) (mem mem' : Memory.t) :
  loop_body w st mem = Agent.Continue w' st' mem' ->
  exists (lines : list string) (records : list PyVal) (entries : list string),
    (AgentState.history st' = (AgentState.history st ++ lines)%list /\
     AgentState.results st' = (AgentState.results st ++ records)%list /\
     mem' = (mem ++ entries)%list /\
     AgentState.goal st' = AgentState.goal st /\
     AgentState.context st' = AgentState.context st /\
     AgentState.max_steps st' = AgentState.max_steps st) /\
    List.length records = List.length entries /\
    (List.length lines + List.length records = 2)%nat /\
    AgentState.step st' = AgentState.step st + 1.
Proof.
  intros H. destruct (step_cases py_repr tools planner _ _ _ _ _ _ H)
    as (w1 & proposal & _ & [(_ & _ & -> & ->) | (tool & out & _ & _ & -> & ->)]).
  - exists [Agent.proposal_line py_repr (AgentState.step st + 1)
              (Py.get "name" PNone proposal) (Py.get "reason" PNone proposal);
            Agent.miss_line py_repr (Py.get "name" PNone proposal)], [], [].
    simpl. rewrite !app_nil_r. repeat split; reflexivity.
  - exists [Agent.proposal_line py_repr (AgentState.step st + 1)
              (Py.get "name" PNone proposal) (Py.get "reason" PNone proposal)],
      [PDict [("tool", Py.get "name" PNone proposal);
              ("result", Agent.result_of out)]],
      [Agent.memory_entry_of py_repr (Py.get "name" PNone proposal)
         (Agent.result_of out)].
    simpl. repeat split; reflexivity.
Qed.

(** X1.  [run_agent] only ever appends.  When it returns, the history,
    the results and the memory it was given are prefixes of the ones it
    leaves; the goal, the context dictionary and [max_steps] are
    untouched; every pass of the loop has added either one line of
    history, one result and one memory entry (a tool was run) or two
    lines of history and nothing else (no tool of that name), so that
    results and memory have grown by the same number and lines plus
    results make two per step counted. *)
Theorem run_agent_only_appends (fuel : nat) :
  forall (w w' : W) (st st' : AgentState.t) (mem mem' : Memory.t),
    run_agent fuel w st mem = Agent.Finished w' st' mem' ->
    exists (lines : list string) (records : list PyVal)
           (entries : list string),
      AgentState.history st' = (AgentState.history st ++ lines)%list /\
      AgentState.results st' = (AgentState.results st ++ records)%list /\
      mem' = (mem ++ entries)%list /\
      AgentState.goal st' = AgentState.goal st /\
      AgentState.context st' = AgentState.context st /\
      AgentState.max_steps st' = AgentState.max_steps st /\
      List.length records = List.length entries /\
      Z.of_nat (List.length lines) + Z.of_nat (List.length records)
      = 2 * (AgentState.step st' - AgentState.step st).
Proof.
  induction fuel as [|fuel IH]; intros w w' st st' mem mem' H;
    destruct (AgentState.is_complete st) eqn:E.
  1, 3: rewrite run_agent_complete in H by assumption;
    injection H as <- <- <-; exists [], [], [];
    rewrite !app_nil_r; repeat split; simpl; lia.
  - rewrite run_agent_no_fuel in H by assumption. discriminate.
  - rewrite run_agent_step in H by assumption.
    destruct (loop_body w st mem) as [w1 st1 mem1|e] eqn:Hb; [|discriminate].
    destruct (step_grows _ _ _ _ _ _ Hb)
      as (l1 & r1 & e1 & (Hh1 & Hr1 & Hm1 & Hg1 & Hc1 & Hx1) & Hl1 & Hn1 & Hs1).
    destruct (IH _ _ _ _ _ _ H)
      as (l2 & r2 & e2 & Hh2 & Hr2 & Hm2 & Hg2 & Hc2 & Hx2 & Hl2 & Hn2).
    exists (l1 ++ l2)%list, (r1 ++ r2)%list, (e1 ++ e2)%list.
    rewrite Hh2, Hr2, Hm2, Hh1, Hr1, Hm1, Hg2, Hc2, Hx2, <- !app_assoc,
      !length_app.
    repeat split; try assumption; lia.
Qed.

(** X2.  Without a bound there is no exit but [done]: from a state
    with max_steps = None and [done] not set, a planner that honours
    the protocol and tools that never answer with a truthy "done" keep
    the loop running; whatever the number of passes allowed,
    [run_agent] has not returned. *)
Theorem unbounded_run_never_returns :
  conforms -> never_signals_done ->
  forall (fuel : nat) (w : W) (st : AgentState.t) (mem : Memory.t),
    AgentState.max_steps st = None ->
    AgentState.done st = false ->
    run_agent fuel w st mem = Agent.OutOfFuel.
Proof.
  intros Hc Hn. induction fuel as [|fuel IH]; intros w st mem Hm Hd;
    assert (E : AgentState.is_complete st = false)
      by (unfold AgentState.is_complete; now rewrite Hd, Hm).
  - now apply run_agent_no_fuel.
  - rewrite run_agent_step by assumption.
    destruct (step_without_done py_repr tools planner w st mem Hc Hn)
      as (w1 & st1 & mem1 & -> & _ & Hm1 & Hd1).
    apply IH; congruence.
Qed.

(** X3.  Only the planner's answer can make a pass of the loop raise:
    the planner's own exception, which nothing catches; an answer that
    is not a dictionary, on which [.get] fails; a tool name that
    cannot be looked up because it is not hashable.  What a tool does,
    returning or raising, never does. *)
Theorem loop_faults_only_on_planner_answer (w : W) (st : AgentState.t)
        (mem : Memory.t) (e : Exn) :
  loop_body w st mem = Agent.Fault e <->
  exists (w1 : W) (answer : Outcome PyVal),
    propose w (AgentState.incr_step st) (Memory.build_context mem)
    = (w1, answer) /\
    (answer = Raised e \/
     (exists v : PyVal,
         answer = Returned v /\ (forall d, v <> PDict d) /\
         e = mkExn AttributeError "object has no attribute 'get'") \/
     (exists proposal : Py.dict,
         answer = Returned (PDict proposal) /\
         Agent.tools_get tools (Py.get "name" PNone proposal) = Raised e)).
Proof.
  unfold Agent.loop_body, Agent.handle_proposal. cbv zeta.
  destruct (propose w _ _) as [w1 answer]. split.
  - intros H. exists w1, answer. split; [reflexivity|].
    destruct answer as [v|e1]; [|left; congruence].
    right. destruct v as [| | | | |proposal];
      try (left; eexists; split; [reflexivity|];
           split; [discriminate|congruence]).
    right. exists proposal. split; [reflexivity|].
    destruct (Agent.tools_get tools _) as [[tool|]|e1];
      [destruct (run tool w1 _); discriminate | discriminate | congruence].
  - intros (w2 & answer2 & [= <- <-] & [-> | [(v & -> & Hv & ->) | (p & -> & Hp)]]).
    + reflexivity.
    + destruct v; try reflexivity. now destruct (Hv entries).
    + now rewrite Hp.
Qed.

End LoopInvariants.

(** The query for the unread mail, dispatched at every pass, never
    answers with "done": without a bound the run is still going after
    a thousand passes. *)
Lemma unbounded_run_never_returns_witness :
  Agent.conforms Scenarios.gmail_only
    (Scenarios.constant_planner Scenarios.propose_count_unread) /\
  Agent.never_signals_done Scenarios.gmail_only
    (Scenarios.constant_planner Scenarios.propose_count_unread) /\
  AgentState.max_steps Fixtures.unbounded = None /\
  AgentState.done Fixtures.unbounded = false /\
  Agent.run_agent Scenarios.repr_stub 1000 Scenarios.gmail_only
                  (Scenarios.constant_planner Scenarios.propose_count_unread)
                  tt Fixtures.unbounded Memory.init
  = Agent.OutOfFuel /\
  exists (st' : AgentState.t) (mem' : Memory.t),
    Agent.loop_body Scenarios.repr_stub Scenarios.gmail_only
                    (Scenarios.constant_planner Scenarios.propose_count_unread)
                    tt Fixtures.unbounded Memory.init
    = Agent.Continue tt st' mem' /\
    List.length (AgentState.results st') = 1%nat /\
    AgentState.done st' = false.
Proof.
  split; [exact count_unread_conforms|].
  split; [exact count_unread_never_done|].
  split; [reflexivity|]. split; [reflexivity|].
  split.
  - apply (unbounded_run_never_returns Scenarios.repr_stub Scenarios.gmail_only
             (Scenarios.constant_planner Scenarios.propose_count_unread)
             count_unread_conforms count_unread_never_done
             1000%nat tt Fixtures.unbounded Memory.init eq_refl eq_refl).
  - do 2 eexists. vm_compute. repeat split.
Defined.

(** Three steps of a planner that asks for the unread mail each time. *)
Lemma run_agent_only_appends_witness :
  exists (st' : AgentState.t) (mem' : Memory.t),
    Agent.run_agent Scenarios.repr_stub 5 Scenarios.gmail_only
      (Scenarios.constant_planner Scenarios.propose_count_unread)
      tt Scenarios.three_steps Memory.init
    = Agent.Finished tt st' mem' /\
    exists (lines : list string) (records : list PyVal)
           (entries : list string),
      AgentState.history st'
      = (AgentState.history Scenarios.three_steps ++ lines)%list /\
      AgentState.results st'
      = (AgentState.results Scenarios.three_steps ++ records)%list /\
      mem' = (Memory.init ++ entries)%list /\
      AgentState.goal st' = AgentState.goal Scenarios.three_steps /\
      AgentState.context st' = AgentState.context Scenarios.three_steps /\
      AgentState.max_steps st' = AgentState.max_steps Scenarios.three_steps /\
      List.length records = List.length entries /\
      Z.of_nat (List.length lines) + Z.of_nat (List.length records)
      = 2 * (AgentState.step st' - AgentState.step Scenarios.three_steps).
Proof.
  destruct (Agent.run_agent Scenarios.repr_stub 5 Scenarios.gmail_only
              (Scenarios.constant_planner Scenarios.propose_count_unread)
              tt Scenarios.three_steps Memory.init)
    as [[] st' mem'|e|] eqn:H; [|vm_compute in H; discriminate..].
  exists st', mem'. split; [reflexivity|].
  exact (run_agent_only_appends Scenarios.repr_stub Scenarios.gmail_only
           (Scenarios.constant_planner Scenarios.propose_count_unread)
           5 tt tt Scenarios.three_steps st' Memory.init mem' H).
Defined.
Section MainRun.
Import PyStr.
Context {W : Type}.
Variable py_repr : PyVal -> string.
Variable sys : Filesystem.System (W := W).
Variable b : GoogleTools.bodies (W := W).

Lemma build_tools_noop :
  Main.build_tools sys b !! "noop" = Some Tools.NoopTool.
Proof.
  unfold Main.build_tools, ToolRegistry.as_dict, ToolRegistry.register,
    ToolRegistry.init. cbv zeta. simpl.
  now simplify_map_eq.
Qed.

(** X4.  With the tools of [build_tools] and the [MockPlanner], a run
    from any state that is not complete makes exactly one pass: the
    planner proposes "noop", [NoopTool] is registered under that name
    and answers done = True, and the loop returns at its next test
    with one line, one result and one memory entry added, whatever
    the goal and whatever [max_steps] allows.  The world is not
    touched. *)
Theorem mock_run_ends_after_one_step (fuel : nat) (w : W)
        (st : AgentState.t) (mem : Memory.t) :
  AgentState.is_complete st = false ->
  let result :=
    PDict [("done", PBool true); ("message", PStr "No action taken")] in
  exists reason : string,
    let line :=
      "Step " ++ str_int (AgentState.step st + 1)
      ++ ": planner proposed noop (" ++ reason ++ ")" in
    let entry := "Tool noop result: " ++ py_repr result in
    Agent.run_agent py_repr (S fuel) (Main.build_tools sys b)
                    MockPlanner.planner w st mem
    = Agent.Finished w
        (AgentState.mk
           (AgentState.goal st)
           (AgentState.history st ++ [line])%list
           (AgentState.results st ++
              [PDict [("tool", PStr "noop"); ("result", result)]])%list
           (AgentState.context st) (AgentState.step st + 1)
           (AgentState.max_steps st) true)
        (mem ++ [entry])%list.
Proof.
  intros Hc result.
  rewrite run_agent_step by assumption.
  unfold Agent.loop_body, Agent.propose. cbv zeta. simpl.
  unfold MockPlanner.plan_with_tools.
  destruct (contains _ _); eexists; unfold Agent.handle_proposal;
    simpl; rewrite build_tools_noop; simpl;
    rewrite run_agent_complete by reflexivity; reflexivity.
Qed.

End MainRun.

Lemma mock_run_ends_after_one_step_witness :
  AgentState.is_complete Scenarios.readme_goal = false /\
  exists (st' : AgentState.t) (mem' : Memory.t),
    Agent.run_agent Scenarios.repr_stub 50
      (Main.build_tools Fixtures.logging_system Fixtures.logging_bodies)
      MockPlanner.planner [] Scenarios.readme_goal Memory.init
    = Agent.Finished [] st' mem' /\
    AgentState.step st' = 1 /\ AgentState.done st' = true.
Proof.
  split; [reflexivity|].
  destruct (mock_run_ends_after_one_step Scenarios.repr_stub
              Fixtures.logging_system Fixtures.logging_bodies 49 []
              Scenarios.readme_goal Memory.init eq_refl) as [reason H].
  do 2 eexists. split; [exact H|]. split; reflexivity.
Defined.

(* ===================================================================== *)
(** * Further properties of the memory and of the Gmail listing *)
(* ===================================================================== *)

Section MemoryWindow.
Import PyStr.

(** X5.  [Memory.recent(n)] is a slice of the end of the memory: the
    items are some older ones followed by the recent ones, in order,
    and for n > 0 there are min(n, len) recent ones; for n = 0 the
    slice [[-0:]] is the whole memory, not an empty list.  The context
    handed to the planner is the last ten entries (all of them when
    there are fewer) joined by line feeds: an entry older than the
    tenth from the end has no part in it. *)
Theorem recent_is_a_window (mem : Memory.t) (n : nat) :
  (exists older : list string,
      mem = (older ++ Memory.recent mem n)%list /\
      List.length (Memory.recent mem n)
      = match n with
        | O => List.length mem
        | _ => Nat.min n (List.length mem)
        end) /\
  (exists older window : list string,
      mem = (older ++ window)%list /\
      List.length window = Nat.min 10 (List.length mem) /\
      Memory.build_context mem = join nl window) /\
  (forall older window : list string,
      List.length window = 10%nat ->
      Memory.build_context (older ++ window)%list = join nl window).
Proof.
  assert (Hrec : forall (m : Memory.t) (k : nat),
             (0 < k)%nat ->
             Memory.recent m k = skipn (List.length m - k) m)
    by (intros m [|k] Hk; [lia | reflexivity]).
  split; [|split].
  - destruct n as [|n].
    + exists []. split; reflexivity.
    + exists (firstn (List.length mem - S n) mem). rewrite Hrec by lia.
      split; [now rewrite firstn_skipn | rewrite length_skipn; lia].
  - exists (firstn (List.length mem - 10) mem),
      (skipn (List.length mem - 10) mem).
    split; [now rewrite firstn_skipn|].
    split; [rewrite length_skipn; lia|].
    unfold Memory.build_context. now rewrite Hrec by lia.
  - intros older window Hw. unfold Memory.build_context.
    rewrite Hrec by lia. rewrite length_app, Hw.
    replace (List.length older + 10 - 10)%nat with (List.length older + 0)%nat
      by lia.
    now rewrite skipn_app, Nat.add_0_r, skipn_all, Nat.sub_diag.
Qed.

End MemoryWindow.

Section GmailListing.
Import PyStr Gmail.

Lemma unique_sound (l seen : list string) :
  List.NoDup (unique seen l) /\
  (forall s, In s (unique seen l) <-> In s l /\ ~ In s seen) /\
  (List.length (unique seen l) <= List.length l)%nat.
Proof.
  revert seen. induction l as [|x l IH]; intros seen; simpl.
  - split; [constructor|]. split; [tauto | lia].
  - destruct (existsb (String.eqb x) seen) eqn:E.
    + apply existsb_exists in E. destruct E as (y & Hy & Exy).
      apply String.eqb_eq in Exy. subst y.
      destruct (IH seen) as (Hn & Hin & Hlen).
      split; [exact Hn|]. split; [|lia].
      intros s. rewrite Hin. split; [tauto|].
      intros [[<- | H] Hs]; tauto.
    + assert (Hx : ~ In x seen).
      { intros Hx. assert (existsb (String.eqb x) seen = true) as E'
          by (apply existsb_exists; exists x; split;
              [assumption | apply String.eqb_refl]).
        congruence. }
      destruct (IH (x :: seen)) as (Hn & Hin & Hlen).
      split; [|split; [|simpl; lia]].
      * constructor; [|exact Hn]. rewrite Hin. simpl. tauto.
      * intros s. simpl. rewrite Hin. simpl.
        destruct (String.eqb_spec x s) as [->|Hne]; tauto.
Qed.

Lemma summaries_count (msgs : list (string * Outcome headers)) :
  List.length (senders msgs) = List.length (email_summaries msgs) /\
  (List.length (email_summaries msgs) <= List.length msgs)%nat.
Proof.
  induction msgs as [|[id [hs|e]] msgs [IH1 IH2]]; simpl; lia.
Qed.

(** X6.  The listing of [QueryGmail.run].  The service is asked for
    between 1 and 100 messages: a [max_results] in that range is
    passed on, one above 100 becomes 100, one below 1 becomes the
    default 10.  In the answer, "returned" is the number of summaries
    in "emails", which is at most the number of messages listed (those
    whose metadata request raised are left out without a trace);
    "unique_senders" has no duplicates, holds exactly the "from" fields
    of the summaries, and so is never longer than "emails". *)
Theorem listing_counts_what_it_lists (service : Service) (query : string)
        (max_results : Z) (results : Listing) :
  1 <= clamp_max_results max_results <= 100 /\
  (1 <= max_results <= 100 -> clamp_max_results max_results = max_results) /\
  (max_results < 1 -> clamp_max_results max_results = 10) /\
  (100 < max_results -> clamp_max_results max_results = 100) /\
  (service query (clamp_max_results max_results) = Returned results ->
   exists (emails : list PyVal) (from_ unique_senders : list string),
     from_ = senders (messages results) /\
     Gmail.run service query max_results
     = PDict [("ok", PBool true);
              ("query", PStr query);
              ("total_results", PInt (resultSizeEstimate results));
              ("returned", PInt (Z.of_nat (List.length emails)));
              ("summary",
               PStr (summary_text (Z.of_nat (List.length emails))
                                  (resultSizeEstimate results)));
              ("unique_senders", PList (map PStr unique_senders));
              ("discrepancy_warning",
               discrepancy_warning (Z.of_nat (List.length emails))
                                   (resultSizeEstimate results));
              ("emails", PList emails)] /\
     (List.length emails <= List.length (messages results))%nat /\
     List.length from_ = List.length emails /\
     List.NoDup unique_senders /\
     (forall s, In s unique_senders <-> In s from_) /\
     (List.length unique_senders <= List.length emails)%nat).
Proof.
  unfold clamp_max_results.
  split; [|split; [|split; [|split]]].
  - destruct (max_results <? 1) eqn:E1; [now simpl|].
    destruct (100 <? max_results) eqn:E2; lia.
  - intros H. destruct (max_results <? 1) eqn:E1; [lia|].
    destruct (100 <? max_results) eqn:E2; lia.
  - intros H. destruct (max_results <? 1) eqn:E1; [reflexivity | lia].
  - intros H. destruct (max_results <? 1) eqn:E1; [lia|].
    destruct (100 <? max_results) eqn:E2; [reflexivity | lia].
  - fold (clamp_max_results max_results). intros Hs.
    exists (email_summaries (messages results)), (senders (messages results)),
      (unique [] (senders (messages results))).
    destruct (unique_sound (senders (messages results)) [])
      as (Hn & Hin & Hlen).
    destruct (summaries_count (messages results)) as [Hc1 Hc2].
    split; [reflexivity|].
    split; [unfold Gmail.run; now rewrite Hs|].
    split; [exact Hc2|]. split; [exact Hc1|]. split; [exact Hn|].
    split; [|lia]. intros s. rewrite Hin. simpl. tauto.
Qed.

End GmailListing.

(** Five messages listed, two of them from the same sender. *)
Lemma listing_counts_what_it_lists_witness :
  exists results : Gmail.Listing,
    Scenarios.five_of_fifty "is:unread" (Gmail.clamp_max_results 500)
    = Returned results /\
    Gmail.clamp_max_results 500 = 100 /\
    exists (emails : list PyVal) (unique_senders : list string),
      (List.length emails <= 5)%nat /\
      List.NoDup unique_senders /\
      In "ann@example.com" unique_senders /\
      (List.length unique_senders <= List.length emails)%nat.
Proof.
  eexists. split; [reflexivity|].
  edestruct (listing_counts_what_it_lists Scenarios.five_of_fifty "is:unread"
               500) as (_ & _ & _ & Hmax & H).
  split; [apply Hmax; lia|].
  destruct (H eq_refl)
    as (emails & from_ & us & -> & _ & Hle & _ & Hn & Hin & Hlen).
  exists emails, us. split; [exact Hle|]. split; [exact Hn|].
  split; [apply Hin; simpl; tauto | exact Hlen].
Defined.
(* ===================================================================== *)
(** * [GoogleAgent]: the choice of tools and the calls it makes *)
(* ===================================================================== *)

Section ToolChoice.
Import PyStr GoogleAgentTasks.
Context {W : Type}.
Variable b : GoogleTools.bodies (W := W).

Lemma toolkit_registered (name : string) :
  In name ["query_gmail"; "read_email"; "send_email"; "list_gmail_labels";
           "list_calendars"; "query_events"; "create_event"; "delete_event"]
  <-> exists tool : Tool W, GoogleTools.tools b !! name = Some tool.
Proof.
  unfold GoogleTools.tools. split.
  - simpl. intros H.
    repeat (destruct H as [<-|H]; [eexists; now simplify_map_eq|]).
    contradiction.
  - intros [tool H].
    repeat (apply lookup_insert_Some in H;
            destruct H as [[<- _] | [_ H]]; [simpl; tauto|]).
    now rewrite lookup_empty in H.
Qed.

Lemma keyword_tools_shape (goal : string) :
  exists gmail calendar : list string,
    (keyword_tools goal = (gmail ++ calendar)%list /\ keyword_tools goal <> []
     \/ gmail = [] /\ calendar = [] /\ keyword_tools goal = ["query_gmail"]) /\
    (gmail = [] \/ gmail = ["query_gmail"] \/ gmail = ["send_email"]
     \/ gmail = ["list_gmail_labels"]) /\
    (calendar = [] \/ calendar = ["create_event"]
     \/ calendar = ["delete_event"] \/ calendar = ["list_calendars"]
     \/ calendar = ["query_events"]).
Proof.
  unfold keyword_tools. cbv zeta.
  exists (gmail_tools (lower goal) []),
    (skipn (List.length (gmail_tools (lower goal) []))
           (calendar_tools (lower goal) (gmail_tools (lower goal) []))).
  unfold gmail_tools, calendar_tools.
  repeat match goal with
         | |- context [if contains_any ?ws ?s then _ else _] =>
             destruct (contains_any ws s)
         end; simpl;
    (split; [first [left; split; [reflexivity | discriminate]
                   | right; repeat split; reflexivity]
            | split; tauto]).
Qed.

Lemma determine_tools_bounds (parser : option QueryParser) (goal : string) :
  _determine_tools parser goal <> [] /\
  (List.length (_determine_tools parser goal) <= 2)%nat.
Proof.
  assert (Hk : keyword_tools goal <> [] /\
               (List.length (keyword_tools goal) <= 2)%nat).
  { destruct (keyword_tools_shape goal) as (g & c & Hc & Hg & Hk).
    destruct Hc as [[-> H] | (_ & _ & ->)]; [|split; [discriminate|simpl; lia]].
    split; [exact H|]. rewrite length_app.
    destruct Hg as [-> | [-> | [-> | ->]]],
             Hk as [-> | [-> | [-> | [-> | ->]]]]; simpl; lia. }
  unfold _determine_tools. destruct parser as [parser|]; [|exact Hk].
  destruct (determine_tool parser goal); [|exact Hk].
  split; [discriminate | simpl; lia].
Qed.

(** X7.  The keyword fallback of [_determine_tools] never comes back
    empty-handed and never with more than two tools: at most one Gmail
    tool, then at most one calendar tool, and "query_gmail" alone when
    no keyword is found.  Each name it chooses is a key of the
    toolkit's registry, so that [execute] never answers "not found" on
    this path; "read_email" is never chosen.  With an LLM parser
    configured, the result is the single name the model gave, whatever
    it is, or the keyword choice when the request raised. *)
Theorem keyword_tools_are_registered (goal : string) :
  let chosen := keyword_tools goal in
  (exists gmail calendar : list string,
      (chosen = (gmail ++ calendar)%list \/
       gmail = [] /\ calendar = [] /\ chosen = ["query_gmail"]) /\
      (gmail = [] \/ gmail = ["query_gmail"] \/ gmail = ["send_email"]
       \/ gmail = ["list_gmail_labels"]) /\
      (calendar = [] \/ calendar = ["create_event"]
       \/ calendar = ["delete_event"] \/ calendar = ["list_calendars"]
       \/ calendar = ["query_events"])) /\
  chosen <> [] /\ (List.length chosen <= 2)%nat /\
  ~ In "read_email" chosen /\
  (forall name, In name chosen ->
                exists tool : Tool W, GoogleTools.tools b !! name = Some tool) /\
  (forall parser : QueryParser,
      match determine_tool parser goal with
      | Returned tool => _determine_tools (Some parser) goal = [tool]
      | Raised _ => _determine_tools (Some parser) goal = chosen
      end) /\
  _determine_tools None goal = chosen.
Proof.
  intros chosen.
  pose proof (keyword_tools_shape goal) as Hshape. fold chosen in Hshape.
  destruct Hshape as (gmail & calendar & Hc & Hg & Hk).
  assert (Hin : forall name, In name chosen ->
                  In name ["query_gmail"; "send_email"; "list_gmail_labels";
                           "create_event"; "delete_event"; "list_calendars";
                           "query_events"]).
  { intros name. destruct Hc as [[-> _] | (_ & _ & ->)].
    - rewrite in_app_iff.
      destruct Hg as [-> | [-> | [-> | ->]]],
               Hk as [-> | [-> | [-> | [-> | ->]]]]; simpl; tauto.
    - simpl. tauto. }
  split; [exists gmail, calendar; tauto|].
  split; [destruct Hc as [[_ H] | (_ & _ & ->)]; [exact H | discriminate]|].
  split.
  { destruct Hc as [[-> _] | (_ & _ & ->)]; [|simpl; lia].
    rewrite length_app.
    destruct Hg as [-> | [-> | [-> | ->]]],
             Hk as [-> | [-> | [-> | [-> | ->]]]]; simpl; lia. }
  split.
  { intros H. apply Hin in H. simpl in H.
    repeat (destruct H as [H|H]; [discriminate|]). contradiction. }
  split.
  { intros name H. apply toolkit_registered. apply Hin in H. simpl in *.
    tauto. }
  split; [|reflexivity].
  intros parser. unfold _determine_tools.
  now destruct (determine_tool parser goal).
Qed.

End ToolChoice.
Section CallsOfTheAgent.
Import PyStr Datetime GoogleAgent.
Context {W : Type}.
Variable b : GoogleTools.bodies (W := W).

(** What [execute] does with a tool of the toolkit: the body runs on
    the keywords as given, or the keywords do not bind and the world is
    left as it was. *)
Lemma execute_bound (name description : string) (sig : Call.signature)
      (body : GoogleTools.body_t) (w : W) (params : Py.dict) :
  GoogleTools.tools b !! name = Some (GoogleTools.tool description sig body) ->
  GoogleAgentToolkit.execute (GoogleTools.tools b) w name params
  = match Call.bind sig params with
    | Returned _ => body w params
    | Raised e =>
        (w, PDict [("ok", PBool false);
                   ("error", PStr ("Failed to execute " ++ name ++ ": "
                                   ++ exn_str e))])
    end.
Proof.
  intros H. unfold GoogleAgentToolkit.execute. rewrite H. simpl.
  unfold Call.method, GoogleTools.caught.
  destruct (Call.bind sig params); [|reflexivity].
  now destruct (body w params).
Qed.

Lemma create_event_keys (goal : string) :
  Call.first_unexpected GoogleTools.CreateEvent_sig
                        (create_event_parameters goal) = None /\
  Py.has_key "summary" (create_event_parameters goal) = false /\
  (forall k, Py.has_key k (create_event_parameters goal) = true ->
             k = "start_time" \/ k = "end_time").
Proof.
  unfold create_event_parameters.
  destruct (Regex.findall_date goal) as [|d0 [|d1 more]]; simpl;
    (split; [reflexivity|]); (split; [reflexivity|]); intros k;
    unfold Py.has_key; simpl.
  - discriminate.
  - destruct (String.eqb_spec k "start_time"); [tauto | discriminate].
  - destruct (String.eqb_spec k "start_time"); [tauto|].
    destruct (String.eqb_spec k "end_time"); [tauto | discriminate].
Qed.

Lemma send_email_unbound (parser : option LLMQueryParser) (now : date)
      (goal : string) (w : W) :
  _extract_parameters parser now goal "send_email" = Returned [] /\
  GoogleAgentToolkit.execute (GoogleTools.tools b) w "send_email" []
  = (w, PDict [("ok", PBool false);
               ("error",
                PStr ("Failed to execute send_email: "
                      ++ "SendEmail.run() missing 3 required positional "
                      ++ "arguments: 'to', 'subject', and 'body'"))]).
Proof.
  split; [now destruct parser|].
  now rewrite (execute_bound "send_email" _ GoogleTools.SendEmail_sig
                 (GoogleTools.send_email b)) by reflexivity.
Qed.

(** X8.  Through [GoogleAgent], nothing is ever sent, created, deleted
    or read by id.  For "send_email", "create_event", "delete_event"
    and "read_email" the parameter extraction does not consult the LLM
    parser and returns no parameters at all, or for "create_event" at
    most "start_time" and "end_time"; the call [tool.run( **params )]
    then lacks a required argument, the [TypeError] is raised before
    the body of [run] is entered, and [execute] turns it into a failure
    result.  The world is the one before the call, whatever the body
    would have done to it. *)
Theorem writes_never_reach_the_service (parser : option LLMQueryParser)
        (now : date) (goal : string) (w : W) (tool_name : string) :
  In tool_name ["read_email"; "send_email"; "create_event"; "delete_event"] ->
  exists (params : Py.dict) (text : string),
    _extract_parameters parser now goal tool_name = Returned params /\
    (forall k, Py.has_key k params = true ->
               tool_name = "create_event" /\
               (k = "start_time" \/ k = "end_time")) /\
    GoogleAgentToolkit.execute (GoogleTools.tools b) w tool_name params
    = (w, PDict [("ok", PBool false);
                 ("error", PStr ("Failed to execute " ++ tool_name ++ ": "
                                 ++ text))]).
Proof.
  simpl. intros [<- | [<- | [<- | [<- | []]]]].
  - exists [],
      "ReadEmail.run() missing 1 required positional argument: 'message_id'".
    split; [now destruct parser|]. split; [discriminate|].
    now rewrite (execute_bound "read_email" _ GoogleTools.ReadEmail_sig
                   (GoogleTools.read_email b)) by reflexivity.
  - exists [],
      ("SendEmail.run() missing 3 required positional arguments: "
       ++ "'to', 'subject', and 'body'").
    split; [now destruct parser|]. split; [discriminate|].
    now rewrite (execute_bound "send_email" _ GoogleTools.SendEmail_sig
                   (GoogleTools.send_email b)) by reflexivity.
  - destruct (create_event_keys goal) as (Hu & Hs & Hk).
    set (params := create_event_parameters goal) in *.
    exists params.
    assert (Hb : exists e, Call.bind GoogleTools.CreateEvent_sig params
                           = Raised e).
    { unfold Call.bind. rewrite Hu. unfold Call.missing. simpl. rewrite Hs.
      simpl. eexists. reflexivity. }
    destruct Hb as [e Hb]. exists (exn_str e).
    split; [now destruct parser|].
    split; [intros k H; split; [reflexivity | now apply Hk]|].
    rewrite (execute_bound "create_event" _ GoogleTools.CreateEvent_sig
               (GoogleTools.create_event b)) by reflexivity.
    now rewrite Hb.
  - exists [],
      "DeleteEvent.run() missing 1 required positional argument: 'event_id'".
    split; [now destruct parser|]. split; [discriminate|].
    now rewrite (execute_bound "delete_event" _ GoogleTools.DeleteEvent_sig
                   (GoogleTools.delete_event b)) by reflexivity.
Qed.

End CallsOfTheAgent.

(** A goal with two dates, for which "create_event" gets both times
    and still no summary; the log of the world stays empty. *)
Lemma writes_never_reach_the_service_witness :
  In "create_event"
     ["read_email"; "send_email"; "create_event"; "delete_event"] /\
  exists text : string,
    GoogleAgent._extract_parameters None Scenarios.mid_december_2024
      "Create a meeting from 2025-01-06 to 2025-01-07" "create_event"
    = Returned [("start_time", PStr "2025-01-06");
                ("end_time", PStr "2025-01-07")] /\
    GoogleAgentToolkit.execute (GoogleTools.tools Fixtures.logging_bodies) []
      "create_event" [("start_time", PStr "2025-01-06");
                      ("end_time", PStr "2025-01-07")]
    = ([], PDict [("ok", PBool false);
                  ("error", PStr ("Failed to execute create_event: " ++ text))]).
Proof.
  assert (Hin : In "create_event"
                   ["read_email"; "send_email"; "create_event"; "delete_event"])
    by (simpl; tauto).
  split; [exact Hin|].
  destruct (writes_never_reach_the_service Fixtures.logging_bodies None
              Scenarios.mid_december_2024
              "Create a meeting from 2025-01-06 to 2025-01-07" []
              "create_event" Hin) as (params & text & Hp & _ & He).
  exists text. vm_compute in Hp. injection Hp as <-.
  split; [reflexivity | exact He].
Defined.
(** Names the value of the outermost [let] of the right-hand side of
    [E], so that a definition written as a sequence of assignments can
    be followed one assignment at a time. *)
Ltac name_let E :=
  lazymatch type of E with
  | ?p = (let x := ?v in @?f x) =>
      let y := fresh x in
      pose (y := v); change (p = f y) in E; cbv beta in E
  end.

Section QueriesOfTheAgent.
Import PyStr Datetime GoogleAgent.
Context {W : Type}.
Variable b : GoogleTools.bodies (W := W).

(** The parameters of a Gmail query, stage by stage: the folder, the
    sender and the unread clause each leave one entry, "query". *)
Lemma gmail_parameters_keys (goal : string) :
  exists (query : string) (rest : Py.dict),
    gmail_parameters goal = ("query", PStr query) :: rest /\
    (rest = [] \/ rest = [("count_all", PBool true)]).
Proof.
  remember (gmail_parameters goal) as p eqn:E.
  cbv delta [gmail_parameters] in E. cbv beta in E.
  name_let E. name_let E. name_let E.
  assert (H1 : exists q, params0 = [("query", PStr q)]).
  { subst params0 params.
    destruct (contains "inbox" goal_lower), (contains "sent" goal_lower),
      (contains "draft" goal_lower); eexists; reflexivity. }
  clearbody params0. destruct H1 as [q1 ->].
  name_let E.
  assert (H2 : exists q, params0 = [("query", PStr q)]).
  { subst params0. unfold append_to.
    destruct (Regex.findall_email goal); [eexists; reflexivity|].
    destruct (contains "inbox" goal_lower); eexists; reflexivity. }
  clearbody params0. destruct H2 as [q2 ->].
  name_let E.
  assert (H3 : exists q, params0 = [("query", PStr q)]).
  { subst params0. unfold append_to.
    destruct (contains "unread" goal_lower); [|eexists; reflexivity].
    simpl. destruct (negb (String.eqb q2 ""));
      destruct (contains "inbox" goal_lower); eexists; reflexivity. }
  clearbody params0. destruct H3 as [q3 ->].
  subst p.
  destruct (contains_any _ goal_lower); do 2 eexists;
    (split; [reflexivity | tauto]).
Qed.

Lemma calendar_parameters_shape (now : date) (goal : string) :
  valid now -> year_of now <= 9998 ->
  calendar_parameters now goal = Returned (calendar_defaults (lower goal)) \/
  exists s e : date,
    1 <= s /\ s <= e /\ e <= _MAXORDINAL /\
    calendar_parameters now goal
    = Returned (with_range s e (calendar_defaults (lower goal))).
Proof.
  intros Hv Hy.
  pose proof (monday_of_week now Hv Hy) as [Hmon _].
  pose proof (now_room now Hv Hy) as Hroom.
  assert (Hwd : 0 <= weekday now < 7)
    by (unfold weekday; apply Z.mod_pos_bound; lia).
  destruct (contains "today" (lower goal)) eqn:Ht.
  { right. exists now, (now + 1).
    rewrite (calendar_today now goal Hv Hy Ht). repeat split; lia. }
  destruct (contains "week" (lower goal)) eqn:Hw.
  2:{ left. apply (calendar_no_range now goal Ht Hw). }
  right.
  assert (Hcases :
    (exists m w, Regex.month_search (lower goal) = Some m /\
                 Regex.week_search (lower goal) = Some w)
    \/ (Regex.month_search (lower goal) = None \/
        Regex.week_search (lower goal) = None)).
  { destruct (Regex.month_search (lower goal)) as [m|]; [|right; now left].
    destruct (Regex.week_search (lower goal)) as [w|]; [|right; now right].
    left. now exists m, w. }
  destruct Hcases as [(m & w & Hm & Hws) | Hnone].
  { destruct (calendar_month_week now goal Hv Hy m w Ht Hm Hws)
      as (fm & _ & Hfm & _ & Hmax & _ & _ & _ & Hwn & Hres).
    do 2 eexists. split; [|split; [|split; [|exact Hres]]]; lia. }
  destruct (contains "next" (lower goal)) eqn:Hn.
  { do 2 eexists.
    split; [|split; [|split;
      [|exact (calendar_next_week now goal Hv Hy Ht Hw Hnone Hn)]]]; lia. }
  do 2 eexists.
  split; [|split; [|split;
    [|exact (calendar_this_week now goal Hv Hy Ht Hw Hnone Hn)]]]; lia.
Qed.

Lemma calendar_parameters_bind (s e : date) (gl : string) :
  Call.bind GoogleTools.QueryEvents_sig (calendar_defaults gl) = Returned tt /\
  Call.bind GoogleTools.QueryEvents_sig (with_range s e (calendar_defaults gl))
  = Returned tt.
Proof.
  unfold calendar_defaults, with_range.
  destruct (contains "work" gl); split; reflexivity.
Qed.

(** X9.  The two query tools and the two listing tools are reached.
    On the keyword path (no LLM parser), for a clock before the year
    9999, the parameters extracted for "query_gmail" always carry a
    text under "query" and nothing else but, possibly, count_all =
    True; those for "query_events" carry calendar_id = "primary" with,
    possibly, "search_text", "time_min" and "time_max"; for the two
    listing tools there are none.  In each case the keywords bind to
    the signature of [run], and [execute] is the body of the tool run
    on exactly these keywords. *)
Theorem queries_reach_the_service (now : date) (goal : string) (w : W) :
  valid now -> year_of now <= 9998 ->
  (exists (query : string) (params : Py.dict),
      _extract_parameters None now goal "query_gmail" = Returned params /\
      Py.lookup "query" params = Some (PStr query) /\
      (forall k, Py.has_key k params = true ->
                 k = "query" \/
                 k = "count_all" /\
                 Py.lookup "count_all" params = Some (PBool true)) /\
      GoogleAgentToolkit.execute (GoogleTools.tools b) w "query_gmail" params
      = GoogleTools.query_gmail b w params) /\
  (exists params : Py.dict,
      _extract_parameters None now goal "query_events" = Returned params /\
      Py.lookup "calendar_id" params = Some (PStr "primary") /\
      GoogleAgentToolkit.execute (GoogleTools.tools b) w "query_events" params
      = GoogleTools.query_events b w params) /\
  (_extract_parameters None now goal "list_gmail_labels" = Returned [] /\
   GoogleAgentToolkit.execute (GoogleTools.tools b) w "list_gmail_labels" []
   = GoogleTools.list_gmail_labels b w []) /\
  (_extract_parameters None now goal "list_calendars" = Returned [] /\
   GoogleAgentToolkit.execute (GoogleTools.tools b) w "list_calendars" []
   = GoogleTools.list_calendars b w []).
Proof.
  intros Hv Hy. split; [|split; [|split]].
  - destruct (gmail_parameters_keys goal) as (query & rest & Hp & Hr).
    exists query, (gmail_parameters goal). rewrite Hp.
    split; [rewrite extract_gmail; now rewrite Hp|].
    split; [reflexivity|]. split.
    + intros k. unfold Py.has_key. simpl.
      destruct (String.eqb_spec k "query"); [tauto|].
      destruct Hr as [-> | ->]; simpl; [discriminate|].
      destruct (String.eqb_spec k "count_all") as [->|]; [|discriminate].
      intros _. right. split; reflexivity.
    + rewrite (execute_bound b "query_gmail" _ GoogleTools.QueryGmail_sig
                 (GoogleTools.query_gmail b)) by reflexivity.
      now destruct Hr as [-> | ->].
  - rewrite extract_events.
    destruct (calendar_parameters_bind 0 0 (lower goal)) as [Hb0 _].
    assert (Hid : forall s e,
               Py.lookup "calendar_id"
                 (with_range s e (calendar_defaults (lower goal)))
               = Some (PStr "primary") /\
               Py.lookup "calendar_id" (calendar_defaults (lower goal))
               = Some (PStr "primary")).
    { intros s e. unfold with_range, calendar_defaults.
      now destruct (contains "work" (lower goal)). }
    destruct (calendar_parameters_shape now goal Hv Hy)
      as [-> | (s & e & _ & _ & _ & ->)]; eexists;
      (split; [reflexivity|]).
    + split; [apply (Hid 0 0)|].
      rewrite (execute_bound b "query_events" _ GoogleTools.QueryEvents_sig
                 (GoogleTools.query_events b)) by reflexivity.
      now rewrite Hb0.
    + split; [apply (Hid s e)|].
      rewrite (execute_bound b "query_events" _ GoogleTools.QueryEvents_sig
                 (GoogleTools.query_events b)) by reflexivity.
      now rewrite (proj2 (calendar_parameters_bind s e (lower goal))).
  - split; [reflexivity|].
    now rewrite (execute_bound b "list_gmail_labels" _
                   GoogleTools.ListGmailLabels_sig
                   (GoogleTools.list_gmail_labels b)) by reflexivity.
  - split; [reflexivity|].
    now rewrite (execute_bound b "list_calendars" _
                   GoogleTools.ListCalendars_sig
                   (GoogleTools.list_calendars b)) by reflexivity.
Qed.

End QueriesOfTheAgent.

(** "How many unread emails in my inbox?" on 2024-12-15. *)
Lemma queries_reach_the_service_witness :
  Datetime.valid Scenarios.mid_december_2024 /\
  Datetime.year_of Scenarios.mid_december_2024 <= 9998 /\
  exists params : Py.dict,
    GoogleAgent._extract_parameters None Scenarios.mid_december_2024
      "How many unread emails in my inbox?" "query_gmail"
    = Returned params /\
    params = [("query", PStr "in:inbox is:unread in:inbox");
              ("count_all", PBool true)] /\
    GoogleAgentToolkit.execute (GoogleTools.tools Fixtures.logging_bodies) []
      "query_gmail" params
    = (["list messages"], PDict [("ok", PBool true)]).
Proof.
  assert (Hv : Datetime.valid Scenarios.mid_december_2024)
    by (vm_compute; split; discriminate).
  assert (Hy : Datetime.year_of Scenarios.mid_december_2024 <= 9998)
    by (vm_compute; discriminate).
  split; [exact Hv|]. split; [exact Hy|].
  destruct (queries_reach_the_service Fixtures.logging_bodies
              Scenarios.mid_december_2024
              "How many unread emails in my inbox?" [] Hv Hy)
    as ((query & params & Hp & _ & _ & He) & _).
  exists params. split; [exact Hp|].
  vm_compute in Hp. injection Hp as <-.
  split; [reflexivity | exact He].
Defined.
Section TasksOfTheAgent.
Import PyStr Datetime GoogleAgent GoogleAgentTasks.
Context {W : Type}.
Variable tools : gmap string (Tool W).
Variable query_parser : option QueryParser.
Variable now : date.
Variable goal : string.
Variable max_steps : Z.

Abbreviation run_tools := (run_tools tools query_parser now goal max_steps).
Abbreviation limit_text :=
  ("Max steps (" ++ str_int max_steps ++ ") exceeded").

(** The loop of [execute_task]: the steps it records are those of the
    first tools needed, one per execution counted, and the count does
    not pass [max_steps]. *)
Lemma run_tools_counts (needed : list string) :
  forall (w : W) (count : Z) (result : PyVal) (steps : list StepRecord),
    let loop := run_tools needed w count result steps in
    exists new : list StepRecord,
      GoogleAgentTasks.steps loop = (steps ++ new)%list /\
      execution_count loop = count + Z.of_nat (List.length new) /\
      map step_tool new = firstn (List.length new) needed /\
      (new = [] \/ execution_count loop <= max_steps) /\
      (error loop = None -> List.length new = List.length needed) /\
      (max_steps <= count -> needed <> [] ->
       new = [] /\ world loop = w /\ error loop = Some limit_text).
Proof.
  induction needed as [|tool_name rest IH]; intros w count result steps loop.
  - exists []. subst loop. simpl. rewrite app_nil_r.
    repeat split; try tauto; lia.
  - subst loop. simpl.
    destruct (max_steps <=? count) eqn:Hm.
    { exists []. simpl. rewrite app_nil_r.
      repeat split; try tauto; try lia; try discriminate.  }
    apply Z.leb_gt in Hm.
    destruct (_extract_parameters _ now goal tool_name) as [params|e].
    2:{ exists []. simpl. rewrite app_nil_r.
        repeat split; try tauto; try lia; try discriminate. }
    destruct (call_execute tools w tool_name params)
      as [w1 [step_result|e]].
    2:{ exists []. simpl. rewrite app_nil_r.
        repeat split; try tauto; try lia; try discriminate. }
    assert (Hstop : forall (text : string),
      exists new : list StepRecord,
        (steps ++ [mkStep tool_name params step_result])%list
        = (steps ++ new)%list /\
        count + 1 = count + Z.of_nat (List.length new) /\
        map step_tool new = firstn (List.length new) (tool_name :: rest) /\
        (new = [] \/ count + 1 <= max_steps) /\
        (Some text = None ->
         List.length new = List.length (tool_name :: rest)) /\
        (max_steps <= count -> tool_name :: rest <> [] ->
         new = [] /\ w1 = w /\ Some text = Some limit_text)).
    { intros text. exists [mkStep tool_name params step_result]. simpl.
      repeat split; try tauto; try lia; try discriminate. }
    destruct step_result as [| | | | |entries]; try apply Hstop.
    destruct (IH w1 (count + 1)
                (if Py.truthy (Py.get "ok" PNone entries)
                 then PDict entries else result)
                (steps ++ [mkStep tool_name params (PDict entries)])%list)
      as (new & Hs & Hc & Hn & Hle & He & _).
    exists (mkStep tool_name params (PDict entries) :: new).
    rewrite Hs, Hc, <- app_assoc. simpl. rewrite Hn.
    split; [reflexivity|]. split; [lia|]. split; [reflexivity|].
    split; [right; destruct Hle as [-> | Hle]; simpl in *; lia|].
    split; [intros H; now rewrite (He H)|]. lia.
Qed.

(** When the parameters can be extracted and the tools answer with
    dictionaries, only the limit can end the loop early. *)
Lemma run_tools_completes (needed : list string) :
  (forall name, In name needed ->
     exists params : Py.dict,
       _extract_parameters query_parser now goal name
       = Returned (PDict params) /\ colliding params = None) ->
  (forall w name params,
     exists entries,
       snd (GoogleAgentToolkit.execute tools w name params) = PDict entries) ->
  forall (w : W) (count : Z) (result : PyVal) (steps : list StepRecord),
    count + Z.of_nat (List.length needed) <= max_steps ->
    error (run_tools needed w count result steps) = None.
Proof.
  intros Hx Hd. induction needed as [|tool_name rest IH];
    intros w count result steps Hle; simpl; [reflexivity|].
  simpl in Hle.
  replace (max_steps <=? count) with false by (symmetry; apply Z.leb_gt; lia).
  destruct (Hx tool_name (or_introl eq_refl)) as (params & -> & Hcol).
  destruct (Hd w tool_name params) as [entries He].
  unfold call_execute. rewrite Hcol.
  destruct (GoogleAgentToolkit.execute tools w tool_name params)
    as [w1 step_result]. simpl in He. subst step_result.
  apply IH; [intros name Hn; apply Hx; now right | lia].
Qed.

End TasksOfTheAgent.
Section TaskResults.
Import PyStr Datetime GoogleAgent GoogleAgentTasks.
Context {W : Type}.

(** For a parser whose answers are dictionaries, [execute_task] gets
    the parameters [GoogleAgent._extract_parameters] computes. *)
Lemma extract_parameters_agree (parser : option LLMQueryParser)
      (choose : string -> Outcome string) (now : date)
      (goal tool_name : string) :
  let value (x : Outcome Py.dict) : Outcome PyVal :=
    match x with Returned d => Returned (PDict d) | Raised e => Raised e end in
  GoogleAgentTasks._extract_parameters
    (option_map
       (fun p => mkQueryParser
                   (fun g => value (GoogleAgent.parse_gmail_query p g))
                   (fun g => value (GoogleAgent.parse_calendar_query p g))
                   choose)
       parser)
    now goal tool_name
  = value (GoogleAgent._extract_parameters parser now goal tool_name).
Proof.
  intros value. destruct parser as [p|]; [|reflexivity].
  unfold GoogleAgentTasks._extract_parameters, GoogleAgent._extract_parameters.
  cbn [option_map GoogleAgentTasks.parse_gmail_query
       GoogleAgentTasks.parse_calendar_query].
  destruct (String.eqb tool_name "query_gmail");
    [now destruct (GoogleAgent.parse_gmail_query p goal)|].
  destruct (String.eqb tool_name "query_events");
    [now destruct (GoogleAgent.parse_calendar_query p goal)|].
  reflexivity.
Qed.

Lemma successful_tasks_snoc (self : t) (record : TaskRecord)
      (suggested : list string) :
  successful_tasks (mk (task_history self ++ [record])%list suggested)
  = successful_tasks self
    + match task_error record with None => 1 | Some _ => 0 end.
Proof.
  unfold successful_tasks. simpl. rewrite List.filter_app, length_app.
  simpl. destruct (task_error record); simpl; lia.
Qed.

(** X10.  The bookkeeping of [execute_task].  Each call appends one
    record to the task history and returns its index as "task_id";
    "steps_executed" is the number of steps recorded, which are the
    first tools of the list [_determine_tools] gave, in order; it is
    never more than two, and never more than [max_steps] allows.
    "ok" tells whether an exception ended the [try], and nothing else:
    it is true exactly when the record has no error, and then every
    tool needed was executed and the record holds the result returned;
    when it is false the record's result stays None.  A [max_steps] of
    zero or less always fails with "Max steps (n) exceeded" before any
    tool is run.  The counters of [get_agent_status] follow "ok". *)
Theorem execute_task_accounting (tools : gmap string (Tool W))
        (query_parser : option QueryParser) (now : date) (timestamp : string)
        (self : t) (w : W) (goal : string) (max_steps : Z) :
  exists (self' : t) (w' : W) (record : TaskRecord) (ok : bool)
         (result : PyVal) (n : nat),
    execute_task tools query_parser now timestamp self w goal max_steps
    = (self', w',
       PDict [("ok", PBool ok);
              ("goal", PStr goal);
              ("result", result);
              ("steps_executed", PInt (Z.of_nat n));
              ("suggested_tools",
               PList (map PStr (_suggest_tools goal result)));
              ("task_id", PInt (Z.of_nat (List.length (task_history self))))])
    /\
    task_history self' = (task_history self ++ [record])%list /\
    task_goal record = goal /\ task_timestamp record = timestamp /\
    List.length (task_steps record) = n /\
    map step_tool (task_steps record)
    = firstn n (_determine_tools query_parser goal) /\
    (n <= 2)%nat /\ (n = 0%nat \/ Z.of_nat n <= max_steps) /\
    (ok = true <-> task_error record = None) /\
    (ok = true ->
     n = List.length (_determine_tools query_parser goal) /\
     task_result record = result) /\
    (ok = false -> task_result record = PNone) /\
    (max_steps <= 0 ->
     ok = false /\ n = 0%nat /\ w' = w /\
     task_error record
     = Some ("Max steps (" ++ str_int max_steps ++ ") exceeded")) /\
    total_tasks_executed self' = total_tasks_executed self + 1 /\
    successful_tasks self'
    = successful_tasks self + (if ok then 1 else 0) /\
    failed_tasks self' = failed_tasks self + (if ok then 0 else 1).
Proof.
  unfold execute_task. cbv zeta.
  destruct (determine_tools_bounds query_parser goal) as [Hne Hlen].
  set (needed := _determine_tools query_parser goal) in *.
  destruct (run_tools_counts tools query_parser now goal max_steps needed
              w 0 PNone []) as (new & Hs & Hc & Hn & Hle & He & Hm).
  set (loop := run_tools tools query_parser now goal max_steps needed
                         w 0 PNone []) in *.
  simpl in Hs.
  assert (Hnew : (List.length new <= List.length needed)%nat).
  { apply (f_equal (@List.length _)) in Hn.
    rewrite length_map, length_firstn in Hn. lia. }
  eexists _, (world loop), _,
    (match error loop with None => true | Some _ => false end),
    (result loop), (List.length new).
  split.
  { rewrite Hc. simpl. rewrite length_app. simpl.
    do 10 f_equal. lia. }
  simpl. rewrite Hs.
  split; [reflexivity|]. split; [reflexivity|]. split; [reflexivity|].
  split; [reflexivity|]. split; [exact Hn|]. split; [lia|].
  split; [destruct Hle as [-> | Hle]; [now left | right; lia]|].
  split; [destruct (error loop); split; intros; try discriminate; reflexivity|].
  split; [destruct (error loop) eqn:E; [discriminate|];
          intros _; split; [now apply He | reflexivity]|].
  split; [destruct (error loop); [reflexivity | discriminate]|].
  split.
  { intros H0. destruct (Hm H0 Hne) as (-> & Hw & ->). tauto. }
  rewrite successful_tasks_snoc. unfold failed_tasks.
  rewrite successful_tasks_snoc. unfold total_tasks_executed. simpl.
  rewrite length_app. simpl.
  destruct (error loop); simpl; lia.
Qed.

End TaskResults.
Section OkFlag.
Import PyStr Datetime GoogleAgent GoogleAgentTasks.
Context {W : Type}.
Variable b : GoogleTools.bodies (W := W).
Hypothesis dicts : GoogleTools.answer_dicts b.

Lemma toolkit_answers_dict (w : W) (name : string) (params : Py.dict) :
  exists entries : Py.dict,
    snd (GoogleAgentToolkit.execute (GoogleTools.tools b) w name params)
    = PDict entries.
Proof.
  destruct dicts as (H1 & H2 & H3 & H4 & H5 & H6 & H7 & H8).
  unfold GoogleAgentToolkit.execute.
  destruct (GoogleTools.tools b !! name) as [tool|] eqn:Hl;
    [|eexists; reflexivity].
  assert (Hrun : forall (d : string) (sig : Call.signature)
                        (body : GoogleTools.body_t),
             GoogleTools.answers_dict body ->
             exists entries : Py.dict,
               snd (match run (GoogleTools.tool d sig body) w (PDict params) with
                    | (w', Returned result) => (w', result)
                    | (w', Raised e) =>
                        (w', PDict [("ok", PBool false);
                                    ("error",
                                     PStr ("Failed to execute " ++ name
                                           ++ ": " ++ exn_str e))])
                    end) = PDict entries).
  { intros d sig body Hb. simpl. unfold Call.method, GoogleTools.caught.
    destruct (Call.bind sig params); [|eexists; reflexivity].
    destruct (Hb w params) as [entries He].
    destruct (body w params) as [w1 v]. simpl in *. now exists entries. }
  unfold GoogleTools.tools in Hl.
  repeat (apply lookup_insert_Some in Hl;
          destruct Hl as [[_ <-] | [_ Hl]]; [now apply Hrun|]).
  now rewrite lookup_empty in Hl.
Qed.

Lemma regex_returns (now : date) (goal name : string) :
  valid now -> year_of now <= 9998 ->
  exists params : Py.dict,
    GoogleAgentTasks.regex_parameters now goal name = Returned (PDict params) /\
    colliding params = None.
Proof.
  intros Hv Hy.
  assert (Hr : exists params,
             GoogleAgent.regex_parameters now goal name = Returned params /\
             colliding params = None).
  { unfold GoogleAgent.regex_parameters.
    destruct (String.eqb name "query_gmail").
    { destruct (gmail_parameters_keys goal) as (q & rest & -> & [-> | ->]);
        eexists; split; reflexivity. }
    destruct (String.eqb name "query_events").
    { assert (Hc : forall s e,
                 colliding (calendar_defaults (lower goal)) = None /\
                 colliding (with_range s e (calendar_defaults (lower goal)))
                 = None).
      { intros s e. unfold with_range, calendar_defaults.
        destruct (contains "work" (lower goal)); split; reflexivity. }
      destruct (calendar_parameters_shape now goal Hv Hy)
        as [-> | (s & e & _ & _ & _ & ->)]; eexists;
        (split; [reflexivity | apply (Hc 0 0) || apply (Hc s e)]). }
    destruct (String.eqb name "create_event");
      [|eexists; split; reflexivity].
    eexists. split; [reflexivity|]. unfold create_event_parameters.
    now destruct (Regex.findall_date goal) as [|d0 [|d1 more]]. }
  destruct Hr as (params & Hr & Hcol). exists params.
  unfold GoogleAgentTasks.regex_parameters. rewrite Hr.
  split; [reflexivity | exact Hcol].
Qed.

Lemma extract_returns (parser : option QueryParser) (now : date)
      (goal name : string) :
  valid now -> year_of now <= 9998 -> plain_answers parser goal ->
  exists params : Py.dict,
    GoogleAgentTasks._extract_parameters parser now goal name
    = Returned (PDict params) /\
    colliding params = None.
Proof.
  intros Hv Hy Hplain.
  pose proof (regex_returns now goal name Hv Hy) as Hr.
  unfold GoogleAgentTasks._extract_parameters.
  destruct parser as [parser|]; [|exact Hr].
  destruct Hplain as [Hg Hc].
  destruct (String.eqb name "query_gmail").
  { destruct (parse_gmail_query parser goal) as [v|e] eqn:E; [|exact Hr].
    destruct (Hg v eq_refl) as (d & -> & Hcol).
    exists d. split; [reflexivity | exact Hcol]. }
  destruct (String.eqb name "query_events"); [|exact Hr].
  destruct (parse_calendar_query parser goal) as [v|e] eqn:E; [|exact Hr].
  destruct (Hc v eq_refl) as (d & -> & Hcol).
  exists d. split; [reflexivity | exact Hcol].
Qed.

Lemma send_email_regex (now : date) (goal : string) :
  GoogleAgentTasks.regex_parameters now goal "send_email"
  = Returned (PDict []).
Proof. reflexivity. Qed.

(** X11.  "ok" is not the success of the task: it tells whether an
    exception ended the [try], and nothing else.  With the tools of the
    toolkit, which answer with a dictionary whatever happens, a clock
    before the year 9999 and [max_steps] of two or more:
    when the parser (if any) answers with dictionaries that have no key
    named "tool_name" or "self", [execute_task] returns ok = True for
    every goal, each tool needed is executed, and no failure of a tool
    is an exception; in particular a goal for which "send_email" is the
    tool chosen yields ok = True and one step executed, with result
    None and the world untouched: nothing was sent.  When the parser
    names "query_gmail" or "query_events" and answers that question
    with anything else (a list, a text, a number, null, or a dictionary
    with such a key), the call [execute(tool_name, **params)] raises
    [TypeError] before any tool is run, and [execute_task] returns
    ok = False with no result, no step executed and the world
    untouched; the record keeps the text of the exception. *)
Theorem ok_reports_no_exception (query_parser : option QueryParser)
        (now : date) (timestamp : string) (self : t) (w : W)
        (goal : string) (max_steps : Z) :
  valid now -> year_of now <= 9998 -> 2 <= max_steps ->
  (plain_answers query_parser goal ->
   exists (self' : t) (w' : W) (result : PyVal),
     execute_task (GoogleTools.tools b) query_parser now timestamp self w
                  goal max_steps
     = (self', w',
        PDict [("ok", PBool true);
               ("goal", PStr goal);
               ("result", result);
               ("steps_executed",
                PInt (Z.of_nat
                        (List.length (_determine_tools query_parser goal))));
               ("suggested_tools",
                PList (map PStr (_suggest_tools goal result)));
               ("task_id", PInt (Z.of_nat (List.length (task_history self))))])
     /\
     (_determine_tools query_parser goal = ["send_email"] ->
      result = PNone /\ w' = w)) /\
  (forall (parser : QueryParser) (tool_name : string) (answer : PyVal),
      query_parser = Some parser ->
      determine_tool parser goal = Returned tool_name ->
      (tool_name = "query_gmail" /\
       parse_gmail_query parser goal = Returned answer \/
       tool_name = "query_events" /\
       parse_calendar_query parser goal = Returned answer) ->
      (forall d, answer = PDict d -> colliding d <> None) ->
      exists (self' : t) (record : TaskRecord) (text : string),
        execute_task (GoogleTools.tools b) query_parser now timestamp self w
                     goal max_steps
        = (self', w,
           PDict [("ok", PBool false);
                  ("goal", PStr goal);
                  ("result", PNone);
                  ("steps_executed", PInt 0);
                  ("suggested_tools",
                   PList (map PStr (_suggest_tools goal PNone)));
                  ("task_id",
                   PInt (Z.of_nat (List.length (task_history self))))]) /\
        task_history self' = (task_history self ++ [record])%list /\
        task_steps record = [] /\ task_result record = PNone /\
        task_error record = Some text /\
        ((forall d, answer <> PDict d) ->
         text = "agents.google_agent.GoogleAgentToolkit.execute() "
                ++ "argument after ** must be a mapping, not "
                ++ Py.type_name answer) /\
        (forall d key, answer = PDict d -> colliding d = Some key ->
         text = "GoogleAgentToolkit.execute() got multiple values "
                ++ "for argument '" ++ key ++ "'")).
Proof.
  intros Hv Hy Hmax. split.
  - intros Hplain.
    destruct (determine_tools_bounds query_parser goal) as [_ Hlen].
    unfold execute_task. cbv zeta.
    set (needed := _determine_tools query_parser goal) in *.
    assert (Herr : error (run_tools (GoogleTools.tools b) query_parser now goal
                                    max_steps needed w 0 PNone []) = None).
    { apply run_tools_completes; [|apply toolkit_answers_dict | lia].
      intros name _. now apply extract_returns. }
    destruct (run_tools_counts (GoogleTools.tools b) query_parser now goal
                max_steps needed w 0 PNone [])
      as (new & _ & Hc & _ & _ & He & _).
    set (loop := run_tools (GoogleTools.tools b) query_parser now goal
                           max_steps needed w 0 PNone []) in *.
    exists (mk (task_history self ++
                  [mkTask goal timestamp (steps loop)
                          (match error loop with
                           | None => result loop
                           | Some _ => PNone
                           end)
                          (error loop)
                          (_suggest_tools goal (result loop))])%list
               (_suggest_tools goal (result loop))),
      (world loop), (result loop).
    split.
    { rewrite Herr, Hc, (He Herr). simpl. rewrite length_app. simpl.
      do 10 f_equal. lia. }
    intros Hsend. subst loop. rewrite Hsend. simpl.
    replace (max_steps <=? 0) with false by (symmetry; apply Z.leb_gt; lia).
    assert (Hx : GoogleAgentTasks._extract_parameters query_parser now goal
                   "send_email" = Returned (PDict [])).
    { unfold GoogleAgentTasks._extract_parameters.
      destruct query_parser; apply send_email_regex. }
    rewrite Hx.
    destruct (send_email_unbound b None now goal w) as [_ Hex].
    unfold call_execute. cbn [colliding]. rewrite Hex.
    simpl. split; reflexivity.
  - intros parser tool_name answer -> Hd Hanswer Hbad.
    assert (Hx : GoogleAgentTasks._extract_parameters (Some parser) now goal
                   tool_name = Returned answer).
    { unfold GoogleAgentTasks._extract_parameters.
      destruct Hanswer as [[-> Ha] | [-> Ha]]; cbn [String.eqb Ascii.eqb Bool.eqb];
        now rewrite Ha. }
    assert (Hcall : exists text : string,
               call_execute (GoogleTools.tools b) w tool_name answer
               = (w, Raised (mkExn TypeError text)) /\
               ((forall d, answer <> PDict d) ->
                text = "agents.google_agent.GoogleAgentToolkit.execute() "
                       ++ "argument after ** must be a mapping, not "
                       ++ Py.type_name answer) /\
               (forall d key, answer = PDict d -> colliding d = Some key ->
                text = "GoogleAgentToolkit.execute() got multiple values "
                       ++ "for argument '" ++ key ++ "'")).
    { unfold call_execute.
      destruct answer as [| | | | |d];
        try (eexists; split; [reflexivity|];
             split; [reflexivity | intros d key [=]]).
      destruct (colliding d) as [key|] eqn:Hcol;
        [|now destruct (Hbad d eq_refl)].
      eexists. split; [reflexivity|]. split.
      - intros Hn. now destruct (Hn d).
      - intros d' key' [= <-] Hk. rewrite Hcol in Hk. now injection Hk as <-. }
    destruct Hcall as (text & Hcall & Htext1 & Htext2).
    unfold execute_task, _determine_tools. cbv zeta. rewrite Hd.
    cbn [run_tools].
    replace (max_steps <=? 0) with false by (symmetry; apply Z.leb_gt; lia).
    rewrite Hx, Hcall. cbn [error result steps world execution_count].
    eexists _, _, text. split.
    { cbn [task_history suggested_tools exn_str].
      rewrite length_app. cbn [List.length].
      do 10 f_equal. lia. }
    cbn [task_history]. split; [reflexivity|].
    cbn [task_steps task_result task_error exn_str].
    split; [reflexivity|]. split; [reflexivity|]. split; [reflexivity|].
    split; [exact Htext1 | exact Htext2].
Qed.

End OkFlag.

(** Two questions about the unread mail.  With a parser that answers
    {"query": "is:unread"} the listing runs (the log of the world says
    so) and the task is reported as done.  With a parser that answers
    with a JSON array nothing runs and the task is reported as failed. *)
Lemma ok_reports_no_exception_witness :
  GoogleTools.answer_dicts Fixtures.logging_bodies /\
  Datetime.valid Scenarios.mid_december_2024 /\
  Datetime.year_of Scenarios.mid_december_2024 <= 9998 /\ 2 <= 10 /\
  GoogleAgentTasks.plain_answers (Some Fixtures.helpful_parser)
                                 "Any unread mail?" /\
  (exists self' : GoogleAgentTasks.t,
      GoogleAgentTasks.execute_task
        (GoogleTools.tools Fixtures.logging_bodies)
        (Some Fixtures.helpful_parser)
        Scenarios.mid_december_2024 "2024-12-15T09:00:00"
        GoogleAgentTasks.init [] "Any unread mail?" 10
      = (self', ["list messages"],
         PDict [("ok", PBool true);
                ("goal", PStr "Any unread mail?");
                ("result", PDict [("ok", PBool true)]);
                ("steps_executed", PInt 1);
                ("suggested_tools", PList []);
                ("task_id", PInt 0)])) /\
  (exists self' : GoogleAgentTasks.t,
      GoogleAgentTasks.execute_task
        (GoogleTools.tools Fixtures.logging_bodies)
        (Some Fixtures.listing_parser)
        Scenarios.mid_december_2024 "2024-12-15T09:00:00"
        GoogleAgentTasks.init [] "Any unread mail?" 10
      = (self', [],
         PDict [("ok", PBool false);
                ("goal", PStr "Any unread mail?");
                ("result", PNone);
                ("steps_executed", PInt 0);
                ("suggested_tools", PList []);
                ("task_id", PInt 0)]) /\
      map GoogleAgentTasks.task_error (GoogleAgentTasks.task_history self')
      = [Some ("agents.google_agent.GoogleAgentToolkit.execute() "
               ++ "argument after ** must be a mapping, not list")]).
Proof.
  assert (Hd : GoogleTools.answer_dicts Fixtures.logging_bodies)
    by (repeat split; intros w kw; eexists; reflexivity).
  assert (Hv : Datetime.valid Scenarios.mid_december_2024)
    by (vm_compute; split; discriminate).
  assert (Hy : Datetime.year_of Scenarios.mid_december_2024 <= 9998)
    by (vm_compute; discriminate).
  assert (Hplain : GoogleAgentTasks.plain_answers
                     (Some Fixtures.helpful_parser) "Any unread mail?").
  { split; intros v [= <-]; eexists; split; reflexivity. }
  split; [exact Hd|]. split; [exact Hv|]. split; [exact Hy|].
  split; [lia|]. split; [exact Hplain|]. split.
  - destruct (ok_reports_no_exception Fixtures.logging_bodies Hd
                (Some Fixtures.helpful_parser)
                Scenarios.mid_december_2024 "2024-12-15T09:00:00"
                GoogleAgentTasks.init [] "Any unread mail?" 10
                Hv Hy ltac:(lia)) as [Hok _].
    destruct (Hok Hplain) as (self' & w' & result & Heq & _).
    exists self'. rewrite Heq.
    vm_compute in Heq. injection Heq as _ <- <-. reflexivity.
  - destruct (ok_reports_no_exception Fixtures.logging_bodies Hd
                (Some Fixtures.listing_parser)
                Scenarios.mid_december_2024 "2024-12-15T09:00:00"
                GoogleAgentTasks.init [] "Any unread mail?" 10
                Hv Hy ltac:(lia)) as [_ Hbad].
    destruct (Hbad Fixtures.listing_parser "query_gmail"
                (PList [PStr "is:unread"]) eq_refl eq_refl
                (or_introl (conj eq_refl eq_refl))
                ltac:(intros d; discriminate))
      as (self' & record & text & Heq & Hhist & _ & _ & Herr & Htext & _).
    exists self'. split; [exact Heq|].
    rewrite Hhist. cbn [GoogleAgentTasks.task_history GoogleAgentTasks.init
                        app map]. rewrite Herr.
    rewrite (Htext ltac:(intros d; discriminate)). reflexivity.
Defined.

(* ===================================================================== *)
(** * [QueryGmail.run]: the two counts *)
(* ===================================================================== *)

Section Counting.
Import PyStr GmailCount.
Variable service : PagedService.
Variable query : string.

Lemma paginate_serves (pages : list Page) (final : Outcome Page) :
  forall (token : option string) (all_ids : list string) (fuel : nat),
    serves service query token pages final ->
    ((fuel <= List.length pages)%nat ->
     paginate fuel service query token all_ids = None) /\
    ((List.length pages < fuel)%nat ->
     match final with
     | Returned page =>
         last_page page = true ->
         paginate fuel service query token all_ids
         = Some (Returned (all_ids ++ concat (map ids pages) ++ ids page)%list)
     | Raised e =>
         paginate fuel service query token all_ids = Some (Raised e)
     end).
Proof.
  induction pages as [|page rest IH]; intros token all_ids fuel Hs; simpl in Hs.
  - split; intros Hf.
    + destruct fuel; [reflexivity | simpl in Hf; lia].
    + destruct fuel as [|fuel]; [simpl in Hf; lia|]. simpl. rewrite Hs.
      destruct final as [page|e]; [|reflexivity].
      unfold last_page. intros Hl.
      destruct (nextPageToken page) as [t|]; [rewrite Hl|]; reflexivity.
  - destruct Hs as (Hp & next & Hn & Hne & Hrest). split; intros Hf.
    + destruct fuel as [|fuel]; [reflexivity|]. simpl in *.
      rewrite Hp, Hn.
      replace (String.eqb next "") with false
        by (symmetry; now apply String.eqb_neq).
      apply (IH _ _ _ Hrest). lia.
    + destruct fuel as [|fuel]; [simpl in Hf; lia|]. simpl in *.
      rewrite Hp, Hn.
      replace (String.eqb next "") with false
        by (symmetry; now apply String.eqb_neq).
      destruct (IH (Some next) (all_ids ++ ids page)%list fuel Hrest)
        as [_ H]. specialize (H ltac:(lia)).
      destruct final as [last|e]; [|exact H].
      intros Hl. rewrite (H Hl). now rewrite <- !app_assoc.
Qed.

(** X12.  [count_all] counts every message of every page, and fails as
    a whole.  When the service answers the requests with [pages], each
    naming the next, and ends with a page that names none (no token, or
    an empty one), the count is the number of ids on all of them, after
    exactly one request per page; when instead a request raises, the
    ids collected so far are dropped and the result is the failure
    alone.  Before the last request is made the count has not
    returned. *)
Theorem count_all_counts_every_page (pages : list Page)
        (final : Outcome Page) (fuel : nat) :
  serves service query None pages final ->
  ((fuel <= List.length pages)%nat -> count_all fuel service query = None) /\
  ((List.length pages < fuel)%nat ->
   match final with
   | Returned page =>
       last_page page = true ->
       let n :=
         Z.of_nat (List.length (concat (map ids pages)) + List.length (ids page))
       in
       count_all fuel service query
       = Some (PDict [("ok", PBool true);
                      ("query", PStr query);
                      ("count", PInt n);
                      ("summary",
                       PStr ("Found " ++ str_int n
                             ++ " emails matching query (accurate count)"))])
   | Raised e =>
       count_all fuel service query = Some (failure e) /\
       Py.lookup "count" (match failure e with PDict d => d | _ => [] end)
       = None
   end).
Proof.
  intros Hs. destruct (paginate_serves pages final None [] fuel Hs) as [H1 H2].
  unfold count_all. split; intros Hf.
  - now rewrite (H1 Hf).
  - specialize (H2 Hf). destruct final as [page|e].
    + cbv beta iota zeta. intros Hl. rewrite (H2 Hl). cbv beta iota.
      simpl app. now rewrite length_app.
    + rewrite H2. split; [reflexivity|].
      unfold failure. now destruct (exn_class e).
Qed.

(** X13.  Nothing bounds the pagination of [count_all]: against a
    service that names a next page in every answer, the count never
    returns, however many requests it is allowed. *)
Theorem count_all_has_no_page_limit :
  (forall token : option string,
      exists (page : Page) (next : string),
        service query 100 token = Returned page /\
        nextPageToken page = Some next /\ next <> "") ->
  forall fuel : nat, count_all fuel service query = None.
Proof.
  intros H fuel. unfold count_all.
  enough (Hp : forall token all_ids,
             paginate fuel service query token all_ids = None)
    by now rewrite Hp.
  induction fuel as [|fuel IH]; intros token all_ids; [reflexivity|].
  simpl. destruct (H token) as (page & next & -> & -> & Hne).
  replace (String.eqb next "") with false
    by (symmetry; now apply String.eqb_neq).
  apply IH.
Qed.

End Counting.

(** 230 messages on three pages: three requests. *)
Lemma count_all_counts_every_page_witness :
  exists (p1 p2 p3 : GmailCount.Page),
    GmailCount.serves Fixtures.three_pages "is:unread" None [p1; p2]
                      (Returned p3) /\
    GmailCount.last_page p3 = true /\
    GmailCount.count_all 2 Fixtures.three_pages "is:unread" = None /\
    GmailCount.count_all 3 Fixtures.three_pages "is:unread"
    = Some (PDict [("ok", PBool true);
                   ("query", PStr "is:unread");
                   ("count", PInt 230);
                   ("summary",
                    PStr "Found 230 emails matching query (accurate count)")]).
Proof.
  eexists _, _, _.
  assert (Hs : GmailCount.serves Fixtures.three_pages "is:unread" None
                 [GmailCount.mkPage
                    (Gmail.mkListing (Fixtures.numbered 100) 201) (Some "p2");
                  GmailCount.mkPage
                    (Gmail.mkListing (Fixtures.numbered 100) 201) (Some "p3")]
                 (Returned (GmailCount.mkPage
                              (Gmail.mkListing (Fixtures.numbered 30) 201)
                              None))).
  { simpl. split; [reflexivity|]. exists "p2".
    split; [reflexivity|]. split; [discriminate|].
    split; [reflexivity|]. exists "p3".
    split; [reflexivity|]. split; [discriminate | reflexivity]. }
  split; [exact Hs|]. split; [reflexivity|].
  split.
  - apply (proj1 (count_all_counts_every_page Fixtures.three_pages "is:unread"
                    _ _ 2 Hs)). simpl. lia.
  - rewrite (proj2 (count_all_counts_every_page Fixtures.three_pages
                      "is:unread" _ _ 3 Hs) ltac:(simpl; lia) eq_refl).
    reflexivity.
Defined.

Lemma count_all_has_no_page_limit_witness :
  (forall token : option string,
      exists (page : GmailCount.Page) (next : string),
        Fixtures.endless_pages "is:unread" 100 token = Returned page /\
        GmailCount.nextPageToken page = Some next /\ next <> "") /\
  GmailCount.count_all 1000 Fixtures.endless_pages "is:unread" = None.
Proof.
  assert (H : forall token : option string,
      exists (page : GmailCount.Page) (next : string),
        Fixtures.endless_pages "is:unread" 100 token = Returned page /\
        GmailCount.nextPageToken page = Some next /\ next <> "").
  { intros token. eexists _, "more".
    split; [reflexivity|]. split; [reflexivity | discriminate]. }
  split; [exact H|].
  exact (count_all_has_no_page_limit Fixtures.endless_pages "is:unread" H 1000).
Defined.
(* ===================================================================== *)
(** * Times sent to the Calendar API *)
(* ===================================================================== *)

Section MoreStringFacts.
Import PyStr.

Lemma length_app_str (a b : string) :
  String.length (a ++ b) = (String.length a + String.length b)%nat.
Proof. induction a as [|c a IH]; simpl; [reflexivity | now rewrite IH]. Qed.

Lemma drop_app_length (a b : string) : drop (String.length a) (a ++ b) = b.
Proof. induction a as [|c a IH]; simpl; [now destruct b | exact IH]. Qed.

Lemma take_app_length (a b : string) : take (String.length a) (a ++ b) = a.
Proof.
  induction a as [|c a IH]; simpl; [now destruct b | now rewrite IH].
Qed.

Lemma take_drop (n : nat) (s : string) : take n s ++ drop n s = s.
Proof.
  revert s. induction n as [|n IH]; intros [|c s]; simpl;
    try reflexivity. now rewrite IH.
Qed.

Lemma length_take_le (n : nat) (s : string) :
  (n <= String.length s)%nat -> String.length (take n s) = n.
Proof.
  revert s. induction n as [|n IH]; intros [|c s] H; simpl in *;
    try reflexivity; try lia. rewrite IH; lia.
Qed.

Lemma endswith_app (a p : string) : endswith p (a ++ p) = true.
Proof.
  unfold endswith. rewrite length_app_str.
  replace (String.length a + String.length p - String.length p)%nat
    with (String.length a) by lia.
  rewrite drop_app_length, String.eqb_refl.
  apply andb_true_iff. split; [apply Nat.leb_le; lia | reflexivity].
Qed.

Lemma endswith_inv (p s : string) :
  endswith p s = true -> exists a, s = a ++ p.
Proof.
  unfold endswith. intros H. apply andb_true_iff in H. destruct H as [_ H].
  apply String.eqb_eq in H.
  exists (take (String.length s - String.length p) s).
  pose proof (take_drop (String.length s - String.length p) s) as E.
  rewrite H in E. now symmetry.
Qed.

Lemma endswith_app_r (p a b : string) :
  endswith p b = true -> endswith p (a ++ b) = true.
Proof.
  intros H. destruct (endswith_inv _ _ H) as [r ->].
  rewrite <- append_assoc. apply endswith_app.
Qed.

Lemma contains_app_r (n a b : string) :
  contains n b = true -> contains n (a ++ b) = true.
Proof.
  intros H. induction a as [|c a IH]; [exact H|].
  simpl. now destruct (startswith n (String c (a ++ b))).
Qed.

Lemma contains_app_l (n a b : string) :
  contains n a = true -> contains n (a ++ b) = true.
Proof.
  intros H. destruct (contains_inv _ _ H) as (pre & post & ->).
  rewrite !append_assoc. apply contains_intro.
Qed.

(** For a needle of one character: no character of the text is it. *)
Lemma contains_char_app (c : ascii) (a b : string) :
  contains (String c "") (a ++ b)
  = (contains (String c "") a || contains (String c "") b)%bool.
Proof.
  induction a as [|x a IH].
  - simpl. now destruct (contains (String c "") b).
  - simpl. destruct (Ascii.eqb c x); simpl; [reflexivity | exact IH].
Qed.

End MoreStringFacts.

Section CalendarTimes.
Import PyStr Datetime GoogleAgent Calendar.

Lemma digits_have_no_T (u : Decimal.uint) :
  contains "T" (NilEmpty.string_of_uint u) = false.
Proof. induction u; simpl; try reflexivity; exact IHu. Qed.

Lemma uint_has_no_T (u : Decimal.uint) :
  contains "T" (NilZero.string_of_uint u) = false.
Proof.
  unfold NilZero.string_of_uint.
  destruct u; try reflexivity; apply digits_have_no_T.
Qed.

Lemma str_int_has_no_T (n : Z) : contains "T" (str_int n) = false.
Proof.
  unfold str_int, NilZero.string_of_int.
  destruct (Z.to_int n) as [u|u].
  - apply uint_has_no_T.
  - change (String "-" (NilZero.string_of_uint u))
      with ("-" ++ NilZero.string_of_uint u).
    now rewrite contains_char_app, uint_has_no_T.
Qed.

Lemma zero_pad_has_no_T (w : nat) (n : Z) :
  contains "T" (zero_pad w n) = false.
Proof.
  unfold zero_pad. rewrite contains_char_app, str_int_has_no_T.
  induction (w - String.length (str_int n))%nat as [|k IH];
    [reflexivity | exact IH].
Qed.

Lemma strftime_has_no_T (d : date) :
  contains "T" (strftime_ymd d) = false /\ strftime_ymd d <> "".
Proof.
  unfold strftime_ymd. split.
  - now rewrite !contains_char_app, !zero_pad_has_no_T.
  - intros H. apply (f_equal String.length) in H.
    rewrite !length_app_str in H. simpl in H. lia.
Qed.

Lemma weekday_shift (d k : Z) : weekday d = 0 -> weekday (d + 7 * k) = 0.
Proof.
  unfold weekday. intros H.
  replace (d + 7 * k + 6) with (d + 6 + k * 7) by lia.
  now rewrite Z.mod_add by lia.
Qed.

Lemma rfc3339_shape (midnight time : string) :
  contains "T" midnight = true -> endswith "Z" midnight = true ->
  contains "T" (rfc3339 midnight time) = true /\
  endswith "Z" (rfc3339 midnight time) = true.
Proof.
  intros Ht Hz. unfold rfc3339.
  destruct (contains "T" time) eqn:E1; simpl.
  - destruct (endswith "Z" time) eqn:E2; simpl.
    + now split.
    + split; [now apply contains_app_l | apply endswith_app].
  - split; [now apply contains_app_r | now apply endswith_app_r].
Qed.

(** X14.  Every time bound [QueryEvents.run] sends to the API has a
    time part and ends in "Z".  A bound without "T" gets the start of
    its day ("T00:00:00Z") as [timeMin] and the end of its day
    ("T23:59:59Z") as [timeMax]; one with "T" gets a "Z" unless it
    ends in one; a bound already in that form is sent as it is, so
    the conversion applied twice changes nothing more.  An empty bound
    is not sent, and the number of results asked for is between 1 and
    100. *)
Theorem time_bounds_are_rfc3339 (calendar_id : string)
        (time_min time_max search_text : option string) (max_results : Z) :
  let kwargs :=
    request calendar_id time_min time_max search_text max_results in
  (forall k v,
      k = "timeMin" \/ k = "timeMax" ->
      Py.lookup k kwargs = Some (PStr v) ->
      contains "T" v = true /\ endswith "Z" v = true /\
      rfc3339 "T00:00:00Z" v = v /\ rfc3339 "T23:59:59Z" v = v) /\
  Py.lookup "timeMin" kwargs
  = option_map (fun t => PStr (rfc3339 "T00:00:00Z" t)) (provided time_min) /\
  Py.lookup "timeMax" kwargs
  = option_map (fun t => PStr (rfc3339 "T23:59:59Z" t)) (provided time_max) /\
  (time_min = Some "" \/ time_min = None -> Py.lookup "timeMin" kwargs = None) /\
  (exists n, Py.lookup "maxResults" kwargs = Some (PInt n) /\ 1 <= n <= 100).
Proof.
  intros kwargs.
  assert (Hmin : Py.lookup "timeMin" kwargs
                 = option_map (fun t => PStr (rfc3339 "T00:00:00Z" t))
                              (provided time_min)).
  { subst kwargs. unfold request, set_if. cbv zeta.
    destruct (provided time_min), (provided time_max), (provided search_text);
      reflexivity. }
  assert (Hmax : Py.lookup "timeMax" kwargs
                 = option_map (fun t => PStr (rfc3339 "T23:59:59Z" t))
                              (provided time_max)).
  { subst kwargs. unfold request, set_if. cbv zeta.
    destruct (provided time_min), (provided time_max), (provided search_text);
      reflexivity. }
  assert (Hidem : forall m v,
             contains "T" v = true -> endswith "Z" v = true ->
             rfc3339 m v = v).
  { intros m v H1 H2. unfold rfc3339. now rewrite H1, H2. }
  split; [|split; [exact Hmin|split; [exact Hmax|split]]].
  - intros k v [-> | ->] H.
    + rewrite Hmin in H. destruct (provided time_min) as [t|]; [|discriminate].
      injection H as <-.
      destruct (rfc3339_shape "T00:00:00Z" t eq_refl eq_refl) as [H1 H2].
      repeat split; auto.
    + rewrite Hmax in H. destruct (provided time_max) as [t|]; [|discriminate].
      injection H as <-.
      destruct (rfc3339_shape "T23:59:59Z" t eq_refl eq_refl) as [H1 H2].
      repeat split; auto.
  - rewrite Hmin. now intros [-> | ->].
  - exists (Gmail.clamp_max_results max_results). split.
    + subst kwargs. unfold request, set_if. cbv zeta.
      destruct (provided time_min), (provided time_max),
        (provided search_text); reflexivity.
    + unfold Gmail.clamp_max_results.
      destruct (max_results <? 1) eqn:E1; [simpl; lia|].
      destruct (100 <? max_results) eqn:E2; lia.
Qed.

Lemma request_of_range (s e : date) (gl : string) :
  let kwargs := request_of (with_range s e (calendar_defaults gl)) in
  Py.lookup "timeMin" kwargs = Some (PStr (strftime_ymd s ++ "T00:00:00Z")) /\
  Py.lookup "timeMax" kwargs = Some (PStr (strftime_ymd e ++ "T23:59:59Z")) /\
  Py.lookup "calendarId" kwargs = Some (PStr "primary").
Proof.
  assert (Hp : forall d, provided (Some (strftime_ymd d))
                         = Some (strftime_ymd d)).
  { intros d. unfold provided.
    destruct (String.eqb_spec (strftime_ymd d) "") as [E|]; [|reflexivity].
    now destruct (strftime_has_no_T d). }
  assert (Hr : forall m d, rfc3339 m (strftime_ymd d) = strftime_ymd d ++ m).
  { intros m d. unfold rfc3339.
    now rewrite (proj1 (strftime_has_no_T d)). }
  unfold request_of, text_arg, with_range, calendar_defaults.
  destruct (contains "work" gl); simpl; unfold request; cbv zeta;
    rewrite !Hp; simpl; rewrite !Hr; repeat split; reflexivity.
Qed.

(** X15.  What the keyword resolver finds becomes a window of whole
    days.  For a clock before the year 9999, the parameters extracted
    for "query_events" make [QueryEvents.run] ask the primary calendar;
    a goal without "today" and without "week" asks with no time
    bound at all; a goal with "today" asks from today at 00:00:00Z to
    tomorrow at 23:59:59Z, that is, for two days; and every other range
    from the Monday at 00:00:00Z to the Sunday at 23:59:59Z. *)
Theorem resolved_range_covers_whole_days (now : date) (goal : string) :
  valid now -> year_of now <= 9998 ->
  exists params : Py.dict,
    _extract_parameters None now goal "query_events" = Returned params /\
    let kwargs := request_of params in
    Py.lookup "calendarId" kwargs = Some (PStr "primary") /\
    (contains "today" (lower goal) = true ->
     Py.lookup "timeMin" kwargs
     = Some (PStr (strftime_ymd now ++ "T00:00:00Z")) /\
     Py.lookup "timeMax" kwargs
     = Some (PStr (strftime_ymd (now + 1) ++ "T23:59:59Z"))) /\
    (contains "today" (lower goal) = false ->
     contains "week" (lower goal) = false ->
     Py.lookup "timeMin" kwargs = None /\ Py.lookup "timeMax" kwargs = None) /\
    (contains "today" (lower goal) = false ->
     contains "week" (lower goal) = true ->
     exists monday : date,
       weekday monday = 0 /\
       Py.lookup "timeMin" kwargs
       = Some (PStr (strftime_ymd monday ++ "T00:00:00Z")) /\
       Py.lookup "timeMax" kwargs
       = Some (PStr (strftime_ymd (monday + 6) ++ "T23:59:59Z"))).
Proof.
  intros Hv Hy. rewrite extract_events.
  assert (Hdef : let kwargs := request_of (calendar_defaults (lower goal)) in
                 Py.lookup "calendarId" kwargs = Some (PStr "primary") /\
                 Py.lookup "timeMin" kwargs = None /\
                 Py.lookup "timeMax" kwargs = None).
  { unfold calendar_defaults. now destruct (contains "work" (lower goal)). }
  destruct (contains "today" (lower goal)) eqn:Ht.
  { eexists. split; [apply (calendar_today now goal Hv Hy Ht)|].
    destruct (request_of_range now (now + 1) (lower goal)) as (H1 & H2 & H3).
    cbv zeta. split; [exact H3|]. split; [now split|].
    split; discriminate. }
  destruct (contains "week" (lower goal)) eqn:Hw.
  2:{ eexists. split; [apply (calendar_no_range now goal Ht Hw)|].
      cbv zeta in *. destruct Hdef as (H1 & H2 & H3).
      split; [exact H1|]. split; [discriminate|].
      split; [now split | discriminate]. }
  assert (Hcases :
    (exists m w, Regex.month_search (lower goal) = Some m /\
                 Regex.week_search (lower goal) = Some w)
    \/ (Regex.month_search (lower goal) = None \/
        Regex.week_search (lower goal) = None)).
  { destruct (Regex.month_search (lower goal)) as [m|]; [|right; now left].
    destruct (Regex.week_search (lower goal)) as [w|]; [|right; now right].
    left. now exists m, w. }
  pose proof (monday_of_week now Hv Hy) as [_ Hmon0].
  assert (Hgo : forall monday : date,
             weekday monday = 0 ->
             calendar_parameters now goal
             = Returned (with_range monday (monday + 6)
                                    (calendar_defaults (lower goal))) ->
             exists params : Py.dict,
               calendar_parameters now goal = Returned params /\
               let kwargs := request_of params in
               Py.lookup "calendarId" kwargs = Some (PStr "primary") /\
               (false = true ->
                Py.lookup "timeMin" kwargs
                = Some (PStr (strftime_ymd now ++ "T00:00:00Z")) /\
                Py.lookup "timeMax" kwargs
                = Some (PStr (strftime_ymd (now + 1) ++ "T23:59:59Z"))) /\
               (false = false -> true = false ->
                Py.lookup "timeMin" kwargs = None /\
                Py.lookup "timeMax" kwargs = None) /\
               (false = false -> true = true ->
                exists monday : date,
                  weekday monday = 0 /\
                  Py.lookup "timeMin" kwargs
                  = Some (PStr (strftime_ymd monday ++ "T00:00:00Z")) /\
                  Py.lookup "timeMax" kwargs
                  = Some (PStr (strftime_ymd (monday + 6) ++ "T23:59:59Z")))).
  { intros monday H0 Hres. eexists. split; [exact Hres|].
    destruct (request_of_range monday (monday + 6) (lower goal))
      as (H1 & H2 & H3).
    cbv zeta. split; [exact H3|]. split; [discriminate|].
    split; [discriminate|]. intros _ _. now exists monday. }
  destruct Hcases as [(m & w & Hm & Hws) | Hnone].
  { destruct (calendar_month_week now goal Hv Hy m w Ht Hm Hws)
      as (fm & _ & _ & _ & _ & Hwd & _ & _ & _ & Hres).
    apply (Hgo _ (weekday_shift _ _ Hwd) Hres). }
  destruct (contains "next" (lower goal)) eqn:Hn.
  { apply (Hgo _ (weekday_shift _ 1 Hmon0)).
    exact (calendar_next_week now goal Hv Hy Ht Hw Hnone Hn). }
  apply (Hgo _ Hmon0 (calendar_this_week now goal Hv Hy Ht Hw Hnone Hn)).
Qed.

End CalendarTimes.

(** "today" on 2024-12-15 asks for the 15th and the 16th. *)
Lemma resolved_range_covers_whole_days_witness :
  Datetime.valid Scenarios.mid_december_2024 /\
  Datetime.year_of Scenarios.mid_december_2024 <= 9998 /\
  exists params : Py.dict,
    GoogleAgent._extract_parameters None Scenarios.mid_december_2024
      "What is on my calendar today?" "query_events" = Returned params /\
    Py.lookup "timeMin" (Calendar.request_of params)
    = Some (PStr "2024-12-15T00:00:00Z") /\
    Py.lookup "timeMax" (Calendar.request_of params)
    = Some (PStr "2024-12-16T23:59:59Z").
Proof.
  assert (Hv : Datetime.valid Scenarios.mid_december_2024)
    by (vm_compute; split; discriminate).
  assert (Hy : Datetime.year_of Scenarios.mid_december_2024 <= 9998)
    by (vm_compute; discriminate).
  split; [exact Hv|]. split; [exact Hy|].
  destruct (resolved_range_covers_whole_days Scenarios.mid_december_2024
              "What is on my calendar today?" Hv Hy)
    as (params & Hp & _ & Htoday & _).
  exists params. split; [exact Hp|].
  destruct (Htoday eq_refl) as [Hmin Hmax].
  rewrite Hmin, Hmax. split; reflexivity.
Defined.
Section EventTimes.
Import PyStr Regex Calendar.

Lemma findall_from_matches (at_ : option ascii -> string -> option nat)
      (s : string) :
  forall (skip : nat) (prev : option ascii) (x : string),
    In x (findall_from at_ skip prev s) ->
    exists (prev' : option ascii) (s' : string) (len : nat),
      at_ prev' s' = Some len /\ x = take len s'.
Proof.
  induction s as [|c s IH]; intros skip prev x H; simpl in H; [contradiction|].
  destruct skip as [|k]; [|now apply (IH _ _ _ H)].
  destruct (at_ prev (String c s)) as [len|] eqn:E; [|now apply (IH _ _ _ H)].
  destruct H as [<- | H]; [now exists prev, (String c s), len|].
  now apply (IH _ _ _ H).
Qed.

Lemma digit_is_no_dash (c : ascii) :
  is_digit c = true -> Ascii.eqb c "-" = false.
Proof.
  destruct c as [[] [] [] [] [] [] [] []]; vm_compute; congruence.
Qed.

Lemma digits_inv (n : nat) :
  forall s r : string,
    digits n s = Some r ->
    exists d : string,
      s = d ++ r /\ String.length d = n /\ count_dashes d = 0%nat.
Proof.
  induction n as [|n IH]; intros s r H; simpl in H.
  - injection H as <-. exists "". repeat split; reflexivity.
  - destruct s as [|c s]; [discriminate|].
    destruct (is_digit c) eqn:E; [|discriminate].
    destruct (IH _ _ H) as (d & -> & Hl & Hc).
    exists (String c d). simpl. rewrite (digit_is_no_dash _ E), Hl, Hc.
    repeat split; reflexivity.
Qed.

Lemma count_dashes_app (a b : string) :
  count_dashes (a ++ b) = (count_dashes a + count_dashes b)%nat.
Proof.
  induction a as [|c a IH]; simpl; [reflexivity|].
  destruct (Ascii.eqb c "-"); simpl; now rewrite IH.
Qed.

Lemma date_shape_text (s r : string) :
  date_shape s = Some r ->
  String.length (take 10 s) = 10%nat /\ count_dashes (take 10 s) = 2%nat.
Proof.
  unfold date_shape, and_then, dash.
  destruct (digits 4 s) as [r1|] eqn:H1; [|discriminate].
  destruct (strip_prefix "-" r1) as [r2|] eqn:H2; [|discriminate].
  destruct (digits 2 r2) as [r3|] eqn:H3; [|discriminate].
  destruct (strip_prefix "-" r3) as [r4|] eqn:H4; [|discriminate].
  intros H5.
  destruct (digits_inv _ _ _ H1) as (d1 & E1 & Hl1 & Hc1).
  destruct (digits_inv _ _ _ H3) as (d3 & E3 & Hl3 & Hc3).
  destruct (digits_inv _ _ _ H5) as (d5 & E5 & Hl5 & Hc5).
  apply strip_prefix_inv in H2. apply strip_prefix_inv in H4.
  assert (Es : s = (d1 ++ "-" ++ d3 ++ "-" ++ d5) ++ r).
  { rewrite E1, H2, E3, H4, E5. now rewrite !append_assoc. }
  assert (El : String.length (d1 ++ "-" ++ d3 ++ "-" ++ d5) = 10%nat).
  { rewrite !length_app_str, Hl1, Hl3, Hl5. reflexivity. }
  rewrite Es, <- El, take_app_length, !count_dashes_app.
  rewrite Hc1, Hc3, Hc5. split; reflexivity.
Qed.

(** X16.  [CreateEvent._parse_time] knows two forms.  A text of ten
    characters with exactly two dashes is an all-day date and is passed
    on unchanged under "date"; any other text goes under "dateTime"
    with what it lacks to end in "Z": nothing, a "Z" after a time part,
    or the whole of "T00:00:00Z".  Every date the resolver's pattern
    finds in a goal is of the first form. *)
Theorem parse_time_forms (time_str : string) :
  (String.length time_str = 10%nat /\ count_dashes time_str = 2%nat ->
   _parse_time time_str = [("date", PStr time_str)]) /\
  (String.length time_str <> 10%nat \/ count_dashes time_str <> 2%nat ->
   exists suffix : string,
     _parse_time time_str = [("dateTime", PStr (time_str ++ suffix))] /\
     endswith "Z" (time_str ++ suffix) = true /\
     (suffix = "" /\ endswith "Z" time_str = true \/
      suffix = "Z" /\ contains "T" time_str = true \/
      suffix = "T00:00:00Z" /\ contains "T" time_str = false)) /\
  (forall goal : string,
      In time_str (findall_date goal) ->
      _parse_time time_str = [("date", PStr time_str)]).
Proof.
  assert (Hdate : String.length time_str = 10%nat /\
                  count_dashes time_str = 2%nat ->
                  _parse_time time_str = [("date", PStr time_str)]).
  { intros [H1 H2]. unfold _parse_time. now rewrite H1, H2. }
  split; [exact Hdate|]. split.
  - intros H. unfold _parse_time.
    replace (Nat.eqb (String.length time_str) 10
             && Nat.eqb (count_dashes time_str) 2)%bool with false.
    2:{ symmetry. apply andb_false_iff.
        destruct H as [H|H]; [left|right]; now apply Nat.eqb_neq. }
    destruct (endswith "Z" time_str) eqn:Ez; simpl.
    + exists "". rewrite append_empty_r. tauto.
    + destruct (contains "T" time_str) eqn:Et.
      * exists "Z". split; [reflexivity|]. split; [apply endswith_app | tauto].
      * exists "T00:00:00Z".
        split; [reflexivity|]. split; [now apply endswith_app_r | tauto].
  - intros goal H. apply Hdate.
    destruct (findall_from_matches _ _ _ _ _ H) as (prev & s & len & Hat & ->).
    unfold date_at in Hat.
    destruct (boundary prev s); [|discriminate].
    destruct (date_shape s) as [r|] eqn:Hs; [|discriminate].
    destruct (boundary _ r); [|discriminate]. injection Hat as <-.
    apply (date_shape_text _ _ Hs).
Qed.

End EventTimes.

Lemma parse_time_forms_witness :
  Calendar._parse_time "2025-12-26" = [("date", PStr "2025-12-26")] /\
  exists suffix : string,
    Calendar._parse_time "2025-12-26 10:00"
    = [("dateTime", PStr ("2025-12-26 10:00" ++ suffix))] /\
    suffix = "T00:00:00Z".
Proof.
  destruct (parse_time_forms "2025-12-26") as (H1 & _ & _).
  split; [apply H1; split; reflexivity|].
  destruct (parse_time_forms "2025-12-26 10:00") as (_ & H2 & _).
  assert (Hne : String.length "2025-12-26 10:00" <> 10%nat)
    by (vm_compute; discriminate).
  destruct (H2 (or_introl Hne))
    as (suffix & Hp & _ & [[_ H] | [[_ H] | [-> _]]]).
  - vm_compute in H. discriminate H.
  - vm_compute in H. discriminate H.
  - exists "T00:00:00Z". split; [exact Hp | reflexivity].
Defined.

(* ===================================================================== *)
(** * [ClaudePlanner]: what becomes of the model's answer *)
(* ===================================================================== *)

Section ParsedActions.
Import PyStr ClaudePlanner.
Context {W : Type}.
Variable py_repr : PyVal -> string.
Variable send_prompt : W -> string -> W * Outcome string.
Variable json_loads : string -> Outcome PyVal.
Variable plan_prompt : AgentState.t -> string -> string.
Variable tools_prompt :
  AgentState.t -> string -> gmap string (Tool W) -> string.
Variable tools : gmap string (Tool W).

Abbreviation claude :=
  (ClaudePlanner.planner send_prompt json_loads plan_prompt tools_prompt).
Abbreviation parse_action := (ClaudePlanner.parse_action json_loads).

Lemma ensure_key_dict (k : string) (default : PyVal) (d : Py.dict) :
  exists d' : Py.dict,
    ensure_key k default (PDict d) = Returned (PDict d') /\
    Py.lookup k d' = Some (Py.get k default d) /\
    (forall k', k' <> k -> Py.lookup k' d' = Py.lookup k' d) /\
    (forall k' v, Py.lookup k' d = Some v -> Py.lookup k' d' = Some v).
Proof.
  unfold ensure_key, Py.has_key, Py.get.
  destruct (Py.lookup k d) as [v|] eqn:E.
  - exists d. repeat split; auto.
  - exists (Py.set k default d). split; [reflexivity|].
    split; [apply lookup_set_eq|]. split.
    + intros k' Hne. now apply lookup_set_ne.
    + intros k' v Hl. rewrite lookup_set_ne; [exact Hl|]. congruence.
Qed.

(** X17.  A JSON object the model answers with is taken as it is: the
    three keys "name", "args" and "reason" are filled in with "noop",
    {} and "Claude response" where they are absent, every entry of the
    object keeps its value (a "name" that is null stays null), and
    nothing else is added. *)
Theorem parsed_action_keeps_entries (response : string) (d : Py.dict) :
  json_loads (clean response) = Returned (PDict d) ->
  exists d' : Py.dict,
    parse_action response = Returned (PDict d') /\
    (forall k v, Py.lookup k d = Some v -> Py.lookup k d' = Some v) /\
    Py.lookup "name" d' = Some (Py.get "name" (PStr "noop") d) /\
    Py.lookup "args" d' = Some (Py.get "args" (PDict []) d) /\
    Py.lookup "reason" d'
    = Some (Py.get "reason" (PStr "Claude response") d) /\
    (forall k, k <> "name" -> k <> "args" -> k <> "reason" ->
               Py.lookup k d' = Py.lookup k d).
Proof.
  intros Hj. unfold ClaudePlanner.parse_action. rewrite Hj.
  cbn [ClaudePlanner.bind].
  destruct (ensure_key_dict "name" (PStr "noop") d)
    as (d1 & -> & Hn1 & Ho1 & Hk1). cbn [ClaudePlanner.bind].
  destruct (ensure_key_dict "args" (PDict []) d1)
    as (d2 & -> & Hn2 & Ho2 & Hk2). cbn [ClaudePlanner.bind].
  destruct (ensure_key_dict "reason" (PStr "Claude response") d2)
    as (d3 & -> & Hn3 & Ho3 & Hk3).
  exists d3. split; [reflexivity|].
  split; [intros k v H; auto|].
  split; [rewrite Ho3, Ho2 by discriminate; exact Hn1|].
  split.
  { rewrite Ho3 by discriminate. rewrite Hn2. unfold Py.get.
    now rewrite Ho1 by discriminate. }
  split.
  { rewrite Hn3. unfold Py.get.
    now rewrite Ho2, Ho1 by discriminate. }
  intros k H1 H2 H3. now rewrite Ho3, Ho2, Ho1.
Qed.

(** [k in action] for an answer that is a text or a list. *)
Lemma ensure_key_member (k : string) (default v : PyVal) :
  (forall d, v <> PDict d) ->
  let member :=
    match v with
    | PStr s => contains k s
    | PList items => has_str k items
    | _ => false
    end in
  if member then ensure_key k default v = Returned v
  else exists text, ensure_key k default v = Raised (mkExn TypeError text).
Proof.
  intros Hv. destruct v as [| | |s|items|d]; simpl;
    try (eexists; reflexivity).
  - destruct (contains k s); [reflexivity | eexists; reflexivity].
  - destruct (has_str k items); [reflexivity | eexists; reflexivity].
  - now destruct (Hv d).
Qed.

(** X18.  A JSON answer that is not an object.  When the model answers
    with a JSON text or array in which "name", "args" and "reason" all
    occur (as parts of the text, or as elements of the array), the
    three membership tests pass, nothing is assigned, and the planner
    returns that value as its proposal; the loop then calls [.get] on
    it and [run_agent] raises [AttributeError].  Any other value that
    is not an object fails an assignment or a test with [TypeError],
    and the planner proposes the no-op with "Planner error: ...". *)
Theorem non_object_plan (w w1 : W) (st : AgentState.t) (mem : Memory.t)
        (response : string) (v : PyVal) :
  let st1 := AgentState.incr_step st in
  let ctx := Memory.build_context mem in
  send_prompt w (tools_prompt st1 ctx tools) = (w1, Returned response) ->
  json_loads (clean response) = Returned v ->
  (forall d, v <> PDict d) ->
  let member k :=
    match v with
    | PStr s => contains k s
    | PList items => has_str k items
    | _ => false
    end in
  if (member "name" && member "args" && member "reason")%bool then
    Agent.propose claude tools w st1 ctx = (w1, Returned v) /\
    Agent.loop_body py_repr tools claude w st mem
    = Agent.Fault (mkExn AttributeError "object has no attribute 'get'")
  else
    exists text : string,
      Agent.propose claude tools w st1 ctx
      = (w1, Returned (noop_action ("Planner error: " ++ text))).
Proof.
  intros st1 ctx Hs Hj Hv member.
  assert (Hp : Agent.propose claude tools w st1 ctx
               = match parse_action response with
                 | Returned action => (w1, Returned action)
                 | Raised e => (w1, Returned (handle e))
                 end).
  { unfold Agent.propose. simpl. unfold plan_with_tools, _execute_plan.
    rewrite Hs. now destruct (parse_action response). }
  assert (Hpa : parse_action response
                = bind (ensure_key "name" (PStr "noop") v) (fun action =>
                  bind (ensure_key "args" (PDict []) action) (fun action =>
                  ensure_key "reason" (PStr "Claude response") action)))
    by (unfold ClaudePlanner.parse_action; now rewrite Hj).
  pose proof (ensure_key_member "name" (PStr "noop") v Hv) as H1.
  pose proof (ensure_key_member "args" (PDict []) v Hv) as H2.
  pose proof (ensure_key_member "reason" (PStr "Claude response") v Hv) as H3.
  cbv zeta in H1, H2, H3. fold (member "name") in H1.
  fold (member "args") in H2. fold (member "reason") in H3.
  destruct (member "name").
  2:{ destruct H1 as [text H1]. exists text.
      rewrite Hp, Hpa, H1. reflexivity. }
  destruct (member "args").
  2:{ destruct H2 as [text H2]. exists text.
      rewrite Hp, Hpa, H1. simpl. rewrite H2. reflexivity. }
  destruct (member "reason").
  2:{ destruct H3 as [text H3]. exists text.
      rewrite Hp, Hpa, H1. simpl. rewrite H2. simpl. rewrite H3.
      reflexivity. }
  simpl.
  assert (Hpr : Agent.propose claude tools w st1 ctx = (w1, Returned v)).
  { rewrite Hp, Hpa, H1. simpl. rewrite H2. simpl. now rewrite H3. }
  split; [exact Hpr|].
  unfold Agent.loop_body. cbv zeta. fold st1 ctx. rewrite Hpr.
  unfold Agent.handle_proposal.
  destruct v as [| | | | |d]; try reflexivity. now destruct (Hv d).
Qed.

End ParsedActions.

(** An object with a name and a key of its own, and no args or reason. *)
Lemma parsed_action_keeps_entries_witness :
  exists d' : Py.dict,
    ClaudePlanner.parse_action
      (Fixtures.json_of (PDict [("name", PStr "read_file");
                                ("confidence", PInt 9)]))
      "{...}"
    = Returned (PDict d') /\
    Py.lookup "name" d' = Some (PStr "read_file") /\
    Py.lookup "confidence" d' = Some (PInt 9) /\
    Py.lookup "args" d' = Some (PDict []) /\
    Py.lookup "reason" d' = Some (PStr "Claude response").
Proof.
  destruct (parsed_action_keeps_entries
              (Fixtures.json_of (PDict [("name", PStr "read_file");
                                        ("confidence", PInt 9)]))
              "{...}" _ eq_refl)
    as (d' & Hp & Hk & Hn & Ha & Hr & _).
  exists d'. split; [exact Hp|]. split; [exact Hn|].
  split; [apply Hk; reflexivity|]. split; [exact Ha | exact Hr].
Defined.

(** The model answers with a quoted sentence instead of an object. *)
Lemma non_object_plan_witness :
  Agent.loop_body Scenarios.repr_stub Scenarios.noop_only
    (ClaudePlanner.planner
       (Fixtures.answering "a text")
       (Fixtures.json_of (PStr "Give a name, args and a reason."))
       Scenarios.no_prompt Scenarios.no_tools_prompt)
    tt Scenarios.three_steps Memory.init
  = Agent.Fault (mkExn AttributeError "object has no attribute 'get'").
Proof.
  pose proof (non_object_plan Scenarios.repr_stub
                (Fixtures.answering "a text")
                (Fixtures.json_of (PStr "Give a name, args and a reason."))
                Scenarios.no_prompt Scenarios.no_tools_prompt
                Scenarios.noop_only tt tt Scenarios.three_steps Memory.init
                "a text" (PStr "Give a name, args and a reason.")
                eq_refl eq_refl ltac:(discriminate)) as H.
  cbv zeta in H.
  change (PyStr.contains "name" "Give a name, args and a reason."
          && PyStr.contains "args" "Give a name, args and a reason."
          && PyStr.contains "reason" "Give a name, args and a reason.")%bool
    with true in H.
  exact (proj2 H).
Defined.
Section Fences.
Import PyStr.

Lemma rstrip_blank (ws : string) : lstrip ws = "" -> rstrip ws = "".
Proof.
  induction ws as [|c ws IH]; simpl; [reflexivity|].
  destruct (is_space c); [|discriminate].
  intros H. now rewrite (IH H).
Qed.

Lemma rstrip_app_blank (x ws : string) :
  lstrip ws = "" -> rstrip (x ++ ws) = rstrip x.
Proof.
  intros H. induction x as [|c x IH]; simpl;
    [now apply rstrip_blank | now rewrite IH].
Qed.

Lemma rstrip_app_kept (x t : string) :
  rstrip t = t -> t <> "" -> rstrip (x ++ t) = x ++ t.
Proof.
  intros Ht Hne. induction x as [|c x IH]; simpl; [exact Ht|].
  rewrite IH. destruct (x ++ t) eqn:E; [|reflexivity].
  destruct x; simpl in E; [contradiction | discriminate].
Qed.

Lemma strip_fenced (ws1 ws2 inner : string) :
  lstrip ws1 = "" -> lstrip ws2 = "" ->
  strip (ws1 ++ "```" ++ inner ++ "```" ++ ws2) = "```" ++ inner ++ "```".
Proof.
  intros H1 H2. unfold strip. rewrite lstrip_blank_app by assumption.
  change (lstrip ("```" ++ inner ++ "```" ++ ws2))
    with ("```" ++ inner ++ "```" ++ ws2).
  replace ("```" ++ inner ++ "```" ++ ws2)
    with ((("```" ++ inner) ++ "```") ++ ws2)
    by now rewrite !append_assoc.
  rewrite rstrip_app_blank by assumption.
  rewrite rstrip_app_kept by (reflexivity || discriminate).
  now rewrite append_assoc.
Qed.

Lemma startswith_json_fence (body : string) :
  startswith "json" (body ++ "```") = startswith "json" body.
Proof.
  destruct body as [|c0 [|c1 [|c2 [|c3 body]]]]; try reflexivity;
    cbn [String.append startswith];
    repeat match goal with
           | |- context [Ascii.eqb ?a ?b] => destruct (Ascii.eqb a b)
           end; reflexivity.
Qed.

Lemma cut_closing_fence (body : string) :
  endswith "```" (body ++ "```") = true /\
  take (String.length (body ++ "```") - 3) (body ++ "```") = body.
Proof.
  split; [apply endswith_app|].
  rewrite length_app_str.
  replace (String.length body + String.length "```" - 3)%nat
    with (String.length body) by (simpl; lia).
  apply take_app_length.
Qed.

(** X19.  [_execute_plan] reads an answer wrapped in a Markdown fence
    as its content.  With blanks before and after, an answer of the
    form ```json ... ``` or ``` ... ``` is cut down to what stands
    between the fences, blanks around it removed, whatever that
    content is; the word "json" after the opening fence is dropped in
    both forms. *)
Theorem clean_removes_the_fences (ws1 ws2 body : string) :
  lstrip ws1 = "" -> lstrip ws2 = "" ->
  ClaudePlanner.clean (ws1 ++ "```json" ++ body ++ "```" ++ ws2)
  = strip body /\
  ClaudePlanner.clean (ws1 ++ "```" ++ body ++ "```" ++ ws2)
  = strip (if startswith "json" body then drop 4 body else body).
Proof.
  intros H1 H2.
  assert (Hjson : forall inner,
             ClaudePlanner.clean (ws1 ++ "```" ++ ("json" ++ inner)
                                  ++ "```" ++ ws2) = strip inner).
  { intros inner. unfold ClaudePlanner.clean. cbv zeta.
    rewrite strip_fenced by assumption.
    change (startswith "```json" ("```" ++ ("json" ++ inner) ++ "```"))
      with true. cbv iota.
    change (drop 7 ("```" ++ ("json" ++ inner) ++ "```"))
      with (inner ++ "```").
    destruct (cut_closing_fence inner) as [-> ->]. reflexivity. }
  split; [exact (Hjson body)|].
  destruct (startswith "json" body) eqn:Ej.
  - destruct (startswith_inv _ _ Ej) as [inner ->].
    change (drop 4 ("json" ++ inner)) with inner. apply Hjson.
  - unfold ClaudePlanner.clean. cbv zeta.
    rewrite strip_fenced by assumption.
    change (startswith "```json" ("```" ++ body ++ "```"))
      with (startswith "json" (body ++ "```")).
    rewrite startswith_json_fence, Ej.
    change (startswith "```" ("```" ++ body ++ "```")) with true. cbv iota.
    change (drop 3 ("```" ++ body ++ "```")) with (body ++ "```").
    destruct (cut_closing_fence body) as [-> ->]. reflexivity.
Qed.

End Fences.

Lemma clean_removes_the_fences_witness :
  PyStr.lstrip " " = "" /\ PyStr.lstrip "  " = "" /\
  ClaudePlanner.clean (" " ++ "```json" ++ " {} " ++ "```" ++ "  ") = "{}".
Proof.
  split; [reflexivity|]. split; [reflexivity|].
  rewrite (proj1 (clean_removes_the_fences " " "  " " {} " eq_refl eq_refl)).
  reflexivity.
Defined.
(* ===================================================================== *)
(** * [QueryParser._call_llm]: what becomes of the model's answer *)
(* ===================================================================== *)

Section FencedAnswers.
Import PyStr LLMParser.

Lemma no_backtick_cons (c : ascii) (s : string) :
  contains "`" (String c s) = false ->
  Ascii.eqb "`" c = false /\ contains "`" s = false.
Proof.
  cbn [contains startswith].
  destruct (Ascii.eqb "`" c); cbn [andb]; [discriminate | now split].
Qed.

Lemma after_first_fence (pre rest : string) :
  contains "`" pre = false ->
  after_first "```" (pre ++ "```" ++ rest) = Some rest.
Proof.
  induction pre as [|c pre IH]; intros H; [reflexivity|].
  destruct (no_backtick_cons _ _ H) as [Hc Hs].
  change (String c pre ++ "```" ++ rest) with (String c (pre ++ "```" ++ rest)).
  cbn [after_first].
  replace (strip_prefix "```" (String c (pre ++ "```" ++ rest))) with (@None string)
    by (cbn [strip_prefix]; now rewrite Hc).
  now apply IH.
Qed.

Lemma before_first_fence (body post : string) :
  contains "`" body = false ->
  before_first "```" (body ++ "```" ++ post) = body /\
  before_first "```" body = body.
Proof.
  induction body as [|c body IH]; intros H; [split; reflexivity|].
  destruct (no_backtick_cons _ _ H) as [Hc Hs].
  destruct (IH Hs) as [IH1 IH2].
  assert (Hs3 : forall rest, startswith "```" (String c rest) = false)
    by (intros rest; cbn [startswith]; now rewrite Hc).
  split.
  - change (String c body ++ "```" ++ post)
      with (String c (body ++ "```" ++ post)).
    cbn [before_first]. now rewrite Hs3, IH1.
  - cbn [before_first]. now rewrite Hs3, IH2.
Qed.

Lemma no_fence (s : string) :
  contains "`" s = false -> contains "```" s = false.
Proof.
  induction s as [|c s IH]; intros H; [reflexivity|].
  destruct (no_backtick_cons _ _ H) as [Hc Hs].
  cbn [contains].
  replace (startswith "```" (String c s)) with false
    by (cbn [startswith]; now rewrite Hc).
  now apply IH.
Qed.

(** X20.  [_call_llm] reads the first fenced block of an answer.  When
    the answer holds a Markdown fence, everything before the first
    fence and everything from the second fence on is dropped, prose
    included; a leading "json" is dropped from what is left, and
    blanks around it; an opening fence that is never closed is
    accepted.  An answer without a fence is read as a whole, blanks
    removed. *)
Theorem unfence_reads_the_first_block (pre body post : string) :
  contains "`" pre = false -> contains "`" body = false ->
  unfence (pre ++ "```json" ++ body ++ "```" ++ post) = strip body /\
  unfence (pre ++ "```json" ++ body) = strip body /\
  unfence (pre ++ "```" ++ body ++ "```" ++ post)
  = strip (if startswith "json" body then drop 4 body else body) /\
  unfence body = strip body.
Proof.
  intros Hp Hb.
  assert (Hin : forall inner rest,
             contains "`" inner = false ->
             (rest = "" \/ exists post', rest = "```" ++ post') ->
             unfence (pre ++ "```" ++ inner ++ rest)
             = strip (if startswith "json" inner
                      then drop 4 inner else inner)).
  { intros inner rest Hi Hr. unfold unfence. cbv zeta.
    rewrite (contains_intro "```" pre (inner ++ rest)).
    unfold second_part. rewrite after_first_fence by assumption.
    destruct (before_first_fence inner "" Hi) as [_ H0].
    destruct Hr as [-> | [post' ->]].
    - now rewrite append_empty_r, H0.
    - now rewrite (proj1 (before_first_fence inner post' Hi)). }
  assert (Hj : contains "`" ("json" ++ body) = false) by exact Hb.
  split; [|split; [|split]].
  - apply (Hin ("json" ++ body) ("```" ++ post) Hj). right. now exists post.
  - rewrite <- (append_empty_r ("```json" ++ body)).
    change (("```json" ++ body) ++ "") with ("```" ++ ("json" ++ body) ++ "").
    apply (Hin ("json" ++ body) "" Hj). now left.
  - apply (Hin body ("```" ++ post) Hb). right. now exists post.
  - unfold unfence. cbv zeta. now rewrite (no_fence _ Hb).
Qed.

End FencedAnswers.

Lemma unfence_reads_the_first_block_witness :
  PyStr.contains "`" "Here it is: " = false /\
  PyStr.contains "`" " {} " = false /\
  LLMParser.unfence ("Here it is: " ++ "```json" ++ " {} " ++ "```"
                     ++ " Anything else?") = "{}".
Proof.
  split; [reflexivity|]. split; [reflexivity|].
  rewrite (proj1 (unfence_reads_the_first_block "Here it is: " " {} "
                    " Anything else?" eq_refl eq_refl)).
  reflexivity.
Defined.

Section BadAnswers.
Import PyStr LLMParser GoogleAgent GoogleAgentTasks.
Context {W : Type}.
Variable b : GoogleTools.bodies (W := W).
Variable messages_create : string -> Z -> Outcome Response.
Variable json_loads : string -> Outcome PyVal.

(** An answer that cannot be used is not an error for
    [_call_llm]: a text that is not JSON, a response with no content
    and a response whose first block has no text all give the empty
    dictionary; only the request itself, and an exception of
    [json.loads] other than [JSONDecodeError], raise.  A JSON value
    that is not an object is returned as it is. *)
Lemma call_llm_swallows_bad_answers (prompt : string) :
  match messages_create prompt 500 with
  | Raised e => _call_llm messages_create json_loads prompt = Raised e
  | Returned EmptyContent | Returned NoText =>
      _call_llm messages_create json_loads prompt = Returned (PDict [])
  | Returned (Text text) =>
      (forall v, json_loads (unfence text) = Returned v ->
                 _call_llm messages_create json_loads prompt = Returned v) /\
      (forall e, json_loads (unfence text) = Raised e ->
                 exn_class e = JSONDecodeError ->
                 _call_llm messages_create json_loads prompt
                 = Returned (PDict [])) /\
      (forall e, json_loads (unfence text) = Raised e ->
                 exn_class e <> JSONDecodeError ->
                 exn_class e <> AttributeError ->
                 _call_llm messages_create json_loads prompt = Raised e)
  end.
Proof.
  unfold _call_llm.
  destruct (messages_create prompt 500) as [[text| |]|e]; try reflexivity.
  split; [|split].
  - now intros v ->.
  - now intros e -> ->.
  - intros e -> H1 H2. now destruct (exn_class e).
Qed.

(** X21.  An empty answer of the parser is not a reason to fall back
    on the keywords.  When the LLM parser names "query_gmail" and
    answers the Gmail query with the empty dictionary (as [_call_llm]
    does for an answer it cannot read), the parameters are empty, the
    keyword extraction is not used, [QueryGmail.run] is called without
    its "query" and raises before its body; the step is recorded with
    this failure, the world is untouched, and the task is reported
    with ok = True and no result. *)
Theorem empty_answer_is_no_fallback (parser : QueryParser)
        (now : Datetime.date) (timestamp : string) (self : t) (w : W)
        (goal : string) (max_steps : Z) :
  determine_tool parser goal = Returned "query_gmail" ->
  parse_gmail_query parser goal = Returned (PDict []) ->
  1 <= max_steps ->
  let failure :=
    PDict [("ok", PBool false);
           ("error",
            PStr ("Failed to execute query_gmail: "
                  ++ "QueryGmail.run() missing 1 required positional "
                  ++ "argument: 'query'"))] in
  execute_task (GoogleTools.tools b) (Some parser) now timestamp self w
               goal max_steps
  = (mk (task_history self ++
           [mkTask goal timestamp [mkStep "query_gmail" (PDict []) failure] PNone
                   None (_suggest_tools goal PNone)])%list
        (_suggest_tools goal PNone),
     w,
     PDict [("ok", PBool true);
            ("goal", PStr goal);
            ("result", PNone);
            ("steps_executed", PInt 1);
            ("suggested_tools", PList (map PStr (_suggest_tools goal PNone)));
            ("task_id",
             PInt (Z.of_nat (List.length (task_history self ++
                [mkTask goal timestamp [mkStep "query_gmail" (PDict []) failure]
                        PNone None (_suggest_tools goal PNone)])%list) - 1))]).
Proof.
  intros Hd Hp Hm failure.
  unfold execute_task, _determine_tools. cbv zeta. rewrite Hd.
  cbn [run_tools].
  replace (max_steps <=? 0) with false by (symmetry; apply Z.leb_gt; lia).
  cbn [GoogleAgentTasks._extract_parameters String.eqb Ascii.eqb Bool.eqb].
  rewrite Hp. unfold call_execute. cbn [colliding].
  rewrite (execute_bound b "query_gmail" _ GoogleTools.QueryGmail_sig
             (GoogleTools.query_gmail b)) by reflexivity.
  reflexivity.
Qed.

End BadAnswers.

(** "Any unread mail in my inbox?": the keywords would have given the
    query "in:inbox is:unread in:inbox"; the log of the world stays
    empty. *)
Lemma empty_answer_is_no_fallback_witness :
  exists (self' : GoogleAgentTasks.t) (suggested : list PyVal),
    GoogleAgentTasks.execute_task
      (GoogleTools.tools Fixtures.logging_bodies)
      (Some Fixtures.puzzled_parser) Scenarios.mid_december_2024
      "2024-12-15T09:00:00" GoogleAgentTasks.init []
      "Any unread mail in my inbox?" 10
    = (self', [],
       PDict [("ok", PBool true);
              ("goal", PStr "Any unread mail in my inbox?");
              ("result", PNone);
              ("steps_executed", PInt 1);
              ("suggested_tools", PList suggested);
              ("task_id", PInt 0)]) /\
    GoogleAgent._extract_parameters None Scenarios.mid_december_2024
      "Any unread mail in my inbox?" "query_gmail"
    = Returned [("query", PStr "in:inbox is:unread in:inbox")].
Proof.
  do 2 eexists. split; [|reflexivity].
  rewrite (empty_answer_is_no_fallback Fixtures.logging_bodies
             Fixtures.puzzled_parser Scenarios.mid_december_2024
             "2024-12-15T09:00:00" GoogleAgentTasks.init []
             "Any unread mail in my inbox?" 10 eq_refl eq_refl ltac:(lia)).
  reflexivity.
Defined.
(* ===================================================================== *)
(** * [SafeWriteFile] *)
(* ===================================================================== *)

Section Overwrite.
Import PyStr Filesystem.
Context {W : Type}.
Variable sys : System (W := W).

(** X22.  [SafeWriteFile] writes only when told to overwrite.  Called
    with [**args], it leaves the world as it is and answers
    {"ok": False, "error": "overwrite flag not set"}, or raises the
    [TypeError] of a call that does not bind, unless [args] is a
    dictionary that gives "path" and "content", no key other than
    these and "overwrite", and a truthy "overwrite"; then, and only
    then, the file is opened for writing. *)
Theorem write_needs_overwrite (w : W) (args : PyVal) :
  (exists kw : Py.dict,
      args = PDict kw /\
      Py.has_key "path" kw = true /\ Py.has_key "content" kw = true /\
      Py.truthy (Py.get "overwrite" (PBool false) kw) = true /\
      (forall k v, In (k, v) kw ->
                   k = "path" \/ k = "content" \/ k = "overwrite") /\
      run (SafeWriteFile sys) w args
      = match write_text sys w (Py.get "path" PNone kw)
                         (Py.get "content" PNone kw) with
        | (w', Returned _) => (w', Returned (PDict [("ok", PBool true)]))
        | (w', Raised e) => (w', Raised e)
        end)
  \/
  (run (SafeWriteFile sys) w args
   = (w, Returned (PDict [("ok", PBool false);
                          ("error", PStr "overwrite flag not set")])) \/
   exists text : string,
     run (SafeWriteFile sys) w args = (w, Raised (mkExn TypeError text))).
Proof.
  destruct args as [| | | | |kw]; try (right; right; eexists; reflexivity).
  simpl. unfold Call.method.
  destruct (Call.bind SafeWriteFile_sig kw) as [[]|e] eqn:Hb.
  2:{ right. right. unfold Call.bind in Hb.
      destruct (Call.first_unexpected SafeWriteFile_sig kw) as [key|].
      { destruct (String.eqb key "self"); injection Hb as <-;
          eexists; reflexivity. }
      destruct (Call.missing SafeWriteFile_sig kw);
        [discriminate | injection Hb as <-; eexists; reflexivity]. }
  unfold SafeWriteFile_body. cbv zeta.
  destruct (Py.truthy (Py.get "overwrite" (PBool false) kw)) eqn:Ho;
    [|right; left; reflexivity].
  left. exists kw. split; [reflexivity|].
  unfold Call.bind in Hb.
  destruct (Call.first_unexpected SafeWriteFile_sig kw) as [key|] eqn:Hu;
    [destruct (String.eqb key "self"); discriminate|].
  destruct (Call.missing SafeWriteFile_sig kw) eqn:Hm; [|discriminate].
  unfold Call.missing in Hm. simpl in Hm.
  destruct (Py.has_key "path" kw) eqn:Hp;
    [|simpl in Hm; discriminate].
  destruct (Py.has_key "content" kw) eqn:Hc;
    [|simpl in Hm; discriminate].
  split; [reflexivity|]. split; [reflexivity|]. split; [exact Ho|].
  split; [|reflexivity].
  clear -Hu. induction kw as [|[k0 v0] kw IH]; intros k v Hin;
    [contradiction|].
  simpl in Hu. unfold Call.takes in Hu. simpl in Hu.
  destruct (String.eqb_spec k0 "path") as [E1|E1].
  { destruct Hin as [[= <- <-] | Hin]; [tauto | now apply (IH Hu k v)]. }
  destruct (String.eqb_spec k0 "content") as [E2|E2].
  { destruct Hin as [[= <- <-] | Hin]; [tauto | now apply (IH Hu k v)]. }
  destruct (String.eqb_spec k0 "overwrite") as [E3|E3]; [|discriminate].
  destruct Hin as [[= <- <-] | Hin]; [tauto | now apply (IH Hu k v)].
Qed.

End Overwrite.
(* ===================================================================== *)
(** * The Gmail query of a goal that names no sender *)
(* ===================================================================== *)

Section FolderQueries.
Import PyStr GoogleAgent.

(** X23.  Without an address in the goal, the Gmail query is the
    folder clause, chosen in the order inbox, sent, draft (the first
    word found decides, and no word gives the empty query), followed
    for an "unread" goal by "is:unread" and, when the goal mentions
    the inbox, by "in:inbox" once more: an unread-inbox goal gives
    "in:inbox is:unread in:inbox".  The parameter count_all = True is
    added exactly when the goal contains "how many", "count" or
    "total", and no other parameter is ever set. *)
Theorem folder_query_without_sender (goal : string) :
  Regex.findall_email goal = [] ->
  let gl := lower goal in
  let folder :=
    if contains "inbox" gl then "in:inbox"
    else if contains "sent" gl then "in:sent"
    else if contains "draft" gl then "in:draft"
    else "" in
  let query :=
    if contains "unread" gl
    then (if String.eqb folder "" then "is:unread"
          else folder ++ " is:unread") ++ inbox_clause gl
    else folder in
  gmail_parameters goal
  = ("query", PStr query)
    :: (if contains_any ["how many"; "count"; "total"] gl
        then [("count_all", PBool true)] else []) /\
  (contains "inbox" gl = true -> contains "unread" gl = true ->
   query = "in:inbox is:unread in:inbox").
Proof.
  intros He gl folder query. split.
  - remember (gmail_parameters goal) as p eqn:E.
    cbv delta [gmail_parameters] in E. cbv beta in E.
    name_let E. name_let E. name_let E.
    change goal_lower with gl in *. clear goal_lower.
    assert (H1 : params0 = [("query", PStr folder)]).
    { subst params0 params folder.
      destruct (contains "inbox" gl), (contains "sent" gl),
        (contains "draft" gl); reflexivity. }
    clearbody params0. subst params0.
    name_let E.
    assert (H2 : params0 = [("query", PStr folder)])
      by (subst params0; now rewrite He).
    clearbody params0. subst params0.
    name_let E.
    assert (H3 : params0 = [("query", PStr query)]).
    { subst params0 query. unfold append_to, inbox_clause.
      destruct (contains "unread" gl); [|reflexivity].
      cbn [Py.get Py.lookup String.eqb Ascii.eqb Bool.eqb Py.truthy].
      destruct (String.eqb folder ""); cbn [negb];
        destruct (contains "inbox" gl);
        cbn [Py.set Py.lookup String.eqb Ascii.eqb Bool.eqb];
        now rewrite ?append_assoc, ?append_empty_r. }
    clearbody params0. subst params0 p.
    now destruct (contains_any _ gl).
  - intros Hi Hu. subst query folder. unfold inbox_clause.
    now rewrite Hi, Hu.
Qed.

End FolderQueries.

Lemma folder_query_without_sender_witness :
  Regex.findall_email "How many unread emails in my inbox?" = [] /\
  GoogleAgent.gmail_parameters "How many unread emails in my inbox?"
  = [("query", PStr "in:inbox is:unread in:inbox");
     ("count_all", PBool true)].
Proof.
  split; [reflexivity|].
  rewrite (proj1 (folder_query_without_sender
                    "How many unread emails in my inbox?" eq_refl)).
  reflexivity.
Defined.
